(** * Apnea training tables: table generator and session engines

    A shallow embedding of the breath-hold training assistant:

    - [src/lib/tables.ts]: the CO2 and O2 table generators;
    - the two revisions of the [TrainingController] React component:
      the two-phase engine ([prep]/[hold], with the pseudo phases [ready]
      and [finished]) and the three-phase engine
      ([prep]/[hold]/[recovery]/[finished]).

    The generators are pure functions.  They are given twice: on integers
    in exact arithmetic, which the session engines and most statements use,
    and in IEEE binary64, as the source computes ([Binary64]); the two
    agree on every personal best the forms accept.

    The controllers are React function components: their state lives in
    [useState] hooks, and the countdown is driven by [useEffect] hooks and
    a single-shot [setTimeout].  The embedding keeps that structure: a handler or an effect body reads the
    values captured by the render it belongs to (its closure) and queues
    state updates; the queued updates become visible in the next render; a
    commit runs the effects whose dependencies changed since the previous
    render; a render happens only when some state changed; the timer
    callback fires only while armed. *)

From Stdlib Require Import ZArith QArith Qround Floats Lia.
From stdpp Require Import base decidable option list strings.

Local Open Scope Z_scope.

(** ** JavaScript arithmetic used by the generators *)

(** [Math.round]: the nearest integer, ties towards plus infinity. *)
Definition Math_round (x : Q) : Z := Qfloor (x + (1 # 2)).

(** [Math.max] on integers. *)
Definition Math_max (a b : Z) : Z := Z.max a b.

(** [for (let i = lo; i <= hi; i++) body]: the loop variable, the bound and
    the accumulated value; [fuel] bounds the number of iterations. *)
Fixpoint for_upto {A : Type} (fuel : nat) (i hi : Z) (body : Z -> A -> A)
    (acc : A) : A :=
  match fuel with
  | O => acc
  | S fuel' =>
      if i <=? hi then for_upto fuel' (i + 1) hi body (body i acc) else acc
  end.

(** ** [src/lib/types.ts] *)

(** A training round.  The object literals built by the generators carry the
    properties [round], [prep] and [hold]; the later revision of the type
    also declares [recovery].  A property that was never assigned reads as
    [undefined], which is [None] here. *)
Record TrainingRound : Type := mkRound {
  round : Z;
  prep : Z;
  hold : Z;
  recovery : option Z
}.

#[global] Instance TrainingRound_eq_dec : EqDecision TrainingRound.
Proof. solve_decision. Defined.

Inductive TableType : Type := co2 | o2.

#[global] Instance TableType_eq_dec : EqDecision TableType.
Proof. solve_decision. Defined.

(** ** [src/lib/tables.ts]

    The generators on integers, in exact arithmetic.  The source computes
    on JavaScript numbers, that is in IEEE binary64; the module [Binary64]
    below is that computation, operation by operation.  The two agree on
    every personal best from 1 to 600 seconds, which covers what the forms
    of both components pass ([generators_agree_on]); they differ on large
    inputs, where the binary64 product and sums are rounded. *)

Definition NUM_ROUNDS : Z := 8.

(** [table.push(r)] *)
Definition push (r : TrainingRound) (table : list TrainingRound) :
    list TrainingRound :=
  table ++ [r].

Definition generateCo2Table (personalBestInSeconds : Z) : list TrainingRound :=
  let table := [] in
  let holdTime :=
    Math_max 30 (Math_round (inject_Z personalBestInSeconds * 0.60)) in
  let startPrepTime := holdTime + 75 in
  let decreaseStep := 15 in
  for_upto (S (Z.to_nat NUM_ROUNDS)) 1 NUM_ROUNDS
    (fun i table =>
       let prepTime := Math_max 30 (startPrepTime - ((i - 1) * decreaseStep)) in
       push {| round := i; prep := prepTime; hold := holdTime;
               recovery := None |} table)
    table.

Definition generateO2Table (personalBestInSeconds : Z) : list TrainingRound :=
  let table := [] in
  let startHoldTime :=
    Math_max 45 (Math_round (inject_Z personalBestInSeconds * 0.5)) in
  let recoveryTime := 120 in
  let holdIncrement := 10 in
  for_upto (S (Z.to_nat NUM_ROUNDS)) 1 NUM_ROUNDS
    (fun i table =>
       push {| round := i; prep := recoveryTime;
               hold := startHoldTime + ((i - 1) * holdIncrement);
               recovery := None |} table)
    table.

(** *** The same products in IEEE binary64

    The source multiplies in double precision.  [double_to_Q] reads a finite
    double as the rational it denotes, so that [Math_round] can be applied to
    the double product and compared with the exact one. *)

(** The double nearest to an integer from 0 to 2^63 - 1; it denotes that
    integer whenever binary64 represents it, in particular below 2^53. *)
Definition double_of_Z (z : Z) : float := PrimFloat.of_uint63 (Uint63.of_Z z).

Definition double_to_Q (f : float) : option Q :=
  match Prim2SF f with
  | S754_zero _ => Some 0%Q
  | S754_finite s m e =>
      let n := if s then Z.neg m else Z.pos m in
      Some (if 0 <=? e then inject_Z (n * 2 ^ e)
            else Qmake n (Z.to_pos (2 ^ (- e))))
  | _ => None
  end.

Definition Math_round_double (f : float) : option Z :=
  Math_round <$> double_to_Q f.

(** The double nearest to 0.60 and the (exact) double 0.5. *)
Definition double_060 : float := 0x1.3333333333333p-1%float.
Definition double_05 : float := 0x1p-1%float.

(** The [n] integers from [lo] upwards. *)
Fixpoint Zrange (lo : Z) (n : nat) : list Z :=
  match n with
  | O => []
  | S n' => lo :: Zrange (lo + 1) n'
  end.

(** For every personal best below [n], both products round to the same
    integer in double precision as in exact arithmetic. *)
Definition doubles_agree_upto (n : nat) : bool :=
  forallb
    (fun pb =>
       bool_decide
         (Math_round_double (PrimFloat.mul (double_of_Z pb) double_060)
            = Some (Math_round (inject_Z pb * 0.60)))
       && bool_decide
            (Math_round_double (PrimFloat.mul (double_of_Z pb) double_05)
               = Some (Math_round (inject_Z pb * 0.5))))
    (Zrange 0 n).

(** ** [src/lib/tables.ts] as the source computes it

    JavaScript numbers are IEEE binary64 values.  This module is the
    generators over such values, operation by operation. *)
Module Binary64.

(** [Math.max(a, b)]: [NaN] if an argument is [NaN]; of the two zeros the
    positive one is the larger. *)
Definition Math_max (a b : float) : float :=
  if PrimFloat.is_nan a || PrimFloat.is_nan b then nan
  else if PrimFloat.ltb a b then b
  else if PrimFloat.ltb b a then a
  else if PrimFloat.get_sign a then b else a.

(** [Math.round(x)]: [x] itself when it is an integer, a zero, an infinity
    or [NaN]; otherwise the integer [floor(x + 1/2)], computed exactly, with
    the sign of [x] when that integer is 0. *)
Definition Math_round (x : float) : float :=
  match Prim2SF x with
  | S754_finite s m e =>
      if 0 <=? e then x
      else
        let n := Qfloor (Qmake (if s then Z.neg m else Z.pos m)
                           (Z.to_pos (2 ^ (- e))) + (1 # 2)) in
        if n =? 0 then (if s then neg_zero else zero)
        else if n <? 0 then PrimFloat.opp (double_of_Z (- n))
        else double_of_Z n
  | _ => x
  end.

(** [for (let i = lo; i <= hi; i++) body], the loop variable being a
    number. *)
Fixpoint for_upto {A : Type} (fuel : nat) (i hi : float)
    (body : float -> A -> A) (acc : A) : A :=
  match fuel with
  | O => acc
  | S fuel' =>
      if PrimFloat.leb i hi
      then for_upto fuel' (PrimFloat.add i 1) hi body (body i acc)
      else acc
  end.

(** The object literal [{ round, prep, hold }]. *)
Record TrainingRound : Type := mkRound {
  round : float;
  prep : float;
  hold : float
}.

Definition NUM_ROUNDS : float := 8.

Definition push (r : TrainingRound) (table : list TrainingRound) :
    list TrainingRound :=
  table ++ [r].

Definition generateCo2Table (personalBestInSeconds : float) :
    list TrainingRound :=
  let table := [] in
  let holdTime :=
    Math_max 30
      (Math_round (PrimFloat.mul personalBestInSeconds double_060)) in
  let startPrepTime := PrimFloat.add holdTime 75 in
  let decreaseStep := 15%float in
  for_upto 9 1 NUM_ROUNDS
    (fun i table =>
       let prepTime :=
         Math_max 30
           (PrimFloat.sub startPrepTime
              (PrimFloat.mul (PrimFloat.sub i 1) decreaseStep)) in
       push {| round := i; prep := prepTime; hold := holdTime |} table)
    table.

Definition generateO2Table (personalBestInSeconds : float) :
    list TrainingRound :=
  let table := [] in
  let startHoldTime :=
    Math_max 45
      (Math_round (PrimFloat.mul personalBestInSeconds double_05)) in
  let recoveryTime := 120%float in
  let holdIncrement := 10%float in
  for_upto 9 1 NUM_ROUNDS
    (fun i table =>
       push {| round := i; prep := recoveryTime;
               hold := PrimFloat.add startHoldTime
                         (PrimFloat.mul (PrimFloat.sub i 1) holdIncrement) |}
         table)
    table.

End Binary64.

(** The integer a double denotes, if it denotes one. *)
Definition double_to_Z (f : float) : option Z :=
  q ← double_to_Q f;
  let z := Qfloor q in
  if Qeq_bool (inject_Z z) q then Some z else None.

(** A round of doubles read as a round of integers; its [recovery] was
    never assigned. *)
Definition readRound (r : Binary64.TrainingRound) : option TrainingRound :=
  i ← double_to_Z (Binary64.round r);
  p ← double_to_Z (Binary64.prep r);
  h ← double_to_Z (Binary64.hold r);
  Some {| round := i; prep := p; hold := h; recovery := None |}.

Definition readTable (table : list Binary64.TrainingRound) :
    option (list TrainingRound) :=
  mapM readRound table.

(** The table the source returns for the integer personal best [pb]
    (between 0 and 2^53, where [double_of_Z] is exact), read as integers. *)
Definition co2TableOfSource (pb : Z) : option (list TrainingRound) :=
  readTable (Binary64.generateCo2Table (double_of_Z pb)).

Definition o2TableOfSource (pb : Z) : option (list TrainingRound) :=
  readTable (Binary64.generateO2Table (double_of_Z pb)).

(** On each of the personal bests [pbs], the double passed to the
    generators denotes the personal best, and the binary64 generators
    return the tables of the integer generators. *)
Definition generators_agree_on (pbs : list Z) : bool :=
  forallb
    (fun pb =>
       bool_decide (double_to_Z (double_of_Z pb) = Some pb)
       && bool_decide (co2TableOfSource pb = Some (generateCo2Table pb))
       && bool_decide (o2TableOfSource pb = Some (generateO2Table pb)))
    pbs.

(** ** Cues requested from the audio collaborator

    [playStartSound], [playEndSound] and [playTickSound] only trigger a tone;
    the engines are observed through the sequence of cues they request. *)
Inductive Cue : Type := StartSound | EndSound | TickSound.

#[global] Instance Cue_eq_dec : EqDecision Cue.
Proof. solve_decision. Defined.

(** ** A function component between two events

    [rendered] holds the values captured by the last committed render: what
    handlers, effect bodies and the timer callback close over, and what the
    next dependency comparison is made against.  [hooks] holds the hook
    state including the updates queued since that render.  [timer] tells
    whether [timerId.current] designates a timeout that is still pending,
    [sounds] is the log of requested cues, and [threw] records that a
    handler raised an exception. *)
Record Machine (State : Type) : Type := mkMachine {
  rendered : State;
  hooks : State;
  timer : bool;
  sounds : list Cue;
  threw : bool
}.

Arguments mkMachine {State} _ _ _ _ _.
Arguments rendered {State} _.
Arguments hooks {State} _.
Arguments timer {State} _.
Arguments sounds {State} _.
Arguments threw {State} _.

#[global] Instance Machine_eq_dec {State : Type} `{EqDecision State} :
  EqDecision (Machine State).
Proof. solve_decision. Defined.

Section Actions.
Context {State : Type}.

(** Handlers and effect bodies are sequences of actions on the machine. *)
Definition Action : Type := Machine State -> Machine State.

Definition skip : Action := fun m => m.

(** The statements of a block, run in order. *)
Definition block (body : list Action) : Action := fun m =>
  foldl (fun m a => a m) m body.

(** A call of a state setter: the update is queued on the hook state. *)
Definition update (f : State -> State) : Action := fun m =>
  {| rendered := rendered m; hooks := f (hooks m); timer := timer m;
     sounds := sounds m; threw := threw m |}.

(** [if (timerId.current) clearTimeout(timerId.current)] *)
Definition clearTimeout : Action := fun m =>
  {| rendered := rendered m; hooks := hooks m; timer := false;
     sounds := sounds m; threw := threw m |}.

(** [timerId.current = setTimeout(callback, 1000)] *)
Definition setTimeout : Action := fun m =>
  {| rendered := rendered m; hooks := hooks m; timer := true;
     sounds := sounds m; threw := threw m |}.

Definition play (c : Cue) : Action := fun m =>
  {| rendered := rendered m; hooks := hooks m; timer := timer m;
     sounds := sounds m ++ [c]; threw := threw m |}.

Definition playStartSound : Action := play StartSound.
Definition playEndSound : Action := play EndSound.
Definition playTickSound : Action := play TickSound.

(** An uncaught [TypeError]: the rest of the handler is not run. *)
Definition raise : Action := fun m =>
  {| rendered := rendered m; hooks := hooks m; timer := timer m;
     sounds := sounds m; threw := true |}.

(** The render of the queued state: its values become the captured ones. *)
Definition render (m : Machine State) : Machine State :=
  {| rendered := hooks m; hooks := hooks m; timer := timer m;
     sounds := sounds m; threw := threw m |}.

(** The pending timeout elapses and its callback runs. *)
Definition elapse (callback : State -> Action) (m : Machine State) :
    Machine State :=
  callback (rendered m)
    {| rendered := rendered m; hooks := hooks m; timer := false;
       sounds := sounds m; threw := threw m |}.

(** A handler of the last render runs. *)
Definition handle (handler : State -> Action) (m : Machine State) :
    Machine State :=
  handler (rendered m)
    {| rendered := rendered m; hooks := hooks m; timer := timer m;
       sounds := sounds m; threw := false |}.

Context `{EqDecision State}.

(** No update is queued: React does not render again. *)
Definition settled (m : Machine State) : bool :=
  bool_decide (hooks m = rendered m).

Section Scheduling.
(** [commit] renders and runs the effects of the component; [callback]
    is the function handed to [setTimeout]. *)
Variable commit : Machine State -> Machine State.
Variable callback : State -> Action.

(** One step of the component: commit a pending render, else let the
    armed timer fire, else stay idle. *)
Definition step (m : Machine State) : Machine State :=
  if settled m then (if timer m then elapse callback m else m)
  else commit m.

Fixpoint run (n : nat) (m : Machine State) : Machine State :=
  match n with
  | O => m
  | S n' => run n' (step m)
  end.

(** Commit renders until no update is queued. *)
Fixpoint settle (fuel : nat) (m : Machine State) : Machine State :=
  match fuel with
  | O => m
  | S fuel' => if settled m then m else settle fuel' (commit m)
  end.
End Scheduling.
End Actions.

Arguments Action State : clear implicits.

(** ** The two-phase engine

    The revision of [TrainingController] whose phase is one of
    ['prep'], ['hold'], ['finished'] and ['ready']. *)
Module TwoPhase.

Inductive Phase : Type := Prep | Hold | Finished | Ready.

#[global] Instance Phase_eq_dec : EqDecision Phase.
Proof. solve_decision. Defined.

(** The [useState] hooks of the component. *)
Record State : Type := mkState {
  tableType : TableType;
  tableData : option (list TrainingRound);
  isSessionActive : bool;
  currentRoundIndex : nat;
  currentPhase : Phase;
  timeRemaining : Z;
  showStopModal : bool;
  showAlert : bool;
  alertMessage : string
}.

#[global] Instance State_eq_dec : EqDecision State.
Proof. solve_decision. Defined.

Definition setTableType (v : TableType) : Action State :=
  update (fun s => mkState v (tableData s) (isSessionActive s)
    (currentRoundIndex s) (currentPhase s) (timeRemaining s)
    (showStopModal s) (showAlert s) (alertMessage s)).

Definition setTableData (v : option (list TrainingRound)) : Action State :=
  update (fun s => mkState (tableType s) v (isSessionActive s)
    (currentRoundIndex s) (currentPhase s) (timeRemaining s)
    (showStopModal s) (showAlert s) (alertMessage s)).

Definition setIsSessionActive (v : bool) : Action State :=
  update (fun s => mkState (tableType s) (tableData s) v
    (currentRoundIndex s) (currentPhase s) (timeRemaining s)
    (showStopModal s) (showAlert s) (alertMessage s)).

(** [setCurrentRoundIndex] and [setTimeRemaining] are also called with an
    updater function ([prev => prev + 1], [t => t - 1]). *)
Definition setCurrentRoundIndex (f : nat -> nat) : Action State :=
  update (fun s => mkState (tableType s) (tableData s) (isSessionActive s)
    (f (currentRoundIndex s)) (currentPhase s) (timeRemaining s)
    (showStopModal s) (showAlert s) (alertMessage s)).

Definition setCurrentPhase (v : Phase) : Action State :=
  update (fun s => mkState (tableType s) (tableData s) (isSessionActive s)
    (currentRoundIndex s) v (timeRemaining s)
    (showStopModal s) (showAlert s) (alertMessage s)).

Definition setTimeRemaining (f : Z -> Z) : Action State :=
  update (fun s => mkState (tableType s) (tableData s) (isSessionActive s)
    (currentRoundIndex s) (currentPhase s) (f (timeRemaining s))
    (showStopModal s) (showAlert s) (alertMessage s)).

Definition setShowStopModal (v : bool) : Action State :=
  update (fun s => mkState (tableType s) (tableData s) (isSessionActive s)
    (currentRoundIndex s) (currentPhase s) (timeRemaining s)
    v (showAlert s) (alertMessage s)).

Definition setShowAlert (v : bool) : Action State :=
  update (fun s => mkState (tableType s) (tableData s) (isSessionActive s)
    (currentRoundIndex s) (currentPhase s) (timeRemaining s)
    (showStopModal s) v (alertMessage s)).

Definition setAlertMessage (v : string) : Action State :=
  update (fun s => mkState (tableType s) (tableData s) (isSessionActive s)
    (currentRoundIndex s) (currentPhase s) (timeRemaining s)
    (showStopModal s) (showAlert s) v).

(** [advancePhase], closed over the state [c] of the render that created it. *)
Definition advancePhase (c : State) : Action State :=
  match tableData c with
  | None => skip
  | Some table =>
      match currentPhase c with
      | Hold =>
          if bool_decide
               (Z.of_nat (currentRoundIndex c) = Z.of_nat (length table) - 1)
          then block [ setCurrentPhase Finished; setIsSessionActive false ]
          else block [ setCurrentPhase Prep;
                       setCurrentRoundIndex (fun prev => (prev + 1)%nat) ]
      | Prep => setCurrentPhase Hold
      | _ => skip
      end
  end.

(** The effect with dependencies
    [[isSessionActive, currentPhase, currentRoundIndex, tableData]]:
    it loads the duration of the phase that has just been entered.  Its
    guard returns early unless the session is active, a table is bound and
    the phase is ['prep'] or ['hold']. *)
Definition phaseDeps (s : State) :=
  (isSessionActive s, currentPhase s, currentRoundIndex s, tableData s).

Definition phaseEffect (c : State) : Action State :=
  match isSessionActive c, tableData c, currentPhase c with
  | true, Some table, (Prep | Hold) =>
      match table !! currentRoundIndex c with
      | None => block [ setIsSessionActive false; setCurrentPhase Finished ]
      | Some round =>
          let duration :=
            if bool_decide (currentPhase c = Prep) then prep round
            else hold round in
          block [ setTimeRemaining (fun _ => duration); playStartSound ]
      end
  | _, _, _ => clearTimeout
  end.

(** The effect with dependencies
    [[isSessionActive, timeRemaining, advancePhase]]; [advancePhase] is a
    [useCallback] over [[currentPhase, currentRoundIndex, tableData]], so
    it is a new function exactly when one of those changed. *)
Definition countdownDeps (s : State) :=
  (isSessionActive s, timeRemaining s,
   (currentPhase s, currentRoundIndex s, tableData s)).

Definition countdownEffect (c : State) : Action State :=
  if negb (isSessionActive c) || (timeRemaining c <=? 0) then
    block [ if (timeRemaining c =? 0) && isSessionActive c
            then block [ playEndSound; advancePhase c ]
            else skip;
            clearTimeout ]
  else setTimeout.

(** The cleanup returned by the countdown effect. *)
Definition countdownCleanup : Action State := clearTimeout.

(** The callback handed to [setTimeout]. *)
Definition onTimeout (c : State) : Action State :=
  block [ setTimeRemaining (fun t => t - 1);
          if (1 <? timeRemaining c) && (timeRemaining c <=? 4)
          then playTickSound else skip ].

Definition resetSessionState : Action State :=
  block [ setIsSessionActive false;
          setCurrentRoundIndex (fun _ => 0%nat);
          setCurrentPhase Ready;
          setTimeRemaining (fun _ => 0);
          clearTimeout ].

(** [onSubmit(data)] with [data.pb = pb]. *)
Definition onSubmit (pb : Z) (c : State) : Action State :=
  if bool_decide (tableType c = co2) && (pb <? 30) then
    block [ setAlertMessage
              "Please enter a comfortable Personal Best time of at least 30 seconds for CO₂ tables.";
            setShowAlert true ]
  else if bool_decide (tableType c = o2) && (pb <? 60) then
    block [ setAlertMessage
              "O₂ tables are dangerous. Please enter a Personal Best time of at least 60 seconds to ensure you are experienced enough.";
            setShowAlert true ]
  else
    let newTable :=
      if bool_decide (tableType c = co2) then generateCo2Table pb
      else generateO2Table pb in
    block [ setTableData (Some newTable); resetSessionState ].

(** [startSession] is an [async] function: it returns at once when no table
    is bound, and otherwise suspends at [await Tone.start()].
    [startSessionResumed] is the rest of its body, which runs when the
    promise has resolved; it reads no state.  Other handlers can run in
    between: [TwoPhaseUI] below keeps the two halves apart. *)
Definition startSessionResumed : Action State :=
  block [ setIsSessionActive true;
          setCurrentRoundIndex (fun _ => 0%nat);
          setCurrentPhase Prep ].

(** [startSession] when nothing happens between the click and the
    resolution of [Tone.start()]: both halves in one handler. *)
Definition startSession (c : State) : Action State :=
  match tableData c with
  | None => skip
  | Some _ => startSessionResumed
  end.

Definition stopSession (c : State) : Action State :=
  block [ setIsSessionActive false;
          setShowStopModal false;
          resetSessionState;
          setTableData None ].

Definition handleTabChange (value : TableType) (c : State) : Action State :=
  block [ setTableType value; setTableData None; resetSessionState ].

(** A committed render runs, in declaration order, the effects whose
    dependencies differ from those of the previous render; every body reads
    the state [c] of the render being committed, and the updates they queue
    are applied together afterwards.  (React runs the cleanup before the
    effect bodies; the phase effect can only clear the timeout, so the
    order written here gives the same machine.) *)
Definition commit (m : Machine State) : Machine State :=
  let p := rendered m in
  let c := hooks m in
  let m0 := render m in
  let m1 :=
    if bool_decide (phaseDeps p = phaseDeps c) then m0
    else phaseEffect c m0 in
  if bool_decide (countdownDeps p = countdownDeps c) then m1
  else countdownEffect c (countdownCleanup m1).

Definition tableLength (m : Machine State) : nat :=
  match tableData (hooks m) with
  | Some table => length table
  | None => O
  end.

(** Every phase of the table costs at most two renders. *)
Definition renderBudget (m : Machine State) : nat :=
  (4 * tableLength m + 4)%nat.

(** A user event: the handler runs, then the component renders until it is
    settled. *)
Definition dispatch (handler : State -> Action State) (m : Machine State) :
    Machine State :=
  let m' := handle handler m in
  settle commit (renderBudget m') m'.

(** One tick: the timeout elapses and the component renders until settled. *)
Definition tick (m : Machine State) : Machine State :=
  if timer m then
    let m' := elapse onTimeout m in settle commit (renderBudget m') m'
  else m.

Fixpoint ticks (n : nat) (m : Machine State) : Machine State :=
  match n with
  | O => m
  | S n' => ticks n' (tick m)
  end.

Definition initialState : State :=
  {| tableType := co2; tableData := None; isSessionActive := false;
     currentRoundIndex := 0%nat; currentPhase := Ready; timeRemaining := 0;
     showStopModal := false; showAlert := false;
     alertMessage := EmptyString |}.

(** After mounting: both effects have run on the initial state and returned
    early. *)
Definition initial : Machine State :=
  {| rendered := initialState; hooks := initialState;
     timer := false; sounds := []; threw := false |}.

End TwoPhase.

(** ** The three-phase engine

    The revision of [TrainingController] whose phase is one of
    ['prep'], ['hold'], ['recovery'] and ['finished']. *)

(** The values [timeRemaining] can hold in this revision: an integer, or
    what reading an absent property and computing with it produce. *)
Inductive JsNumber : Type := Int (z : Z) | Undefined | NaN.

#[global] Instance JsNumber_eq_dec : EqDecision JsNumber.
Proof. solve_decision. Defined.

(** [v === 0] *)
Definition js_is_zero (v : JsNumber) : bool :=
  match v with
  | Int z => z =? 0
  | _ => false
  end.

(** [v <= k] and [v > k]: [undefined] converts to [NaN], and every
    comparison with [NaN] is false. *)
Definition js_le (v : JsNumber) (k : Z) : bool :=
  match v with
  | Int z => z <=? k
  | _ => false
  end.

Definition js_gt (v : JsNumber) (k : Z) : bool :=
  match v with
  | Int z => k <? z
  | _ => false
  end.

(** [v - k] *)
Definition js_sub (v : JsNumber) (k : Z) : JsNumber :=
  match v with
  | Int z => Int (z - k)
  | _ => NaN
  end.

Module ThreePhase.

Inductive Phase : Type := Prep | Hold | Recovery | Finished.

#[global] Instance Phase_eq_dec : EqDecision Phase.
Proof. solve_decision. Defined.

(** The [useState] hooks of the component. *)
Record State : Type := mkState {
  tableType : TableType;
  tableData : option (list TrainingRound);
  isSessionActive : bool;
  currentRoundIndex : nat;
  currentPhase : Phase;
  timeRemaining : JsNumber;
  showStopModal : bool
}.

#[global] Instance State_eq_dec : EqDecision State.
Proof. solve_decision. Defined.

Definition setTableType (v : TableType) : Action State :=
  update (fun s => mkState v (tableData s) (isSessionActive s)
    (currentRoundIndex s) (currentPhase s) (timeRemaining s)
    (showStopModal s)).

Definition setTableData (v : option (list TrainingRound)) : Action State :=
  update (fun s => mkState (tableType s) v (isSessionActive s)
    (currentRoundIndex s) (currentPhase s) (timeRemaining s)
    (showStopModal s)).

Definition setIsSessionActive (v : bool) : Action State :=
  update (fun s => mkState (tableType s) (tableData s) v
    (currentRoundIndex s) (currentPhase s) (timeRemaining s)
    (showStopModal s)).

Definition setCurrentRoundIndex (v : nat) : Action State :=
  update (fun s => mkState (tableType s) (tableData s) (isSessionActive s)
    v (currentPhase s) (timeRemaining s) (showStopModal s)).

Definition setCurrentPhase (v : Phase) : Action State :=
  update (fun s => mkState (tableType s) (tableData s) (isSessionActive s)
    (currentRoundIndex s) v (timeRemaining s) (showStopModal s)).

Definition setTimeRemaining (v : JsNumber) : Action State :=
  update (fun s => mkState (tableType s) (tableData s) (isSessionActive s)
    (currentRoundIndex s) (currentPhase s) v (showStopModal s)).

Definition setShowStopModal (v : bool) : Action State :=
  update (fun s => mkState (tableType s) (tableData s) (isSessionActive s)
    (currentRoundIndex s) (currentPhase s) (timeRemaining s) v).

(** [nextRound[nextPhase]]: the property of the round named by the phase. *)
Definition property (r : TrainingRound) (p : Phase) : JsNumber :=
  match p with
  | Prep => Int (prep r)
  | Hold => Int (hold r)
  | Recovery =>
      match recovery r with
      | Some z => Int z
      | None => Undefined
      end
  | Finished => Undefined
  end.

(** [advancePhase], closed over the state [c] of the render that created it.
    [table !! nextRoundIndex] is [None] exactly when
    [nextRoundIndex >= tableData.length], the first disjunct of the source's
    test; the second disjunct is evaluated on the round found otherwise. *)
Definition advancePhase (c : State) : Action State :=
  match tableData c with
  | None => skip
  | Some table =>
      let (nextPhase, nextRoundIndex) :=
        match currentPhase c with
        | Prep => (Hold, currentRoundIndex c)
        | Hold => (Recovery, currentRoundIndex c)
        | Recovery => (Prep, (currentRoundIndex c + 1)%nat)
        | Finished => (currentPhase c, currentRoundIndex c)
        end in
      match table !! nextRoundIndex with
      | None =>
          block [ setIsSessionActive false; setCurrentPhase Finished ]
      | Some nextRound =>
          if bool_decide (recovery nextRound = Some 0)
             && bool_decide (currentPhase c = Hold)
          then block [ setIsSessionActive false; setCurrentPhase Finished ]
          else
            let nextDuration := property nextRound nextPhase in
            block [ setCurrentPhase nextPhase;
                    setCurrentRoundIndex nextRoundIndex;
                    setTimeRemaining nextDuration;
                    playStartSound ]
      end
  end.

(** The effect that ends a phase.  [playEndSound] is among its dependencies
    and is a new function on every render, so it runs after every render. *)
Definition boundaryEffect (c : State) : Action State :=
  if isSessionActive c && js_is_zero (timeRemaining c)
  then block [ playEndSound; advancePhase c ]
  else skip.

(** The effect that arms the countdown; [playTickSound] is among its
    dependencies, so it also runs after every render, its cleanup first. *)
Definition countdownCleanup : Action State := clearTimeout.

Definition countdownEffect (c : State) : Action State :=
  if negb (isSessionActive c) || js_le (timeRemaining c) 0
  then clearTimeout
  else setTimeout.

(** The callback handed to [setTimeout]. *)
Definition onTimeout (c : State) : Action State :=
  block [ setTimeRemaining (js_sub (timeRemaining c) 1);
          if js_gt (timeRemaining c) 1 && js_le (timeRemaining c) 4
          then playTickSound else skip ].

(** [onSubmit(data)] with [data.minutes] and [data.seconds]. *)
Definition onSubmit (minutes seconds : Z) (c : State) : Action State :=
  let totalSeconds := minutes * 60 + seconds in
  let newTable :=
    if bool_decide (tableType c = co2) then generateCo2Table totalSeconds
    else generateO2Table totalSeconds in
  block [ setTableData (Some newTable);
          setIsSessionActive false;
          setCurrentRoundIndex 0%nat;
          setCurrentPhase Prep ].

(** [startSession]: reading [tableData[0].prep] of an empty table throws
    after the first three updates were queued. *)
Definition startSession (c : State) : Action State :=
  match tableData c with
  | None => skip
  | Some table =>
      block [ setIsSessionActive true;
              setCurrentRoundIndex 0%nat;
              setCurrentPhase Prep;
              match table !! 0%nat with
              | Some first =>
                  block [ setTimeRemaining (Int (prep first));
                          playStartSound ]
              | None => raise
              end ]
  end.

Definition stopSession (c : State) : Action State :=
  block [ setIsSessionActive false;
          setShowStopModal false;
          clearTimeout;
          setCurrentRoundIndex 0%nat;
          setCurrentPhase Prep;
          setTimeRemaining (Int 0) ].

Definition confirmStopSession (c : State) : Action State := stopSession c.

(** The [onValueChange] handler of the tabs. *)
Definition onValueChange (v : TableType) (c : State) : Action State :=
  block [ setTableType v; setTableData None ].

(** The [onClick] handler of the "Create New Table" button. *)
Definition createNewTable (c : State) : Action State :=
  block [ setTableData None; setCurrentPhase Prep ].

(** A committed render runs both effects on the state [c] being committed;
    the updates they queue are applied together afterwards.  (React runs the
    cleanup before the effect bodies; the boundary effect does not touch
    the timer, so the order written here gives the same machine.) *)
Definition commit (m : Machine State) : Machine State :=
  let c := hooks m in
  countdownEffect c (countdownCleanup (boundaryEffect c (render m))).

Definition tableLength (m : Machine State) : nat :=
  match tableData (hooks m) with
  | Some table => length table
  | None => O
  end.

(** Every phase of the table costs at most one render. *)
Definition renderBudget (m : Machine State) : nat :=
  (3 * tableLength m + 4)%nat.

Definition dispatch (handler : State -> Action State) (m : Machine State) :
    Machine State :=
  let m' := handle handler m in
  settle commit (renderBudget m') m'.

Definition tick (m : Machine State) : Machine State :=
  if timer m then
    let m' := elapse onTimeout m in settle commit (renderBudget m') m'
  else m.

Fixpoint ticks (n : nat) (m : Machine State) : Machine State :=
  match n with
  | O => m
  | S n' => ticks n' (tick m)
  end.

Definition initialState : State :=
  {| tableType := co2; tableData := None; isSessionActive := false;
     currentRoundIndex := 0%nat; currentPhase := Prep;
     timeRemaining := Int 0; showStopModal := false |}.

Definition initial : Machine State :=
  {| rendered := initialState; hooks := initialState;
     timer := false; sounds := []; threw := false |}.

End ThreePhase.

(** ** Auxiliary definitions for the statements *)

(** The table [onSubmit] generates for a variant. *)
Definition generateTable (variant : TableType) (pb : Z) : list TrainingRound :=
  match variant with
  | co2 => generateCo2Table pb
  | o2 => generateO2Table pb
  end.

(** A two-round table with recovery values, and the machine right after the
    timeout that brought the hold of a round to 0. *)
Definition sampleTable : list TrainingRound :=
  [ mkRound 1 10 20 (Some 30); mkRound 2 10 20 (Some 0) ].

Definition holdEnding (i : nat) : Machine ThreePhase.State :=
  {| rendered := ThreePhase.mkState co2 (Some sampleTable) true i
                   ThreePhase.Hold (Int 1) false;
     hooks := ThreePhase.mkState co2 (Some sampleTable) true i
                ThreePhase.Hold (Int 0) false;
     timer := false; sounds := []; threw := false |}.

(** The session and table state of the two-phase component. *)
Definition sessionState (s : TwoPhase.State) :=
  (TwoPhase.tableType s, TwoPhase.tableData s, TwoPhase.isSessionActive s,
   TwoPhase.currentRoundIndex s, TwoPhase.currentPhase s,
   TwoPhase.timeRemaining s).

(** What a machine of either engine shows of the session. *)
Definition view2 (m : Machine TwoPhase.State) :=
  (TwoPhase.isSessionActive (hooks m), TwoPhase.currentPhase (hooks m),
   TwoPhase.currentRoundIndex (hooks m), TwoPhase.timeRemaining (hooks m)).

Definition view3 (m : Machine ThreePhase.State) :=
  (ThreePhase.isSessionActive (hooks m), ThreePhase.currentPhase (hooks m),
   ThreePhase.currentRoundIndex (hooks m), ThreePhase.timeRemaining (hooks m)).

(** The two-phase component after the CO2 table for a personal best of 90
    seconds was submitted, and after [startSession] ran on it. *)
Definition twoPhaseBound : Machine TwoPhase.State :=
  TwoPhase.dispatch (TwoPhase.onSubmit 90) TwoPhase.initial.

Definition twoPhaseStarting : Machine TwoPhase.State :=
  handle TwoPhase.startSession twoPhaseBound.

Definition twoPhaseStarted : Machine TwoPhase.State :=
  TwoPhase.dispatch TwoPhase.startSession twoPhaseBound.

(** How often a cue was requested. *)
Definition countCue (c : Cue) (l : list Cue) : nat :=
  length (filter (fun x => x = c) l).

(** The three-phase component after 1 minute 30 seconds was submitted for
    the CO2 variant, and after [startSession] ran on it. *)
Definition threePhaseBound : Machine ThreePhase.State :=
  ThreePhase.dispatch (ThreePhase.onSubmit 1 30) ThreePhase.initial.

Definition threePhaseStarted : Machine ThreePhase.State :=
  ThreePhase.dispatch ThreePhase.startSession threePhaseBound.

(** ** Shapes of a two-phase session

    [sessionAt ui table a i ph t] is the state of a session on [table]:
    active or not, in round [i], in phase [ph], with [t] seconds left; [ui]
    supplies the fields a session never changes. *)
Definition sessionAt (ui : TwoPhase.State) (table : list TrainingRound)
    (a : bool) (i : nat) (ph : TwoPhase.Phase) (t : Z) : TwoPhase.State :=
  TwoPhase.mkState (TwoPhase.tableType ui) (Some table) a i ph t
    (TwoPhase.showStopModal ui) (TwoPhase.showAlert ui)
    (TwoPhase.alertMessage ui).

(** The duration the phase effect loads in round [r]. *)
Definition duration (ph : TwoPhase.Phase) (r : TrainingRound) : Z :=
  match ph with
  | TwoPhase.Prep => prep r
  | _ => hold r
  end.

(** The state [advancePhase] leads to from round [i] in phase [ph], when the
    queued state has [t] seconds left. *)
Definition advanced (ui : TwoPhase.State) (table : list TrainingRound)
    (i : nat) (ph : TwoPhase.Phase) (t : Z) : TwoPhase.State :=
  match ph with
  | TwoPhase.Prep => sessionAt ui table true i TwoPhase.Hold t
  | _ =>
      if bool_decide (S i = length table)
      then sessionAt ui table false i TwoPhase.Finished t
      else sessionAt ui table true (S i) TwoPhase.Prep t
  end.

(** A phase was just entered: the phase effect is due. *)
Definition Fresh (ui : TwoPhase.State) (table : list TrainingRound)
    (i : nat) (ph : TwoPhase.Phase) (m : Machine TwoPhase.State) : Prop :=
  exists t : Z,
    hooks m = sessionAt ui table true i ph t
    /\ 0 <= t
    /\ TwoPhase.phaseDeps (rendered m) <> TwoPhase.phaseDeps (hooks m)
    /\ (i < length table)%nat
    /\ (ph = TwoPhase.Prep \/ ph = TwoPhase.Hold).

(** The last hold was left: the session is finished, no timeout is pending. *)
Definition Finishing (ui : TwoPhase.State) (table : list TrainingRound)
    (m : Machine TwoPhase.State) : Prop :=
  exists (i : nat) (t : Z),
    hooks m = sessionAt ui table false i TwoPhase.Finished t
    /\ S i = length table
    /\ timer m = false.

(** The machine right after round [i] left phase [ph]. *)
Definition Next (ui : TwoPhase.State) (table : list TrainingRound)
    (i : nat) (ph : TwoPhase.Phase) (m : Machine TwoPhase.State) : Prop :=
  match ph with
  | TwoPhase.Prep => Fresh ui table i TwoPhase.Hold m
  | _ =>
      if bool_decide (S i = length table) then Finishing ui table m
      else Fresh ui table (S i) TwoPhase.Prep m
  end.

(** Phases still to be entered from round [i], phase [ph]. *)
Definition remaining (table : list TrainingRound) (i : nat)
    (ph : TwoPhase.Phase) : nat :=
  match ph with
  | TwoPhase.Prep => 2 * (length table - i)
  | _ => 2 * (length table - i) - 1
  end.

(** The session is over: finished, inactive, idle. *)
Definition Over (table : list TrainingRound) (m : Machine TwoPhase.State) :
    Prop :=
  TwoPhase.currentPhase (hooks m) = TwoPhase.Finished
  /\ TwoPhase.isSessionActive (hooks m) = false
  /\ S (TwoPhase.currentRoundIndex (hooks m)) = length table
  /\ timer m = false
  /\ settled m = true.
(** ** The timer displays

    Both revisions of [TimerDisplay] compute the same flag from the time
    they are given; the display pulses while it is set. *)
Definition isEnding (timeRemaining : Z) : bool :=
  (timeRemaining <=? 3) && (0 <? timeRemaining).

(** ** The form and the controls of the two-phase component *)
Module TwoPhaseUI.
Import TwoPhase.

(** [z.coerce.number().int().min(30, ...).max(600, ...)] on an integer
    input; an input that is no integer fails [int()] like one out of
    range. *)
Definition FormSchema (pb : Z) : bool := (30 <=? pb) && (pb <=? 600).

(** [form.handleSubmit(onSubmit)]: [onSubmit] runs only on data the schema
    accepts; otherwise the form shows the message of the schema. *)
Definition handleSubmit (pb : Z) (c : State) : Action State :=
  if FormSchema pb then onSubmit pb c else skip.

(** The controls the component can render. *)
Inductive Control : Type :=
| TabsList | TableForm | StartButton | StopButton | StopModal | AlertModal
| StartNewSessionButton.

#[global] Instance Control_eq_dec : EqDecision Control.
Proof. solve_decision. Defined.

(** The [return] statements of the component: the completion view alone
    when the phase is ['finished']; otherwise the tabs, the session view
    (with the stop button) or the setup view (with the form), the table
    with the start button when a table is bound and no session is active,
    and the two dialogs while they are open. *)
Definition offered (s : State) (c : Control) : bool :=
  if bool_decide (currentPhase s = Finished)
  then bool_decide (c = StartNewSessionButton)
  else
    match c with
    | TabsList => true
    | TableForm => negb (isSessionActive s)
    | StopButton => isSessionActive s
    | StartButton =>
        match tableData s with
        | Some _ => negb (isSessionActive s)
        | None => false
        end
    | StopModal => showStopModal s
    | AlertModal => showAlert s
    | StartNewSessionButton => false
    end.

(** The component between two events: the machine, and the number of calls
    of [startSession] that are suspended at [await Tone.start()]. *)
Record Component : Type := mkComponent {
  machine : Machine State;
  awaiting : nat
}.

(** What can happen to the component: an event of one of its controls, the
    resolution of a [Tone.start()] some [startSession] is awaiting, or the
    timeout. *)
Inductive Event : Type :=
| SelectTab (value : TableType)
| Submit (pb : Z)
| Start
| StartResumes
| AskStop
| ConfirmStop
| CancelStop
| CloseAlert
| StartNew
| Timeout.

(** The control an event comes from; the timeout comes from the timer, the
    resumption from the promise. *)
Definition control (e : Event) : option Control :=
  match e with
  | SelectTab _ => Some TabsList
  | Submit _ => Some TableForm
  | Start => Some StartButton
  | AskStop => Some StopButton
  | ConfirmStop | CancelStop => Some StopModal
  | CloseAlert => Some AlertModal
  | StartNew => Some StartNewSessionButton
  | StartResumes | Timeout => None
  end.

(** Whether a call of [startSession] reaches its [await]. *)
Definition suspends (c : State) : bool :=
  match tableData c with
  | Some _ => true
  | None => false
  end.

(** What runs in the component on each event.  The click on the start
    button runs [startSession] up to its [await], which updates nothing;
    the rest of [startSession] runs on [StartResumes]. *)
Definition handler (e : Event) : State -> Action State :=
  match e with
  | SelectTab value => handleTabChange value
  | Submit pb => handleSubmit pb
  | Start => fun _ => skip
  | StartResumes => fun _ => startSessionResumed
  | AskStop => fun _ => setShowStopModal true
  | ConfirmStop => stopSession
  | CancelStop => fun _ => setShowStopModal false
  | CloseAlert => fun _ => setShowAlert false
  | StartNew => stopSession
  | Timeout => fun _ => skip
  end.

Definition enabled (c : Component) (e : Event) : bool :=
  match e with
  | StartResumes => bool_decide (0 < awaiting c)%nat
  | Timeout => timer (machine c)
  | _ =>
      match control e with
      | Some k => offered (rendered (machine c)) k
      | None => false
      end
  end.

Definition perform (e : Event) (c : Component) : Component :=
  match e with
  | Timeout => mkComponent (tick (machine c)) (awaiting c)
  | Start =>
      mkComponent (dispatch (handler Start) (machine c))
        (if suspends (rendered (machine c)) then S (awaiting c)
         else awaiting c)
  | StartResumes =>
      mkComponent (dispatch (handler StartResumes) (machine c))
        (pred (awaiting c))
  | _ => mkComponent (dispatch (handler e) (machine c)) (awaiting c)
  end.

Definition mounted : Component := mkComponent initial 0.

(** The states the component can be in between two events. *)
Inductive reachable : Component -> Prop :=
| reachable_mounted : reachable mounted
| reachable_perform (c : Component) (e : Event) :
    reachable c -> enabled c e = true -> reachable (perform e c).

End TwoPhaseUI.

(** ** Further shapes of a two-phase session *)

(** The machine is settled in the hold of round [i] with [t] seconds left
    and the timeout pending. *)
Definition Counting (table : list TrainingRound) (i : nat) (t : Z)
    (m : Machine TwoPhase.State) : Prop :=
  rendered m = hooks m
  /\ timer m = true
  /\ TwoPhase.tableData (hooks m) = Some table
  /\ TwoPhase.isSessionActive (hooks m) = true
  /\ TwoPhase.currentRoundIndex (hooks m) = i
  /\ TwoPhase.currentPhase (hooks m) = TwoPhase.Hold
  /\ TwoPhase.timeRemaining (hooks m) = t.

(** The machine is settled and idle with the given phase and nothing left
    on the countdown. *)
Definition Resting (ph : TwoPhase.Phase) (m : Machine TwoPhase.State) : Prop :=
  rendered m = hooks m
  /\ timer m = false
  /\ TwoPhase.isSessionActive (hooks m) = false
  /\ TwoPhase.currentPhase (hooks m) = ph
  /\ TwoPhase.timeRemaining (hooks m) = 0.

(** The hold times of the rounds from round [i] on, added up. *)
Definition holdSum (table : list TrainingRound) (i : nat) : Z :=
  foldr (fun r acc => hold r + acc) 0 (drop i table).

(** A table the form can bind. *)
Definition Generated (table : list TrainingRound) : Prop :=
  exists (variant : TableType) (pb : Z), table = generateTable variant pb.

(** The machine is settled in phase [ph] of round [i] with [t] seconds left
    and the timeout pending. *)
Definition CountingIn (ph : TwoPhase.Phase) (table : list TrainingRound)
    (i : nat) (t : Z) (m : Machine TwoPhase.State) : Prop :=
  rendered m = hooks m
  /\ timer m = true
  /\ TwoPhase.tableData (hooks m) = Some table
  /\ TwoPhase.isSessionActive (hooks m) = true
  /\ TwoPhase.currentRoundIndex (hooks m) = i
  /\ TwoPhase.currentPhase (hooks m) = ph
  /\ TwoPhase.timeRemaining (hooks m) = t.

(** The machine after a session has run out: settled and idle in the phase
    finished, in the last round of a generated table. *)
Definition Done (m : Machine TwoPhase.State) : Prop :=
  rendered m = hooks m
  /\ timer m = false
  /\ TwoPhase.isSessionActive (hooks m) = false
  /\ TwoPhase.currentPhase (hooks m) = TwoPhase.Finished
  /\ 0 <= TwoPhase.timeRemaining (hooks m)
  /\ exists table : list TrainingRound,
       TwoPhase.tableData (hooks m) = Some table
       /\ Generated table
       /\ S (TwoPhase.currentRoundIndex (hooks m)) = length table.

(** The machine after a start was resumed with no table bound: the session
    is active, but nothing is at work. *)
Definition Stuck (m : Machine TwoPhase.State) : Prop :=
  rendered m = hooks m
  /\ timer m = false
  /\ TwoPhase.tableData (hooks m) = None
  /\ TwoPhase.isSessionActive (hooks m) = true
  /\ TwoPhase.currentRoundIndex (hooks m) = 0%nat
  /\ TwoPhase.currentPhase (hooks m) = TwoPhase.Prep
  /\ TwoPhase.timeRemaining (hooks m) = 0.

(** The settled shapes of the two-phase component: counting down a phase
    of a generated table, idle before a session, idle after one, or
    stuck. *)
Definition SessionInvariant (m : Machine TwoPhase.State) : Prop :=
  (exists (ph : TwoPhase.Phase) (table : list TrainingRound) (i : nat)
          (t : Z) (r : TrainingRound),
     Generated table /\ (ph = TwoPhase.Prep \/ ph = TwoPhase.Hold)
     /\ CountingIn ph table i t m
     /\ table !! i = Some r /\ 0 < t <= duration ph r)
  \/ (Resting TwoPhase.Ready m
      /\ TwoPhase.currentRoundIndex (hooks m) = 0%nat
      /\ match TwoPhase.tableData (hooks m) with
         | Some table => Generated table
         | None => True
         end)
  \/ Done m
  \/ Stuck m.

(** What the effects of the two-phase component depend on. *)
Definition core (s : TwoPhase.State) :=
  (TwoPhase.phaseDeps s, TwoPhase.timeRemaining s).

(** The flag of the three-phase [TimerDisplay], on the values its
    [timeRemaining] can hold. *)
Definition isEndingJs (timeRemaining : JsNumber) : bool :=
  js_le timeRemaining 3 && js_gt timeRemaining 0.

(** ** Shapes of a three-phase session *)

Definition sessionAt3 (ui : ThreePhase.State) (table : list TrainingRound)
    (a : bool) (i : nat) (ph : ThreePhase.Phase) (v : JsNumber) :
    ThreePhase.State :=
  ThreePhase.mkState (ThreePhase.tableType ui) (Some table) a i ph v
    (ThreePhase.showStopModal ui).

(** Where [advancePhase] leads from round [i] and phase [ph] of a round
    (prep, hold or recovery): the round, the phase and the duration entered,
    or [None] when the session finishes.  The phase finished is only set
    together with the end of the session and is not advanced from. *)
Definition entered (table : list TrainingRound) (i : nat)
    (ph : ThreePhase.Phase) : option (nat * ThreePhase.Phase * JsNumber) :=
  match ph with
  | ThreePhase.Prep =>
      r ← table !! i; Some (i, ThreePhase.Hold, Int (hold r))
  | ThreePhase.Hold =>
      r ← table !! i;
      if bool_decide (recovery r = Some 0) then None
      else Some (i, ThreePhase.Recovery,
                 ThreePhase.property r ThreePhase.Recovery)
  | ThreePhase.Recovery =>
      r ← table !! S i; Some (S i, ThreePhase.Prep, Int (prep r))
  | ThreePhase.Finished => None
  end.

(** The machine right after the commit that ended phase [ph] of round [i]:
    [before] is what was shown, [snd] the cues requested up to the end cue. *)
Definition afterBoundary (ui : ThreePhase.State) (table : list TrainingRound)
    (i : nat) (ph : ThreePhase.Phase) (snd : list Cue) (th : bool) :
    Machine ThreePhase.State :=
  match entered table i ph with
  | Some (k, ph', v) =>
      mkMachine (sessionAt3 ui table true i ph (Int 0))
        (sessionAt3 ui table true k ph' v) false
        (snd ++ [EndSound; StartSound]) th
  | None =>
      mkMachine (sessionAt3 ui table true i ph (Int 0))
        (sessionAt3 ui table false i ThreePhase.Finished (Int 0)) false
        (snd ++ [EndSound]) th
  end.

(** The tick cues of a countdown from [t]: one for each of the values 4, 3
    and 2 it passes. *)
Definition tickCues (t : Z) : list Cue :=
  repeat TickSound (Z.to_nat (Z.min t 4 - 1)).

(** The round in which a three-phase session ends: the first round whose
    recovery value is 0, or else the last round. *)
Definition finishRound (table : list TrainingRound) : nat :=
  match list_find (fun r => recovery r = Some 0) table with
  | Some (k, _) => k
  | None => (length table - 1)%nat
  end.

(** Phases still to be entered in a three-phase session. *)
Definition remaining3 (table : list TrainingRound) (i : nat)
    (ph : ThreePhase.Phase) : nat :=
  match ph with
  | ThreePhase.Prep => 3 * (length table - i)
  | ThreePhase.Hold => 3 * (length table - i) - 1
  | _ => 3 * (length table - i) - 2
  end.

(** A table as the three-phase engine expects it: every round has a
    recovery value, and no duration is negative. *)
Definition WellFormed (table : list TrainingRound) : Prop :=
  Forall (fun r => 0 <= prep r /\ 0 <= hold r
                   /\ exists z : Z, recovery r = Some z /\ 0 <= z) table.

(** The three-phase session is over: finished, inactive, idle. *)
Definition Over3 (m : Machine ThreePhase.State) : Prop :=
  ThreePhase.currentPhase (hooks m) = ThreePhase.Finished
  /\ ThreePhase.isSessionActive (hooks m) = false
  /\ timer m = false
  /\ settled m = true.
(** ** Properties of the generators *)

(** On every personal best the forms accept (at most 600 seconds) the double
    computation rounds to the same integer as the exact one. *)
Lemma doubles_agree_on_form_range : doubles_agree_upto 601 = true.
Proof. vm_compute. reflexivity. Qed.

Example generateCo2Table_90 :
  generateCo2Table 90 =
    [ mkRound 1 129 54 None; mkRound 2 114 54 None; mkRound 3 99 54 None;
      mkRound 4 84 54 None; mkRound 5 69 54 None; mkRound 6 54 54 None;
      mkRound 7 39 54 None; mkRound 8 30 54 None ].
Proof. reflexivity. Qed.

Example generateO2Table_90 :
  generateO2Table 90 =
    [ mkRound 1 120 45 None; mkRound 2 120 55 None; mkRound 3 120 65 None;
      mkRound 4 120 75 None; mkRound 5 120 85 None; mkRound 6 120 95 None;
      mkRound 7 120 105 None; mkRound 8 120 115 None ].
Proof. reflexivity. Qed.

(** [Math.round(pb * 0.60)] and [Math.round(pb * 0.5)] in integer
    arithmetic. *)
Lemma Math_round_060 (pb : Z) :
  Math_round (inject_Z pb * 0.60) = (6 * pb + 5) / 10.
Proof.
  unfold Math_round, Qfloor, Qplus, Qmult, inject_Z; simpl Qnum; simpl Qden.
  change (Z.pos (1 * 100 * 2)) with (20 * 10).
  replace (pb * 60 * 2 + 1 * Z.pos (1 * 100)) with (20 * (6 * pb + 5)) by lia.
  apply Z.div_mul_cancel_l; lia.
Qed.

Lemma Math_round_05 (pb : Z) :
  Math_round (inject_Z pb * 0.5) = (pb + 1) / 2.
Proof.
  unfold Math_round, Qfloor, Qplus, Qmult, inject_Z; simpl Qnum; simpl Qden.
  change (Z.pos (1 * 10 * 2)) with (10 * 2).
  replace (pb * 5 * 2 + 1 * Z.pos (1 * 10)) with (10 * (pb + 1)) by lia.
  apply Z.div_mul_cancel_l; lia.
Qed.

(** A counting loop that only pushes builds the image of the index range. *)
Lemma length_Zrange (lo : Z) (n : nat) : length (Zrange lo n) = n.
Proof. revert lo; induction n as [|n IH]; intros lo; simpl; auto. Qed.

Lemma lookup_Zrange (n : nat) : forall (lo : Z) (i : nat) (z : Z),
  Zrange lo n !! i = Some z <-> (i < n)%nat /\ z = lo + Z.of_nat i.
Proof.
  induction n as [|n IH]; intros lo i z; simpl.
  - split; [discriminate | intros [H _]; lia].
  - destruct i as [|i]; simpl.
    + split; [intros [= <-]; split; lia | intros [_ ->]; f_equal; lia].
    + rewrite IH. split; intros [H ->]; split; lia.
Qed.

Lemma for_upto_push (f : Z -> TrainingRound) (hi : Z) :
  forall (fuel : nat) (i : Z) (acc : list TrainingRound),
    hi - i + 1 < Z.of_nat fuel ->
    for_upto fuel i hi (fun i table => push (f i) table) acc
    = acc ++ (f <$> Zrange i (Z.to_nat (hi - i + 1))).
Proof.
  induction fuel as [|fuel IH]; intros i acc Hfuel.
  { replace (Z.to_nat (hi - i + 1)) with O by lia. simpl.
    now rewrite app_nil_r. }
  simpl. destruct (Z.leb_spec i hi) as [Hle|Hgt].
  - rewrite IH by lia. unfold push. rewrite <- app_assoc. f_equal.
    replace (Z.to_nat (hi - i + 1)) with (S (Z.to_nat (hi - (i + 1) + 1)))
      by lia.
    reflexivity.
  - replace (Z.to_nat (hi - i + 1)) with O by lia. simpl.
    now rewrite app_nil_r.
Qed.

Lemma lookup_generated (f : Z -> TrainingRound) (i : nat) (r : TrainingRound) :
  for_upto (S (Z.to_nat NUM_ROUNDS)) 1 NUM_ROUNDS
    (fun i table => push (f i) table) [] !! i = Some r
  <-> (i < 8)%nat /\ r = f (Z.of_nat i + 1).
Proof.
  rewrite for_upto_push by (unfold NUM_ROUNDS; lia). rewrite app_nil_l.
  change (Z.to_nat (NUM_ROUNDS - 1 + 1)) with 8%nat.
  rewrite list_lookup_fmap. split.
  - intros H. apply fmap_Some in H as (z & Hz & ->).
    apply lookup_Zrange in Hz as [Hi ->]. split; [assumption | f_equal; lia].
  - intros [Hi ->]. apply fmap_Some. exists (1 + Z.of_nat i). split.
    + apply lookup_Zrange. split; [assumption | reflexivity].
    + f_equal; lia.
Qed.

Lemma length_generated (f : Z -> TrainingRound) :
  length (for_upto (S (Z.to_nat NUM_ROUNDS)) 1 NUM_ROUNDS
            (fun i table => push (f i) table) []) = 8%nat.
Proof.
  rewrite for_upto_push by (unfold NUM_ROUNDS; lia). rewrite app_nil_l.
  now rewrite length_fmap, length_Zrange.
Qed.

Lemma length_generateCo2Table (pb : Z) : length (generateCo2Table pb) = 8%nat.
Proof. unfold generateCo2Table. cbv zeta. exact (length_generated _). Qed.

Lemma length_generateO2Table (pb : Z) : length (generateO2Table pb) = 8%nat.
Proof. unfold generateO2Table. cbv zeta. exact (length_generated _). Qed.

(** Round [k] of the CO2 table, as the loop body builds it. *)
Lemma lookup_generateCo2Table (pb : Z) (i : nat) (r : TrainingRound) :
  generateCo2Table pb !! i = Some r <->
  (i < 8)%nat /\
  r = let holdTime := Z.max 30 (Math_round (inject_Z pb * 0.60)) in
      {| round := Z.of_nat i + 1;
         prep := Z.max 30 (holdTime + 75 - (Z.of_nat i + 1 - 1) * 15);
         hold := holdTime; recovery := None |}.
Proof. unfold generateCo2Table. cbv zeta. apply lookup_generated. Qed.

Lemma lookup_generateO2Table (pb : Z) (i : nat) (r : TrainingRound) :
  generateO2Table pb !! i = Some r <->
  (i < 8)%nat /\
  r = let startHoldTime := Z.max 45 (Math_round (inject_Z pb * 0.5)) in
      {| round := Z.of_nat i + 1; prep := 120;
         hold := startHoldTime + (Z.of_nat i + 1 - 1) * 10;
         recovery := None |}.
Proof. unfold generateO2Table. cbv zeta. apply lookup_generated. Qed.

(** The integer generators: eight rounds, numbered 1 to 8, with the hold
    and prep times of the formulas. *)
Lemma generateCo2Table_integers (personalBest : Z) :
  let table := generateCo2Table personalBest in
  let holdTime := Z.max 30 (Math_round (inject_Z personalBest * 0.60)) in
  length table = 8%nat
  /\ map round table = [1; 2; 3; 4; 5; 6; 7; 8]
  /\ (forall (k : nat) (r : TrainingRound), table !! k = Some r ->
        round r = Z.of_nat k + 1
        /\ hold r = holdTime
        /\ prep r = Z.max 30 ((holdTime + 75) - (round r - 1) * 15))
  /\ (forall (k : nat) (r r' : TrainingRound),
        table !! k = Some r -> table !! S k = Some r' ->
        hold r' = hold r /\ prep r' <= prep r)
  /\ (forall r : TrainingRound, r ∈ table -> 30 <= prep r).
Proof.
  intros table holdTime. subst table holdTime.
  split; [apply length_generateCo2Table|].
  split; [reflexivity|].
  split; [|split].
  - intros k r H. apply lookup_generateCo2Table in H as [_ ->].
    cbn [round prep hold]. auto.
  - intros k r r' H H'.
    apply lookup_generateCo2Table in H as [_ ->].
    apply lookup_generateCo2Table in H' as [_ ->].
    cbn [round prep hold]. split; [reflexivity | lia].
  - intros r Hr. apply list_elem_of_lookup in Hr as [k Hk].
    apply lookup_generateCo2Table in Hk as [_ ->]. cbn [prep]. lia.
Qed.

Lemma generateO2Table_integers (personalBest : Z) :
  let table := generateO2Table personalBest in
  let startHold := Z.max 45 (Math_round (inject_Z personalBest * 0.5)) in
  length table = 8%nat
  /\ map round table = [1; 2; 3; 4; 5; 6; 7; 8]
  /\ (forall (k : nat) (r : TrainingRound), table !! k = Some r ->
        round r = Z.of_nat k + 1
        /\ prep r = 120
        /\ hold r = startHold + (round r - 1) * 10)
  /\ (forall (k : nat) (r r' : TrainingRound),
        table !! k = Some r -> table !! S k = Some r' ->
        hold r' = hold r + 10).
Proof.
  intros table startHold. subst table startHold.
  split; [apply length_generateO2Table|].
  split; [reflexivity|].
  split.
  - intros k r H. apply lookup_generateO2Table in H as [_ ->].
    cbn [round prep hold]. auto.
  - intros k r r' H H'.
    apply lookup_generateO2Table in H as [_ ->].
    apply lookup_generateO2Table in H' as [_ ->].
    cbn [hold]. lia.
Qed.

(** *** The generators in binary64 *)

Lemma Zrange_In (n : nat) :
  forall lo z : Z, lo <= z < lo + Z.of_nat n -> In z (Zrange lo n).
Proof.
  induction n as [|n IH]; intros lo z Hz; [lia|].
  cbn [Zrange In]. destruct (Z.eq_dec lo z) as [-> | Hne]; [now left|].
  right. apply IH. lia.
Qed.

(** On every personal best from 1 to 600 seconds the source, computing in
    binary64, returns the tables of the integer generators: checked by
    running both. *)
Lemma generators_agree_on_form_range :
  generators_agree_on (Zrange 1 600) = true.
Proof. vm_compute. reflexivity. Qed.

Lemma generators_agree_on_In (pbs : list Z) (pb : Z) :
  generators_agree_on pbs = true ->
  In pb pbs ->
  double_to_Z (double_of_Z pb) = Some pb
  /\ co2TableOfSource pb = Some (generateCo2Table pb)
  /\ o2TableOfSource pb = Some (generateO2Table pb).
Proof.
  unfold generators_agree_on. rewrite forallb_forall. intros Hall Hin.
  specialize (Hall pb Hin). apply andb_prop in Hall as [Hall Ho2].
  apply andb_prop in Hall as [Hpb Hco2].
  split; [|split]; eapply bool_decide_eq_true; eassumption.
Qed.

Lemma generators_agree (pb : Z) :
  0 < pb <= 600 ->
  double_to_Z (double_of_Z pb) = Some pb
  /\ co2TableOfSource pb = Some (generateCo2Table pb)
  /\ o2TableOfSource pb = Some (generateO2Table pb).
Proof.
  intros Hpb.
  apply (generators_agree_on_In (Zrange 1 600) pb
           generators_agree_on_form_range).
  apply Zrange_In. lia.
Qed.

(** C4, for the personal bests up to 600 seconds.  For every personal best
    from 1 to 600 seconds (600 is the largest the form accepts) the table
    the source computes in binary64 has exactly eight rounds, numbered 1 to
    8, all of integer durations; every round holds for
    [max(30, round(personalBest * 0.60))] seconds, the product and the
    rounding being exact; round [i] (1-based, at list position [i - 1])
    prepares for [max(30, (holdTime + 75) - (i - 1) * 15)] seconds; hence
    the prep time never increases from one round to the next and is never
    below 30. *)
Theorem generateCo2Table_spec (personalBest : Z)
    (Hpb : 0 < personalBest <= 600) :
  double_to_Z (double_of_Z personalBest) = Some personalBest
  /\ exists table : list TrainingRound,
    readTable (Binary64.generateCo2Table (double_of_Z personalBest))
    = Some table
    /\ let holdTime := Z.max 30 (Math_round (inject_Z personalBest * 0.60)) in
       length table = 8%nat
       /\ map round table = [1; 2; 3; 4; 5; 6; 7; 8]
       /\ (forall (k : nat) (r : TrainingRound), table !! k = Some r ->
             round r = Z.of_nat k + 1
             /\ hold r = holdTime
             /\ prep r = Z.max 30 ((holdTime + 75) - (round r - 1) * 15))
       /\ (forall (k : nat) (r r' : TrainingRound),
             table !! k = Some r -> table !! S k = Some r' ->
             hold r' = hold r /\ prep r' <= prep r)
       /\ (forall r : TrainingRound, r ∈ table -> 30 <= prep r).
Proof.
  destruct (generators_agree personalBest Hpb) as (Hin & Hco2 & _).
  split; [exact Hin|]. exists (generateCo2Table personalBest).
  split; [exact Hco2|].
  exact (generateCo2Table_integers personalBest).
Qed.

Lemma generateCo2Table_spec_witness :
  0 < 90 <= 600
  /\ exists table : list TrainingRound,
       readTable (Binary64.generateCo2Table (double_of_Z 90)) = Some table
       /\ length table = 8%nat
       /\ map round table = [1; 2; 3; 4; 5; 6; 7; 8].
Proof.
  split; [lia|].
  destruct (generateCo2Table_spec 90 ltac:(lia))
    as (_ & table & Hread & Hlen & Hnum & _).
  exists table. exact (conj Hread (conj Hlen Hnum)).
Defined.

(** Beyond the range of the form the formula is not what the source
    computes.  For the personal best 4000000000000004 (an integer that
    binary64 represents exactly) the product with 0.60 is rounded to
    2400000000000002.5 and [Math.round] returns 2400000000000003, where
    [round(personalBest * 0.60)] is 2400000000000002. *)
Lemma generateCo2Table_rounded_product :
  let personalBest := 4000000000000004 in
  double_to_Z (double_of_Z personalBest) = Some personalBest
  /\ 0 < personalBest
  /\ (hold <$>
        (readTable (Binary64.generateCo2Table (double_of_Z personalBest))
           ≫= (fun table => table !! 0%nat)))
     = Some 2400000000000003
  /\ Z.max 30 (Math_round (inject_Z personalBest * 0.60))
     = 2400000000000002.
Proof. vm_compute. repeat split. Qed.

(** C5, for the personal bests up to 600 seconds.  For every personal best
    from 1 to 600 seconds the table the source computes in binary64 has
    exactly eight rounds, numbered 1 to 8, all of integer durations; every
    round prepares for 120 seconds; round [i] (1-based) holds for
    [max(45, round(personalBest * 0.5)) + (i - 1) * 10] seconds; hence the
    hold time grows by exactly 10 seconds per round. *)
Theorem generateO2Table_spec (personalBest : Z)
    (Hpb : 0 < personalBest <= 600) :
  double_to_Z (double_of_Z personalBest) = Some personalBest
  /\ exists table : list TrainingRound,
    readTable (Binary64.generateO2Table (double_of_Z personalBest))
    = Some table
    /\ let startHold := Z.max 45 (Math_round (inject_Z personalBest * 0.5)) in
       length table = 8%nat
       /\ map round table = [1; 2; 3; 4; 5; 6; 7; 8]
       /\ (forall (k : nat) (r : TrainingRound), table !! k = Some r ->
             round r = Z.of_nat k + 1
             /\ prep r = 120
             /\ hold r = startHold + (round r - 1) * 10)
       /\ (forall (k : nat) (r r' : TrainingRound),
             table !! k = Some r -> table !! S k = Some r' ->
             hold r' = hold r + 10).
Proof.
  destruct (generators_agree personalBest Hpb) as (Hin & _ & Ho2).
  split; [exact Hin|]. exists (generateO2Table personalBest).
  split; [exact Ho2|].
  exact (generateO2Table_integers personalBest).
Qed.

Lemma generateO2Table_spec_witness :
  0 < 90 <= 600
  /\ exists table : list TrainingRound,
       readTable (Binary64.generateO2Table (double_of_Z 90)) = Some table
       /\ length table = 8%nat
       /\ map round table = [1; 2; 3; 4; 5; 6; 7; 8].
Proof.
  split; [lia|].
  destruct (generateO2Table_spec 90 ltac:(lia))
    as (_ & table & Hread & Hlen & Hnum & _).
  exists table. exact (conj Hread (conj Hlen Hnum)).
Defined.

(** Beyond the range of the form the hold times do not grow by 10 seconds
    per round.  For the personal best 2^55 the first hold is 2^54; doubles
    of that size are 4 apart, and the sums with 10, 20, 30 are rounded: the
    second hold is 8 seconds longer than the first, the third 12 seconds
    longer than the second. *)
Lemma generateO2Table_rounded_sums :
  let personalBest := 2 ^ 55 in
  double_to_Z (double_of_Z personalBest) = Some personalBest
  /\ 0 < personalBest
  /\ (map hold <$>
        readTable (Binary64.generateO2Table (double_of_Z personalBest)))
     = Some [ 2 ^ 54; 2 ^ 54 + 8; 2 ^ 54 + 20; 2 ^ 54 + 32; 2 ^ 54 + 40;
              2 ^ 54 + 48; 2 ^ 54 + 60; 2 ^ 54 + 72 ]
  /\ Z.max 45 (Math_round (inject_Z personalBest * 0.5)) + (2 - 1) * 10
     = 2 ^ 54 + 10.
Proof. vm_compute. repeat split. Qed.


(** ** Properties of the engines *)

(** Normalisation of a machine built by actions on a session state; the
    projections are reduced together with the actions, innermost first. *)
Ltac machine_eq :=
  cbv [ block foldl update skip clearTimeout setTimeout play raise render
        playStartSound playEndSound playTickSound handle elapse
        hooks rendered timer sounds threw
        sessionAt advanced duration
        TwoPhase.setTableType TwoPhase.setTableData
        TwoPhase.setIsSessionActive TwoPhase.setCurrentRoundIndex
        TwoPhase.setCurrentPhase TwoPhase.setTimeRemaining
        TwoPhase.setShowStopModal TwoPhase.setShowAlert
        TwoPhase.setAlertMessage TwoPhase.resetSessionState
        TwoPhase.countdownCleanup
        TwoPhase.tableType TwoPhase.tableData TwoPhase.isSessionActive
        TwoPhase.currentRoundIndex TwoPhase.currentPhase
        TwoPhase.timeRemaining TwoPhase.showStopModal TwoPhase.showAlert
        TwoPhase.alertMessage ];
  rewrite <- ?app_assoc, ?Nat.add_1_r; try reflexivity.

(** A rendered machine is settled. *)
Lemma settled_render {State : Type} `{EqDecision State} (m : Machine State) :
  settled (render m) = true.
Proof. unfold settled, render; simpl. now apply bool_decide_eq_true. Qed.

Lemma settle_settled {State : Type} `{EqDecision State}
    (commit : Machine State -> Machine State) (fuel : nat)
    (m : Machine State) :
  settled m = true -> settle commit fuel m = m.
Proof. intros Hs. destruct fuel; simpl; [reflexivity | now rewrite Hs]. Qed.

(** While the session is inactive and no timeout is pending, a commit of
    the two-phase component only records the render. *)
Lemma two_phase_commit_inactive (m : Machine TwoPhase.State) :
  TwoPhase.isSessionActive (hooks m) = false ->
  timer m = false ->
  TwoPhase.commit m = render m.
Proof.
  intros Hact Htim. destruct m as [p c t s e]. simpl in *. subst t.
  unfold TwoPhase.commit. cbn [rendered hooks].
  unfold TwoPhase.phaseEffect, TwoPhase.countdownEffect.
  rewrite Hact. cbn [negb orb andb].
  rewrite andb_false_r.
  repeat case_bool_decide; reflexivity.
Qed.

Lemma three_phase_commit_inactive (m : Machine ThreePhase.State) :
  ThreePhase.isSessionActive (hooks m) = false ->
  timer m = false ->
  ThreePhase.commit m = render m.
Proof.
  intros Hact Htim. destruct m as [p c t s e]. simpl in *. subst t.
  unfold ThreePhase.commit. cbn [rendered hooks].
  unfold ThreePhase.boundaryEffect, ThreePhase.countdownEffect.
  cbn [render hooks]. rewrite Hact. reflexivity.
Qed.

(** An inactive machine without pending timeout settles in at most one
    render, which changes neither the hook state nor the timer. *)
Lemma two_phase_settle_inactive (fuel : nat) (m : Machine TwoPhase.State) :
  TwoPhase.isSessionActive (hooks m) = false ->
  timer m = false ->
  let m' := settle TwoPhase.commit (S fuel) m in
  hooks m' = hooks m /\ timer m' = false /\ sounds m' = sounds m
  /\ threw m' = threw m /\ settled m' = true.
Proof.
  intros Hact Htim. simpl. destruct (settled m) eqn:Hs.
  - auto.
  - rewrite two_phase_commit_inactive by assumption.
    rewrite settle_settled by apply settled_render.
    repeat split; try reflexivity; try assumption. apply settled_render.
Qed.

Lemma three_phase_settle_inactive (fuel : nat) (m : Machine ThreePhase.State) :
  ThreePhase.isSessionActive (hooks m) = false ->
  timer m = false ->
  let m' := settle ThreePhase.commit (S fuel) m in
  hooks m' = hooks m /\ timer m' = false /\ sounds m' = sounds m
  /\ threw m' = threw m /\ settled m' = true.
Proof.
  intros Hact Htim. simpl. destruct (settled m) eqn:Hs.
  - auto.
  - rewrite three_phase_commit_inactive by assumption.
    rewrite settle_settled by apply settled_render.
    repeat split; try reflexivity; try assumption. apply settled_render.
Qed.

(** A settled machine without pending timeout is idle. *)
Lemma idle_run {State : Type} `{EqDecision State}
    (commit : Machine State -> Machine State)
    (callback : State -> Action State) (m : Machine State) :
  settled m = true -> timer m = false ->
  forall n : nat, run commit callback n m = m.
Proof.
  intros Hs Ht n. induction n as [|n IH]; simpl; [reflexivity|].
  unfold step. now rewrite Hs, Ht.
Qed.

(** C9.  In both engines, whatever the round, the phase and the countdown
    of the session, [stopSession] at once deactivates the session and sets
    the round index to 0, the phase to the initial phase and the remaining
    time to 0; the handler raises no error and leaves no timeout pending,
    and the renders that follow change none of this. *)
Theorem stopSession_resets :
  (forall m : Machine TwoPhase.State,
     let stopped := handle TwoPhase.stopSession m in
     let m' := TwoPhase.dispatch TwoPhase.stopSession m in
     TwoPhase.isSessionActive (hooks stopped) = false
     /\ TwoPhase.currentRoundIndex (hooks stopped) = 0%nat
     /\ TwoPhase.currentPhase (hooks stopped)
        = TwoPhase.currentPhase TwoPhase.initialState
     /\ TwoPhase.timeRemaining (hooks stopped) = 0
     /\ timer stopped = false /\ threw stopped = false
     /\ hooks m' = hooks stopped /\ timer m' = false /\ threw m' = false
     /\ settled m' = true)
  /\
  (forall m : Machine ThreePhase.State,
     let stopped := handle ThreePhase.stopSession m in
     let m' := ThreePhase.dispatch ThreePhase.stopSession m in
     ThreePhase.isSessionActive (hooks stopped) = false
     /\ ThreePhase.currentRoundIndex (hooks stopped) = 0%nat
     /\ ThreePhase.currentPhase (hooks stopped)
        = ThreePhase.currentPhase ThreePhase.initialState
     /\ ThreePhase.timeRemaining (hooks stopped) = Int 0
     /\ timer stopped = false /\ threw stopped = false
     /\ hooks m' = hooks stopped /\ timer m' = false /\ threw m' = false
     /\ settled m' = true).
Proof.
  split; intros m stopped m'.
  - assert (Hact : TwoPhase.isSessionActive (hooks stopped) = false)
      by reflexivity.
    assert (Htim : timer stopped = false) by reflexivity.
    assert (Hthr : threw stopped = false) by reflexivity.
    subst m'. unfold TwoPhase.dispatch. fold stopped.
    unfold TwoPhase.renderBudget.
    replace (4 * TwoPhase.tableLength stopped + 4)%nat
      with (S (4 * TwoPhase.tableLength stopped + 3)) by lia.
    destruct (two_phase_settle_inactive
                (4 * TwoPhase.tableLength stopped + 3) stopped Hact Htim)
      as (Hh & Ht & _ & He & Hs).
    rewrite Hh, Ht, He, Hs.
    repeat split; try reflexivity; assumption.
  - assert (Hact : ThreePhase.isSessionActive (hooks stopped) = false)
      by reflexivity.
    assert (Htim : timer stopped = false) by reflexivity.
    assert (Hthr : threw stopped = false) by reflexivity.
    subst m'. unfold ThreePhase.dispatch. fold stopped.
    unfold ThreePhase.renderBudget.
    replace (3 * ThreePhase.tableLength stopped + 4)%nat
      with (S (3 * ThreePhase.tableLength stopped + 3)) by lia.
    destruct (three_phase_settle_inactive
                (3 * ThreePhase.tableLength stopped + 3) stopped Hact Htim)
      as (Hh & Ht & _ & He & Hs).
    rewrite Hh, Ht, He, Hs.
    repeat split; try reflexivity; assumption.
Qed.

(** *** Generated tables in the three-phase engine *)

Lemma lookup_generateTable (variant : TableType) (pb : Z) (i : nat) :
  (i < 8)%nat ->
  exists r : TrainingRound,
    generateTable variant pb !! i = Some r /\ recovery r = None.
Proof.
  intros Hi. destruct variant; simpl.
  - eexists. split; [apply lookup_generateCo2Table; eauto | reflexivity].
  - eexists. split; [apply lookup_generateO2Table; eauto | reflexivity].
Qed.

Lemma generated_recovery_absent (variant : TableType) (pb : Z)
    (r : TrainingRound) :
  r ∈ generateTable variant pb -> recovery r = None.
Proof.
  intros Hr. apply list_elem_of_lookup in Hr as [k Hk]. destruct variant.
  - apply lookup_generateCo2Table in Hk as [_ ->]. reflexivity.
  - apply lookup_generateO2Table in Hk as [_ ->]. reflexivity.
Qed.

(** C10.  Whatever the personal best, no round of a generated table has a
    [recovery] property, so the test [recovery === 0] fails on each of them;
    when the three-phase engine ends a hold on such a table it therefore
    enters the recovery phase of the same round, and the duration it loads
    is [undefined]. *)
Theorem generated_table_recovery_undefined
    (variant : TableType) (pb : Z) (c : ThreePhase.State)
    (m : Machine ThreePhase.State) :
  let table := generateTable variant pb in
  (forall r : TrainingRound, r ∈ table ->
     recovery r = None /\ bool_decide (recovery r = Some 0) = false)
  /\ (ThreePhase.tableData c = Some table ->
      ThreePhase.currentPhase c = ThreePhase.Hold ->
      (ThreePhase.currentRoundIndex c < 8)%nat ->
      let m' := ThreePhase.advancePhase c m in
      ThreePhase.currentPhase (hooks m') = ThreePhase.Recovery
      /\ ThreePhase.currentRoundIndex (hooks m')
         = ThreePhase.currentRoundIndex c
      /\ ThreePhase.timeRemaining (hooks m') = Undefined
      /\ ThreePhase.isSessionActive (hooks m')
         = ThreePhase.isSessionActive (hooks m)
      /\ sounds m' = sounds m ++ [StartSound]).
Proof.
  intros table. split.
  - intros r Hr. apply generated_recovery_absent in Hr. rewrite Hr.
    split; [reflexivity | now apply bool_decide_eq_false].
  - intros Htab Hph Hidx m'. subst m'. unfold ThreePhase.advancePhase.
    rewrite Htab, Hph.
    destruct (lookup_generateTable variant pb _ Hidx) as (r & Hr & Hrec).
    fold table in Hr. rewrite Hr, Hrec.
    rewrite bool_decide_eq_false_2 by discriminate. cbn [andb].
    unfold ThreePhase.property. rewrite Hrec. repeat split.
Qed.

Lemma generated_table_recovery_undefined_witness :
  let c := ThreePhase.mkState co2 (Some (generateTable co2 90)) true 7%nat
             ThreePhase.Hold (Int 0) false in
  let m := mkMachine c c false [] false in
  ThreePhase.timeRemaining (hooks (ThreePhase.advancePhase c m)) = Undefined
  /\ ThreePhase.currentPhase (hooks (ThreePhase.advancePhase c m))
     = ThreePhase.Recovery.
Proof.
  intros c m.
  destruct (generated_table_recovery_undefined co2 90 c m) as [_ H].
  destruct H as (Hph & _ & Htr & _); [reflexivity | reflexivity | simpl; lia |].
  exact (conj Htr Hph).
Defined.

(** *** Phase boundaries of the three-phase engine *)

(** The render in which an active countdown shows 0 requests the end cue,
    advances the phase and leaves no timeout pending. *)
Lemma three_phase_commit_at_zero (m : Machine ThreePhase.State) :
  ThreePhase.isSessionActive (hooks m) = true ->
  ThreePhase.timeRemaining (hooks m) = Int 0 ->
  ThreePhase.commit m
  = clearTimeout (ThreePhase.advancePhase (hooks m) (playEndSound (render m))).
Proof.
  intros Hact Htr. unfold ThreePhase.commit, ThreePhase.boundaryEffect,
    ThreePhase.countdownEffect, ThreePhase.countdownCleanup.
  rewrite Hact, Htr. reflexivity.
Qed.

(** C2, with the round whose recovery value is tested named as the code
    names it.  When the countdown of an active session shows 0, the commit
    requests the end cue and: prep is followed by hold of the same round;
    hold is followed by recovery of the same round, unless the recovery
    value of that same round (the round whose hold is ending) is 0, in which
    case the session finishes and deactivates; recovery is followed by prep
    of the next round; and the session finishes and deactivates when the
    index to be entered is past the end of the table. *)
Theorem three_phase_boundary
    (m : Machine ThreePhase.State) (table : list TrainingRound) :
  ThreePhase.tableData (hooks m) = Some table ->
  ThreePhase.isSessionActive (hooks m) = true ->
  ThreePhase.timeRemaining (hooks m) = Int 0 ->
  let c := hooks m in
  let i := ThreePhase.currentRoundIndex c in
  let c' := hooks (ThreePhase.commit m) in
  let finished :=
    ThreePhase.currentPhase c' = ThreePhase.Finished
    /\ ThreePhase.isSessionActive c' = false
    /\ sounds (ThreePhase.commit m) = sounds m ++ [EndSound] in
  let entered (p : ThreePhase.Phase) (k : nat) (duration : JsNumber) :=
    ThreePhase.currentPhase c' = p
    /\ ThreePhase.currentRoundIndex c' = k
    /\ ThreePhase.timeRemaining c' = duration
    /\ ThreePhase.isSessionActive c' = true
    /\ sounds (ThreePhase.commit m) = sounds m ++ [EndSound; StartSound] in
  (forall r, ThreePhase.currentPhase c = ThreePhase.Prep ->
     table !! i = Some r -> entered ThreePhase.Hold i (Int (hold r)))
  /\ (forall r, ThreePhase.currentPhase c = ThreePhase.Hold ->
        table !! i = Some r -> recovery r <> Some 0 ->
        entered ThreePhase.Recovery i
          (ThreePhase.property r ThreePhase.Recovery))
  /\ (forall r, ThreePhase.currentPhase c = ThreePhase.Hold ->
        table !! i = Some r -> recovery r = Some 0 -> finished)
  /\ (forall r', ThreePhase.currentPhase c = ThreePhase.Recovery ->
        table !! S i = Some r' ->
        entered ThreePhase.Prep (S i) (Int (prep r')))
  /\ (ThreePhase.currentPhase c = ThreePhase.Recovery ->
        (length table <= S i)%nat -> finished)
  /\ (ThreePhase.currentPhase c <> ThreePhase.Recovery ->
        (length table <= i)%nat -> finished).
Proof.
  intros Htab Hact Htr c i c' finished entered.
  subst finished entered c' i c.
  rewrite (three_phase_commit_at_zero m Hact Htr).
  unfold ThreePhase.advancePhase. rewrite Htab.
  split; [|split; [|split; [|split; [|split]]]].
  - intros r Hp Hr. rewrite Hp, Hr. rewrite andb_false_r.
    repeat split; simpl; rewrite <- ?app_assoc; auto.
  - intros r Hp Hr Hrec. rewrite Hp, Hr.
    rewrite (bool_decide_eq_false_2 _ Hrec).
    repeat split; simpl; rewrite <- ?app_assoc; auto.
  - intros r Hp Hr Hrec. rewrite Hp, Hr, Hrec. repeat split.
  - intros r' Hp Hr.  rewrite Hp, Nat.add_1_r, Hr. rewrite andb_false_r.
    repeat split; simpl; rewrite <- ?app_assoc; auto.
  - intros Hp Hlen. rewrite Hp, Nat.add_1_r.
    rewrite (lookup_ge_None_2 _ _ Hlen). repeat split.
  - intros Hp Hlen.
    destruct (ThreePhase.currentPhase (hooks m)) eqn:Hph; try congruence.
    all: rewrite ?Hph; rewrite (lookup_ge_None_2 _ _ Hlen); repeat split.
Qed.

Lemma three_phase_boundary_witness :
  let m' := ThreePhase.commit (holdEnding 1) in
  ThreePhase.currentPhase (hooks m') = ThreePhase.Finished
  /\ ThreePhase.isSessionActive (hooks m') = false
  /\ sounds m' = [EndSound].
Proof.
  destruct (three_phase_boundary (holdEnding 1) sampleTable
              eq_refl eq_refl eq_refl) as (_ & _ & H & _).
  exact (H (mkRound 2 10 20 (Some 0)) eq_refl eq_refl eq_refl).
Defined.

(** The hold of the first round ends; the recovery value of the next round
    is 0, yet the session enters the recovery phase and stays active. *)
Lemma next_round_recovery_zero_not_finished :
  let m := holdEnding 0 in
  let m' := ThreePhase.commit m in
  ThreePhase.isSessionActive (hooks m) = true
  /\ ThreePhase.timeRemaining (hooks m) = Int 0
  /\ ThreePhase.currentPhase (hooks m) = ThreePhase.Hold
  /\ recovery <$> sampleTable !! S (ThreePhase.currentRoundIndex (hooks m))
     = Some (Some 0)
  /\ ThreePhase.currentPhase (hooks m') = ThreePhase.Recovery
  /\ ThreePhase.currentPhase (hooks m') <> ThreePhase.Finished
  /\ ThreePhase.isSessionActive (hooks m') = true
  /\ ThreePhase.timeRemaining (hooks m') = Int 30.
Proof. vm_compute. repeat split; discriminate. Qed.

(** *** Submitting a personal best *)

(** C7, restricted to the controller that has the thresholds.  In the
    two-phase controller a personal best below 30 seconds for the CO2
    variant, or below 60 seconds for the O2 variant, is answered by opening
    the alert with a message, and changes neither the session state, nor the
    table, nor the timer; a personal best at or above the threshold of the
    variant binds the table generated from it.  The [onSubmit] of the
    three-phase controller has no threshold: it binds the table generated
    from every submitted total. *)
Theorem onSubmit_validation :
  (forall (m : Machine TwoPhase.State) (pb : Z),
     let variant := TwoPhase.tableType (rendered m) in
     let m' := handle (TwoPhase.onSubmit pb) m in
     ((variant = co2 /\ pb < 30) \/ (variant = o2 /\ pb < 60) ->
        TwoPhase.showAlert (hooks m') = true
        /\ TwoPhase.alertMessage (hooks m') <> EmptyString
        /\ sessionState (hooks m') = sessionState (hooks m)
        /\ timer m' = timer m /\ sounds m' = sounds m)
     /\ ((variant = co2 /\ 30 <= pb) \/ (variant = o2 /\ 60 <= pb) ->
           TwoPhase.tableData (hooks m') = Some (generateTable variant pb)))
  /\
  (forall (m : Machine ThreePhase.State) (minutes seconds : Z),
     let variant := ThreePhase.tableType (rendered m) in
     let m' := handle (ThreePhase.onSubmit minutes seconds) m in
     ThreePhase.tableData (hooks m')
     = Some (generateTable variant (minutes * 60 + seconds))).
Proof.
  split.
  - intros m pb variant m'. subst m' variant.
    unfold handle, TwoPhase.onSubmit.
    destruct (TwoPhase.tableType (rendered m)) eqn:Hty.
    + rewrite bool_decide_eq_true_2 by reflexivity.
      rewrite (bool_decide_eq_false_2 (co2 = o2)) by discriminate.
      cbn [andb]. destruct (Z.ltb_spec pb 30) as [Hlt|Hge].
      * split.
        -- intros _. repeat split. discriminate.
        -- intros [[_ H]|[H _]]; [lia | discriminate].
      * split.
        -- intros [[_ H]|[H _]]; [lia | discriminate].
        -- intros _. reflexivity.
    + rewrite (bool_decide_eq_false_2 (o2 = co2)) by discriminate.
      rewrite bool_decide_eq_true_2 by reflexivity.
      cbn [andb]. destruct (Z.ltb_spec pb 60) as [Hlt|Hge].
      * split.
        -- intros _. repeat split. discriminate.
        -- intros [[H _]|[_ H]]; [discriminate | lia].
      * split.
        -- intros [[H _]|[_ H]]; [discriminate | lia].
        -- intros _. reflexivity.
  - intros m minutes seconds variant m'. subst m' variant.
    unfold handle, ThreePhase.onSubmit.
    destruct (ThreePhase.tableType (rendered m)).
    + rewrite bool_decide_eq_true_2 by reflexivity. reflexivity.
    + rewrite bool_decide_eq_false_2 by discriminate. reflexivity.
Qed.

Lemma onSubmit_validation_witness :
  let m' := handle (TwoPhase.onSubmit 29) TwoPhase.initial in
  let m'' := handle (TwoPhase.onSubmit 30) TwoPhase.initial in
  TwoPhase.showAlert (hooks m') = true
  /\ sessionState (hooks m') = sessionState (hooks TwoPhase.initial)
  /\ TwoPhase.tableData (hooks m'') = Some (generateCo2Table 30).
Proof.
  destruct onSubmit_validation as [H _].
  destruct (H TwoPhase.initial 29) as [Hrej _].
  destruct (H TwoPhase.initial 30) as [_ Hacc].
  destruct Hrej as (Ha & _ & Hs & _); [left; split; [reflexivity | lia]|].
  split; [exact Ha|]. split; [exact Hs|].
  apply Hacc. left; split; [reflexivity | lia].
Defined.

(** In the three-phase controller a personal best of 10 seconds for the CO2
    variant is not rejected: a table is bound, and its hold time is the
    generator's floor of 30 seconds. *)
Lemma three_phase_onSubmit_accepts_low :
  let m' := ThreePhase.dispatch (ThreePhase.onSubmit 0 10) ThreePhase.initial in
  ThreePhase.tableType (hooks ThreePhase.initial) = co2
  /\ 0 * 60 + 10 < 30
  /\ ThreePhase.tableData (hooks m') = Some (generateCo2Table 10)
  /\ ThreePhase.tableData (hooks m')
     <> ThreePhase.tableData (hooks ThreePhase.initial)
  /\ hold <$> generateCo2Table 10 = [30; 30; 30; 30; 30; 30; 30; 30]
  /\ Math_round (inject_Z 10 * 0.60) = 6.
Proof. vm_compute. repeat split; discriminate. Qed.

(** *** Starting a session *)

(** Without a bound table [startSession] changes nothing, in both engines. *)
Lemma startSession_without_table :
  (forall m : Machine TwoPhase.State,
     TwoPhase.tableData (rendered m) = None ->
     let m' := handle TwoPhase.startSession m in
     hooks m' = hooks m /\ timer m' = timer m /\ sounds m' = sounds m
     /\ threw m' = false)
  /\
  (forall m : Machine ThreePhase.State,
     ThreePhase.tableData (rendered m) = None ->
     let m' := handle ThreePhase.startSession m in
     hooks m' = hooks m /\ timer m' = timer m /\ sounds m' = sounds m
     /\ threw m' = false).
Proof.
  split; intros m Htab; unfold handle.
  - unfold TwoPhase.startSession. rewrite Htab. repeat split.
  - unfold ThreePhase.startSession. rewrite Htab. repeat split.
Qed.

(** In the three-phase engine [startSession] on a non-empty table queues the
    round index 0, the phase prep and the prep duration of the first round
    in one batch, and requests the start cue. *)
Lemma three_phase_startSession (m : Machine ThreePhase.State)
    (table : list TrainingRound) (first : TrainingRound) :
  ThreePhase.tableData (rendered m) = Some table ->
  table !! 0%nat = Some first ->
  let m' := handle ThreePhase.startSession m in
  ThreePhase.isSessionActive (hooks m') = true
  /\ ThreePhase.currentRoundIndex (hooks m') = 0%nat
  /\ ThreePhase.currentPhase (hooks m') = ThreePhase.Prep
  /\ ThreePhase.timeRemaining (hooks m') = Int (prep first)
  /\ sounds m' = sounds m ++ [StartSound]
  /\ threw m' = false.
Proof.
  intros Htab Hfirst. unfold handle, ThreePhase.startSession.
  rewrite Htab. cbn [block foldl]. rewrite Hfirst. repeat split.
Qed.

(** C8 on the two-phase engine.  The table of the session has a first round
    with 129 seconds of prep and 54 seconds of hold.  [startSession] queues
    the round index 0 and the phase prep while the countdown still shows 0.
    The effects of that render load the prep duration and request the start
    cue, but the countdown effect of the same render sees an active session
    at 0 and advances the phase: the next render is in hold with 129 seconds,
    the one after in hold with 54 seconds, where the component settles.  The
    session is never in prep with the prep duration of the first round. *)
Theorem two_phase_start_leaves_prep :
  TwoPhase.tableData (hooks twoPhaseBound) = Some (generateCo2Table 90)
  /\ (fun r => (prep r, hold r)) <$> generateCo2Table 90 !! 0%nat
     = Some (129, 54)
  /\ view2 twoPhaseBound = (false, TwoPhase.Ready, 0%nat, 0)
  /\ view2 twoPhaseStarting = (true, TwoPhase.Prep, 0%nat, 0)
  /\ view2 (TwoPhase.commit twoPhaseStarting)
     = (true, TwoPhase.Hold, 0%nat, 129)
  /\ sounds (TwoPhase.commit twoPhaseStarting) = [StartSound; EndSound]
  /\ view2 (TwoPhase.commit (TwoPhase.commit twoPhaseStarting))
     = (true, TwoPhase.Hold, 0%nat, 54)
  /\ twoPhaseStarted
     = TwoPhase.commit (TwoPhase.commit (TwoPhase.commit twoPhaseStarting))
  /\ view2 twoPhaseStarted = (true, TwoPhase.Hold, 0%nat, 54)
  /\ sounds twoPhaseStarted = [StartSound; EndSound; StartSound]
  /\ settled twoPhaseStarted = true
  /\ timer twoPhaseStarted = true.
Proof. vm_compute. repeat split. Qed.

(** *** Phase boundaries of the two-phase engine *)

(** C1 on the two-phase engine, for the session above.  Starting already
    takes the session from prep to hold.  When the hold of the first round
    reaches 0, at the 54th tick, two boundary transitions fire: hold to prep
    of the second round, and at once prep to hold, each with its end and
    start cue.  After as many ticks as the first prep lasts (129) the
    session is in the hold of the third round with 33 seconds left, and
    five end cues have been requested. *)
Theorem two_phase_boundary_fires_twice :
  view2 twoPhaseStarted = (true, TwoPhase.Hold, 0%nat, 54)
  /\ view2 (TwoPhase.ticks 53 twoPhaseStarted)
     = (true, TwoPhase.Hold, 0%nat, 1)
  /\ view2 (TwoPhase.ticks 54 twoPhaseStarted)
     = (true, TwoPhase.Hold, 1%nat, 54)
  /\ sounds (TwoPhase.ticks 54 twoPhaseStarted)
     = sounds (TwoPhase.ticks 53 twoPhaseStarted)
       ++ [EndSound; StartSound; EndSound; StartSound]
  /\ view2 (TwoPhase.ticks 129 twoPhaseStarted)
     = (true, TwoPhase.Hold, 2%nat, 33)
  /\ countCue EndSound (sounds (TwoPhase.ticks 129 twoPhaseStarted)) = 5%nat.
Proof. vm_compute. repeat split. Qed.

(** *** The countdown invariant *)

Lemma three_phase_ticks_idle (m : Machine ThreePhase.State) (n : nat) :
  timer m = false -> ThreePhase.ticks n m = m.
Proof.
  intros Ht. induction n as [|n IH]; simpl; [reflexivity|].
  unfold ThreePhase.tick. now rewrite Ht.
Qed.

(** C3 on the code.  The three-phase session on the CO2 table for a personal
    best of 90 seconds counts the prep (129) and the hold (54) of the first
    round down; at the end of the hold it enters the recovery phase with a
    countdown that is [undefined], one tick later [NaN], and there it stays:
    the session is active, the countdown is no number, it does not decrease,
    and no timeout is pending any more.  In the two-phase session on the same
    table the render that follows the start shows the hold phase with 129
    seconds, more than the 54 seconds of that hold. *)
Theorem countdown_invariant_broken :
  ThreePhase.tableData (hooks threePhaseBound) = Some (generateCo2Table 90)
  /\ view3 threePhaseStarted = (true, ThreePhase.Prep, 0%nat, Int 129)
  /\ view3 (ThreePhase.ticks 129 threePhaseStarted)
     = (true, ThreePhase.Hold, 0%nat, Int 54)
  /\ view3 (ThreePhase.ticks 183 threePhaseStarted)
     = (true, ThreePhase.Recovery, 0%nat, Undefined)
  /\ settled (ThreePhase.ticks 183 threePhaseStarted) = true
  /\ view3 (ThreePhase.ticks 184 threePhaseStarted)
     = (true, ThreePhase.Recovery, 0%nat, NaN)
  /\ (forall n : nat,
        view3 (ThreePhase.ticks (185 + n) threePhaseStarted)
        = (true, ThreePhase.Recovery, 0%nat, NaN)
        /\ timer (ThreePhase.ticks (185 + n) threePhaseStarted) = false)
  /\ view2 (TwoPhase.commit twoPhaseStarting)
     = (true, TwoPhase.Hold, 0%nat, 129)
  /\ hold <$> generateCo2Table 90 !! 0%nat = Some 54.
Proof.
  assert (Hidle : timer (ThreePhase.ticks 185 threePhaseStarted) = false)
    by (vm_compute; reflexivity).
  assert (Hview : view3 (ThreePhase.ticks 185 threePhaseStarted)
                  = (true, ThreePhase.Recovery, 0%nat, NaN))
    by (vm_compute; reflexivity).
  repeat match goal with |- _ /\ _ => split end;
    try (vm_compute; reflexivity).
  intros n. rewrite Nat.add_comm.
  assert (Hsplit : forall a b m,
            ThreePhase.ticks (a + b) m = ThreePhase.ticks a (ThreePhase.ticks b m)).
  { intros a b; revert a. induction b as [|b IH]; intros a m.
    - now rewrite Nat.add_0_r.
    - rewrite Nat.add_succ_r. simpl.
      change (ThreePhase.ticks (a + b) (ThreePhase.tick m)
              = ThreePhase.ticks a (ThreePhase.ticks b (ThreePhase.tick m))).
      apply IH. }
  rewrite Hsplit, (three_phase_ticks_idle _ n Hidle). auto.
Qed.

(** *** A two-phase session runs to its end *)

Lemma run_add {State : Type} `{EqDecision State}
    (commit : Machine State -> Machine State)
    (callback : State -> Action State) (a b : nat) (m : Machine State) :
  run commit callback (a + b) m
  = run commit callback b (run commit callback a m).
Proof.
  revert m. induction a as [|a IH]; intros m; simpl; [reflexivity|].
  apply IH.
Qed.

(** The two cases of a commit of the two-phase component: the phase
    dependencies changed (both effects run), or only the countdown did (the
    countdown effect alone runs). *)
Lemma two_phase_commit_phase_changed (m : Machine TwoPhase.State) :
  TwoPhase.phaseDeps (rendered m) <> TwoPhase.phaseDeps (hooks m) ->
  TwoPhase.commit m
  = TwoPhase.countdownEffect (hooks m)
      (clearTimeout (TwoPhase.phaseEffect (hooks m) (render m))).
Proof.
  intros Hdeps. unfold TwoPhase.commit.
  rewrite (bool_decide_eq_false_2 _ Hdeps).
  rewrite bool_decide_eq_false_2; [reflexivity|].
  intros H. apply Hdeps. unfold TwoPhase.countdownDeps in H.
  unfold TwoPhase.phaseDeps. congruence.
Qed.

Lemma two_phase_commit_countdown_changed (m : Machine TwoPhase.State) :
  TwoPhase.phaseDeps (rendered m) = TwoPhase.phaseDeps (hooks m) ->
  TwoPhase.timeRemaining (rendered m) <> TwoPhase.timeRemaining (hooks m) ->
  TwoPhase.commit m
  = TwoPhase.countdownEffect (hooks m) (clearTimeout (render m)).
Proof.
  intros Hdeps Htr. unfold TwoPhase.commit.
  rewrite (bool_decide_eq_true_2 _ Hdeps).
  rewrite bool_decide_eq_false_2; [reflexivity|].
  intros H. apply Htr. unfold TwoPhase.countdownDeps in H. congruence.
Qed.

Lemma step_unsettled {State : Type} `{EqDecision State}
    (commit : Machine State -> Machine State)
    (callback : State -> Action State) (m : Machine State) :
  hooks m <> rendered m -> step commit callback m = commit m.
Proof.
  intros Hne. unfold step, settled. now rewrite bool_decide_eq_false_2.
Qed.

(** The effect bodies on a session state. *)
Lemma phaseEffect_session (ui : TwoPhase.State) (table : list TrainingRound)
    (i : nat) (ph : TwoPhase.Phase) (t : Z) (r : TrainingRound)
    (m : Machine TwoPhase.State) :
  table !! i = Some r ->
  ph = TwoPhase.Prep \/ ph = TwoPhase.Hold ->
  TwoPhase.phaseEffect (sessionAt ui table true i ph t) m
  = playStartSound (TwoPhase.setTimeRemaining (fun _ => duration ph r) m).
Proof.
  intros Hr Hph. unfold TwoPhase.phaseEffect, sessionAt.
  cbv [TwoPhase.isSessionActive TwoPhase.tableData TwoPhase.currentPhase
       TwoPhase.currentRoundIndex].
  rewrite Hr. destruct Hph as [-> | ->]; reflexivity.
Qed.

Lemma advancePhase_session (ui : TwoPhase.State) (table : list TrainingRound)
    (i : nat) (ph : TwoPhase.Phase) (t : Z) (m : Machine TwoPhase.State) :
  (i < length table)%nat ->
  TwoPhase.advancePhase (sessionAt ui table true i ph t) m
  = match ph with
    | TwoPhase.Prep => TwoPhase.setCurrentPhase TwoPhase.Hold m
    | TwoPhase.Hold =>
        if bool_decide (S i = length table)
        then TwoPhase.setIsSessionActive false
               (TwoPhase.setCurrentPhase TwoPhase.Finished m)
        else TwoPhase.setCurrentRoundIndex (fun prev => (prev + 1)%nat)
               (TwoPhase.setCurrentPhase TwoPhase.Prep m)
    | _ => m
    end.
Proof.
  intros Hi. unfold TwoPhase.advancePhase, sessionAt.
  cbv [TwoPhase.tableData TwoPhase.currentPhase TwoPhase.currentRoundIndex].
  destruct ph; try reflexivity.
  rewrite (bool_decide_ext
             (Z.of_nat i = Z.of_nat (length table) - 1) (S i = length table))
    by lia.
  case_bool_decide; reflexivity.
Qed.

Lemma countdownEffect_zero (s : TwoPhase.State) (m : Machine TwoPhase.State) :
  TwoPhase.isSessionActive s = true ->
  TwoPhase.timeRemaining s = 0 ->
  TwoPhase.countdownEffect s m
  = clearTimeout (TwoPhase.advancePhase s (playEndSound m)).
Proof.
  intros Ha Ht. unfold TwoPhase.countdownEffect. now rewrite Ha, Ht.
Qed.

Lemma countdownEffect_positive (s : TwoPhase.State)
    (m : Machine TwoPhase.State) :
  TwoPhase.isSessionActive s = true ->
  0 < TwoPhase.timeRemaining s ->
  TwoPhase.countdownEffect s m = setTimeout m.
Proof.
  intros Ha Ht. unfold TwoPhase.countdownEffect. rewrite Ha.
  now rewrite (proj2 (Z.leb_gt _ _) Ht).
Qed.

Section TwoPhaseSession.
Variable ui : TwoPhase.State.
Variable table : list TrainingRound.
Hypothesis durations :
  Forall (fun r => 0 <= prep r /\ 0 <= hold r) table.

Local Abbreviation st := (sessionAt ui table).
Local Abbreviation step2 := (step TwoPhase.commit TwoPhase.onTimeout).
Local Abbreviation run2 := (run TwoPhase.commit TwoPhase.onTimeout).

Lemma duration_nonneg (ph : TwoPhase.Phase) (i : nat) (r : TrainingRound) :
  table !! i = Some r -> 0 <= duration ph r.
Proof.
  intros Hr. apply list_elem_of_lookup_2 in Hr.
  rewrite Forall_forall in durations. apply durations in Hr.
  destruct ph; simpl; lia.
Qed.

(** The render that enters a phase: the phase effect loads the duration;
    the countdown effect, reading the countdown of that render, either
    advances at once (at 0) or arms the timer. *)
Lemma step_fresh (p : TwoPhase.State) (i : nat) (ph : TwoPhase.Phase)
    (t : Z) (tm : bool) (snd : list Cue) (th : bool) (r : TrainingRound) :
  TwoPhase.phaseDeps p <> TwoPhase.phaseDeps (st true i ph t) ->
  ph = TwoPhase.Prep \/ ph = TwoPhase.Hold ->
  table !! i = Some r ->
  0 <= t ->
  step2 (mkMachine p (st true i ph t) tm snd th)
  = if t =? 0
    then mkMachine (st true i ph t) (advanced ui table i ph (duration ph r))
           false (snd ++ [StartSound; EndSound]) th
    else mkMachine (st true i ph t) (st true i ph (duration ph r))
           true (snd ++ [StartSound]) th.
Proof.
  intros Hdeps Hph Hr Ht.
  rewrite step_unsettled
    by (cbv [hooks rendered]; intros <-; now apply Hdeps).
  rewrite two_phase_commit_phase_changed by exact Hdeps.
  cbv [hooks rendered].
  rewrite (phaseEffect_session ui table i ph t r _ Hr Hph).
  pose proof (lookup_lt_Some _ _ _ Hr) as Hi.
  destruct (Z.eqb_spec t 0) as [-> | Hne].
  - rewrite countdownEffect_zero by reflexivity.
    rewrite advancePhase_session by exact Hi.
    destruct Hph as [-> | ->]; [machine_eq|].
    unfold advanced. case_bool_decide; machine_eq.
  - rewrite countdownEffect_positive by (try reflexivity; cbv [sessionAt TwoPhase.timeRemaining]; lia).
    machine_eq.
Qed.

(** The render after the countdown alone changed: at 0 the countdown
    effect advances the phase, above 0 it arms the timer. *)
Lemma step_countdown (i : nat) (ph : TwoPhase.Phase) (t d : Z)
    (tm : bool) (snd : list Cue) (th : bool) :
  ph = TwoPhase.Prep \/ ph = TwoPhase.Hold ->
  (i < length table)%nat ->
  d <> t -> 0 <= d ->
  step2 (mkMachine (st true i ph t) (st true i ph d) tm snd th)
  = if d =? 0
    then mkMachine (st true i ph d) (advanced ui table i ph 0)
           false (snd ++ [EndSound]) th
    else mkMachine (st true i ph d) (st true i ph d) true snd th.
Proof.
  intros Hph Hi Hne Hd.
  rewrite step_unsettled
    by (cbv [hooks rendered]; intros [= H]; now apply Hne).
  rewrite two_phase_commit_countdown_changed;
    [ | reflexivity | cbv; intros H; apply Hne; now symmetry ].
  cbv [hooks rendered].
  destruct (Z.eqb_spec d 0) as [-> | Hd0].
  - rewrite countdownEffect_zero by reflexivity.
    rewrite advancePhase_session by exact Hi.
    destruct Hph as [-> | ->]; [machine_eq|].
    unfold advanced. case_bool_decide; machine_eq.
  - rewrite countdownEffect_positive by (try reflexivity; cbv [sessionAt TwoPhase.timeRemaining]; lia).
    machine_eq.
Qed.

(** The timeout of a settled, counting machine decrements the countdown. *)
Lemma step_counting (i : nat) (ph : TwoPhase.Phase) (t : Z)
    (snd : list Cue) (th : bool) :
  exists snd' : list Cue,
    step2 (mkMachine (st true i ph t) (st true i ph t) true snd th)
    = mkMachine (st true i ph t) (st true i ph (t - 1)) false snd' th.
Proof.
  unfold step, settled. cbn [hooks rendered timer].
  rewrite bool_decide_eq_true_2 by reflexivity.
  unfold elapse, TwoPhase.onTimeout. cbn [rendered].
  destruct ((1 <? TwoPhase.timeRemaining (st true i ph t))
            && (TwoPhase.timeRemaining (st true i ph t) <=? 4));
    eexists; reflexivity.
Qed.

Lemma next_of_advanced (i : nat) (ph : TwoPhase.Phase) (t t' : Z)
    (snd : list Cue) (th : bool) :
  (i < length table)%nat ->
  ph = TwoPhase.Prep \/ ph = TwoPhase.Hold ->
  0 <= t' ->
  Next ui table i ph
    (mkMachine (st true i ph t) (advanced ui table i ph t') false snd th).
Proof.
  intros Hi [-> | ->] Ht'; unfold Next, advanced.
  - exists t'. cbn. repeat split; auto; discriminate.
  - case_bool_decide.
    + exists i, t'. auto.
    + exists t'. cbn. repeat split; auto; try discriminate; lia.
Qed.

(** A counting machine reaches the end of its phase. *)
Lemma counting_reaches_next (n : nat) :
  forall (i : nat) (ph : TwoPhase.Phase) (snd : list Cue) (th : bool),
    (i < length table)%nat ->
    ph = TwoPhase.Prep \/ ph = TwoPhase.Hold ->
    exists k : nat,
      Next ui table i ph
        (run2 k (mkMachine (st true i ph (Z.of_nat (S n)))
                   (st true i ph (Z.of_nat (S n))) true snd th)).
Proof.
  induction n as [|n IH]; intros i ph snd th Hi Hph.
  - destruct (step_counting i ph (Z.of_nat 1) snd th) as [snd' Hs].
    exists 2%nat. cbn [run]. rewrite Hs.
    rewrite step_countdown by (auto; lia).
    change (Z.of_nat 1 - 1) with 0. cbn [Z.eqb].
    apply next_of_advanced; auto; lia.
  - destruct (step_counting i ph (Z.of_nat (S (S n))) snd th) as [snd' Hs].
    destruct (IH i ph snd' th Hi Hph) as [k Hk].
    exists (2 + k)%nat. rewrite run_add. cbn [run]. rewrite Hs.
    rewrite step_countdown by (auto; lia).
    replace (Z.of_nat (S (S n)) - 1) with (Z.of_nat (S n)) by lia.
    rewrite (proj2 (Z.eqb_neq (Z.of_nat (S n)) 0)) by lia.
    exact Hk.
Qed.

(** A phase that was entered is left again. *)
Lemma fresh_reaches_next (i : nat) (ph : TwoPhase.Phase)
    (m : Machine TwoPhase.State) :
  Fresh ui table i ph m ->
  exists k : nat, Next ui table i ph (run2 k m).
Proof.
  intros (t & Hh & Ht & Hdeps & Hi & Hph).
  destruct m as [p h tm snd th]. cbn [hooks rendered] in *. subst h.
  destruct (lookup_lt_is_Some_2 table i Hi) as [r Hr].
  pose proof (duration_nonneg ph i r Hr) as Hd.
  pose proof (step_fresh p i ph t tm snd th r Hdeps Hph Hr Ht) as Hstep.
  destruct (Z.eqb_spec t 0) as [-> | Hne].
  - exists 1%nat. cbn [run]. rewrite Hstep.
    apply next_of_advanced; auto.
  - destruct (Z.eq_dec (duration ph r) t) as [Heq | Hdt].
    + rewrite Heq in Hstep.
      destruct (counting_reaches_next (Z.to_nat (t - 1)) i ph
                  (snd ++ [StartSound]) th Hi Hph) as [k Hk].
      replace (Z.of_nat (S (Z.to_nat (t - 1)))) with t in Hk by lia.
      exists (1 + k)%nat. rewrite run_add. cbn [run]. rewrite Hstep.
      exact Hk.
    + pose proof (step_countdown i ph t (duration ph r) true
                    (snd ++ [StartSound]) th Hph Hi Hdt Hd) as Hstep'.
      destruct (Z.eqb_spec (duration ph r) 0) as [Hz | Hnz].
      * exists 2%nat. cbn [run]. rewrite Hstep, Hstep'.
        apply next_of_advanced; auto; lia.
      * destruct (counting_reaches_next (Z.to_nat (duration ph r - 1)) i ph
                    (snd ++ [StartSound]) th Hi Hph) as [k Hk].
        replace (Z.of_nat (S (Z.to_nat (duration ph r - 1))))
          with (duration ph r) in Hk by lia.
        exists (2 + k)%nat. rewrite run_add. cbn [run].
        rewrite Hstep, Hstep'. exact Hk.
Qed.

(** Once the last hold was left, one more step ends the session. *)
Lemma finishing_over (m : Machine TwoPhase.State) :
  Finishing ui table m -> Over table (step2 m).
Proof.
  intros (i & t & Hh & Hi & Htm). unfold step.
  destruct (settled m) eqn:Hs.
  - rewrite Htm. unfold Over. rewrite Hh. cbn. auto.
  - rewrite two_phase_commit_inactive by (auto; now rewrite Hh).
    unfold Over. cbn [hooks render timer]. rewrite Hh. cbn.
    repeat split; auto. apply settled_render.
Qed.

(** From the end of any phase the session runs to its end. *)
Lemma next_finishes (fuel : nat) :
  forall (i : nat) (ph : TwoPhase.Phase) (m : Machine TwoPhase.State),
    (remaining table i ph <= fuel)%nat ->
    (i < length table)%nat ->
    ph = TwoPhase.Prep \/ ph = TwoPhase.Hold ->
    Next ui table i ph m ->
    exists k : nat, Over table (run2 k m).
Proof.
  induction fuel as [|fuel IH]; intros i ph m Hrem Hi Hph Hnext.
  - destruct Hph as [-> | ->]; cbn in Hrem; lia.
  - destruct Hph as [-> | ->]; unfold Next in Hnext.
    + destruct (fresh_reaches_next i TwoPhase.Hold m Hnext) as [k1 Hk1].
      destruct (IH i TwoPhase.Hold (run2 k1 m)) as [k2 Hk2]; auto.
      { cbn in *. lia. }
      exists (k1 + k2)%nat. now rewrite run_add.
    + case_bool_decide as Hlast.
      * exists 1%nat. cbn [run]. now apply finishing_over.
      * destruct (fresh_reaches_next (S i) TwoPhase.Prep m Hnext)
          as [k1 Hk1].
        destruct (IH (S i) TwoPhase.Prep (run2 k1 m)) as [k2 Hk2]; auto.
        { cbn in *. lia. }
        { lia. }
        exists (k1 + k2)%nat. now rewrite run_add.
Qed.
End TwoPhaseSession.

(** On every eight-round table with durations that are not negative, the
    two-phase session started from the bound, idle component runs, by
    timeouts and renders, to the phase finished with the session inactive,
    in the last round; no timeout is pending then, and no further step
    changes the machine. *)
Lemma two_phase_session_reaches_finished
    (table : list TrainingRound) (m : Machine TwoPhase.State) :
  length table = 8%nat ->
  Forall (fun r => 0 <= prep r /\ 0 <= hold r) table ->
  TwoPhase.tableData (hooks m) = Some table ->
  TwoPhase.isSessionActive (hooks m) = false ->
  TwoPhase.timeRemaining (hooks m) = 0 ->
  settled m = true ->
  exists n : nat,
    let m' := run TwoPhase.commit TwoPhase.onTimeout n
                (handle TwoPhase.startSession m) in
    TwoPhase.currentPhase (hooks m') = TwoPhase.Finished
    /\ TwoPhase.isSessionActive (hooks m') = false
    /\ TwoPhase.currentRoundIndex (hooks m') = 7%nat
    /\ timer m' = false
    /\ settled m' = true
    /\ forall k : nat, run TwoPhase.commit TwoPhase.onTimeout k m' = m'.
Proof.
  intros Hlen Hdur Htab Hact Htr Hset.
  apply bool_decide_eq_true in Hset.
  destruct m as [p h tm snd th]. cbn [hooks rendered] in *. subst p.
  destruct h as [ty td a i ph t ssm sa am]. cbn in Htab, Hact, Htr. subst.
  set (ui := TwoPhase.mkState ty (Some table) false i ph 0 ssm sa am).
  assert (Hfresh : Fresh ui table 0 TwoPhase.Prep
                     (handle TwoPhase.startSession
                        (mkMachine ui ui tm snd th))).
  { exists 0. cbn. repeat split; auto; try discriminate; lia. }
  destruct (fresh_reaches_next ui table Hdur _ _ _ Hfresh) as [k1 Hk1].
  destruct (next_finishes ui table Hdur (remaining table 0 TwoPhase.Prep)
              0%nat TwoPhase.Prep _ (Nat.le_refl _) ltac:(lia)
              (or_introl eq_refl) Hk1) as [k2 Hk2].
  exists (k1 + k2)%nat. cbv zeta. rewrite run_add.
  destruct Hk2 as (Hph & Hina & Hidx & Htm & Hs).
  repeat split; auto; [lia|].
  intros k. now apply idle_run.
Qed.


(** On every table, the first render after [startSession] already leaves
    the prep phase of the first round: the countdown effect of that render
    still reads the countdown 0 of the idle component. *)
Lemma two_phase_start_enters_hold
    (table : list TrainingRound) (first : TrainingRound)
    (m : Machine TwoPhase.State) :
  table !! 0%nat = Some first ->
  TwoPhase.tableData (hooks m) = Some table ->
  TwoPhase.isSessionActive (hooks m) = false ->
  TwoPhase.timeRemaining (hooks m) = 0 ->
  settled m = true ->
  let started := handle TwoPhase.startSession m in
  view2 started = (true, TwoPhase.Prep, 0%nat, 0)
  /\ view2 (TwoPhase.commit started)
     = (true, TwoPhase.Hold, 0%nat, prep first)
  /\ sounds (TwoPhase.commit started) = sounds m ++ [StartSound; EndSound].
Proof.
  intros Hfirst Htab Hact Htr Hset. cbv zeta.
  apply bool_decide_eq_true in Hset.
  destruct m as [p h tm snd th]. cbn [hooks rendered sounds] in *. subst p.
  destruct h as [ty td a i ph t ssm sa am]. cbn in Htab, Hact, Htr. subst.
  set (ui := TwoPhase.mkState ty (Some table) false i ph 0 ssm sa am).
  assert (Hdeps : TwoPhase.phaseDeps ui
                  <> TwoPhase.phaseDeps
                       (sessionAt ui table true 0 TwoPhase.Prep 0))
    by (cbn; discriminate).
  pose proof (step_fresh ui table ui 0 TwoPhase.Prep 0 tm snd false first
                Hdeps (or_introl eq_refl) Hfirst (Z.le_refl 0)) as Hstep.
  rewrite step_unsettled in Hstep by (cbn; discriminate).
  change (handle TwoPhase.startSession (mkMachine ui ui tm snd th)) with
    (mkMachine ui (sessionAt ui table true 0 TwoPhase.Prep 0) tm snd false).
  rewrite Hstep. repeat split.
Qed.


(** On every table, when the hold of a round that is not the last reaches 0,
    the next two renders pass through the prep of the following round and
    enter its hold: the second boundary fires on the countdown 0 that the
    first one left behind. *)
Lemma two_phase_hold_end_skips_prep
    (ui : TwoPhase.State) (table : list TrainingRound) (i : nat)
    (next : TrainingRound) (tm : bool) (snd : list Cue) (th : bool) :
  table !! S i = Some next ->
  let m := mkMachine (sessionAt ui table true i TwoPhase.Hold 1)
             (sessionAt ui table true i TwoPhase.Hold 0) tm snd th in
  let m' := run TwoPhase.commit TwoPhase.onTimeout 2 m in
  rendered m' = sessionAt ui table true (S i) TwoPhase.Prep 0
  /\ hooks m' = sessionAt ui table true (S i) TwoPhase.Hold (prep next)
  /\ sounds m' = snd ++ [EndSound; StartSound; EndSound].
Proof.
  intros Hnext. cbv zeta.
  pose proof (lookup_lt_Some _ _ _ Hnext) as Hlen.
  assert (Hrun :
    run TwoPhase.commit TwoPhase.onTimeout 2
      (mkMachine (sessionAt ui table true i TwoPhase.Hold 1)
         (sessionAt ui table true i TwoPhase.Hold 0) tm snd th)
    = mkMachine (sessionAt ui table true (S i) TwoPhase.Prep 0)
        (sessionAt ui table true (S i) TwoPhase.Hold (prep next)) false
        (snd ++ [EndSound; StartSound; EndSound]) th).
  { cbn [run]. rewrite step_countdown by (auto; lia). cbn [Z.eqb].
    unfold advanced. rewrite bool_decide_eq_false_2 by lia.
    rewrite (step_fresh ui table _ (S i) TwoPhase.Prep 0 false _ th next);
      auto; try lia; try (cbn; discriminate).
    cbn [Z.eqb duration]. now rewrite <- app_assoc. }
  rewrite Hrun. repeat split.
Qed.


(** ** Further properties of the generators *)

(** The hold time of each table as a function of the personal best. *)
Lemma co2_hold_value (pb : Z) (k : nat) (r : TrainingRound) :
  generateCo2Table pb !! k = Some r ->
  hold r = Z.max 30 ((6 * pb + 5) / 10)
  /\ prep r = Z.max 30 (hold r + 75 - Z.of_nat k * 15).
Proof.
  intros H. apply lookup_generateCo2Table in H as [_ ->].
  cbn [hold prep]. rewrite Math_round_060. split; [reflexivity|].
  f_equal. lia.
Qed.

Lemma o2_hold_value (pb : Z) (k : nat) (r : TrainingRound) :
  generateO2Table pb !! k = Some r ->
  hold r = Z.max 45 ((pb + 1) / 2) + Z.of_nat k * 10 /\ prep r = 120.
Proof.
  intros H. apply lookup_generateO2Table in H as [_ ->].
  cbn [hold prep]. rewrite Math_round_05. split; [lia | reflexivity].
Qed.

Lemma generateCo2Table_ext (pb pb' : Z) :
  Z.max 30 (Math_round (inject_Z pb * 0.60))
  = Z.max 30 (Math_round (inject_Z pb' * 0.60)) ->
  generateCo2Table pb = generateCo2Table pb'.
Proof.
  intros H. unfold generateCo2Table, Math_max. cbv zeta. now rewrite H.
Qed.

Lemma generateO2Table_ext (pb pb' : Z) :
  Z.max 45 (Math_round (inject_Z pb * 0.5))
  = Z.max 45 (Math_round (inject_Z pb' * 0.5)) ->
  generateO2Table pb = generateO2Table pb'.
Proof.
  intros H. unfold generateO2Table, Math_max. cbv zeta. now rewrite H.
Qed.

(** The floors make low personal bests indistinguishable: a personal best
    yields the same CO2 table as 50 seconds exactly when it is at most 50
    seconds, and the same O2 table as 90 seconds exactly when it is at most
    90 seconds. *)
Theorem floor_tables (pb : Z) :
  (generateCo2Table pb = generateCo2Table 50 <-> pb <= 50)
  /\ (generateO2Table pb = generateO2Table 90 <-> pb <= 90).
Proof.
  split; split.
  - intros Heq.
    destruct (lookup_generateTable co2 pb 0) as (r & Hr & _); [lia|].
    cbn [generateTable] in Hr. pose proof Hr as Hr'. rewrite Heq in Hr'.
    apply co2_hold_value in Hr as [Hh _].
    apply co2_hold_value in Hr' as [Hh' _].
    rewrite Hh in Hh'. revert Hh'. Z.div_mod_to_equations. lia.
  - intros Hle. apply generateCo2Table_ext. rewrite !Math_round_060.
    Z.div_mod_to_equations. lia.
  - intros Heq.
    destruct (lookup_generateTable o2 pb 0) as (r & Hr & _); [lia|].
    cbn [generateTable] in Hr. pose proof Hr as Hr'. rewrite Heq in Hr'.
    apply o2_hold_value in Hr as [Hh _].
    apply o2_hold_value in Hr' as [Hh' _].
    rewrite Hh in Hh'. revert Hh'. Z.div_mod_to_equations. lia.
  - intros Hle. apply generateO2Table_ext. rewrite !Math_round_05.
    Z.div_mod_to_equations. lia.
Qed.

(** A larger personal best never shortens a hold or a rest: round by round,
    the CO2 table has hold and prep times at least as long, and the O2 table
    hold times at least as long with the same prep. *)
Theorem tables_monotone (pb pb' : Z) (k : nat) :
  pb <= pb' ->
  (forall r r' : TrainingRound,
     generateCo2Table pb !! k = Some r ->
     generateCo2Table pb' !! k = Some r' ->
     hold r <= hold r' /\ prep r <= prep r')
  /\ (forall r r' : TrainingRound,
        generateO2Table pb !! k = Some r ->
        generateO2Table pb' !! k = Some r' ->
        hold r <= hold r' /\ prep r = prep r').
Proof.
  intros Hle. split; intros r r' Hr Hr'.
  - apply co2_hold_value in Hr as [Hh Hp].
    apply co2_hold_value in Hr' as [Hh' Hp'].
    assert (hold r <= hold r')
      by (rewrite Hh, Hh'; Z.div_mod_to_equations; lia).
    split; [assumption | lia].
  - apply o2_hold_value in Hr as [Hh Hp].
    apply o2_hold_value in Hr' as [Hh' Hp'].
    split; [|congruence].
    rewrite Hh, Hh'. Z.div_mod_to_equations. lia.
Qed.

Lemma tables_monotone_witness :
  60 <= 90
  /\ forall r r' : TrainingRound,
       generateCo2Table 60 !! 0%nat = Some r ->
       generateCo2Table 90 !! 0%nat = Some r' ->
       hold r <= hold r' /\ prep r <= prep r'.
Proof.
  split; [lia|].
  exact (proj1 (tables_monotone 60 90 0 ltac:(lia))).
Defined.

(** Holds against the personal best.  Every hold of the CO2 table is at most
    the personal best exactly when the personal best is at least 30 seconds.
    The first hold of the O2 table is at most the personal best exactly when
    that is at least 45 seconds, and its last hold is longer than the
    personal best exactly when that is below 140 seconds. *)
Theorem hold_against_personal_best (pb : Z) :
  ((forall r : TrainingRound, r ∈ generateCo2Table pb -> hold r <= pb)
   <-> 30 <= pb)
  /\ (forall r : TrainingRound, generateO2Table pb !! 0%nat = Some r ->
        (hold r <= pb <-> 45 <= pb))
  /\ (forall r : TrainingRound, generateO2Table pb !! 7%nat = Some r ->
        (pb < hold r <-> pb < 140)).
Proof.
  split; [split|split].
  - intros H.
    destruct (lookup_generateTable co2 pb 0) as (r & Hr & _); [lia|].
    cbn [generateTable] in Hr.
    pose proof (H r (list_elem_of_lookup_2 _ _ _ Hr)) as Hle.
    apply co2_hold_value in Hr as [Hh _]. lia.
  - intros Hpb r Hr. apply list_elem_of_lookup in Hr as [k Hk].
    apply co2_hold_value in Hk as [Hh _]. rewrite Hh.
    Z.div_mod_to_equations. lia.
  - intros r Hr. apply o2_hold_value in Hr as [Hh _]. rewrite Hh.
    Z.div_mod_to_equations. lia.
  - intros r Hr. apply o2_hold_value in Hr as [Hh _]. rewrite Hh.
    Z.div_mod_to_equations. lia.
Qed.

Lemma hold_against_personal_best_witness :
  (hold (mkRound 1 120 45 None) <= 60 <-> 45 <= 60)
  /\ (60 < hold (mkRound 8 120 115 None) <-> 60 < 140).
Proof.
  destruct (hold_against_personal_best 60) as (_ & H0 & H7).
  split; [exact (H0 _ eq_refl) | exact (H7 _ eq_refl)].
Defined.

(** The rest floor of the integer CO2 generator. *)
Lemma co2_rest_floor_integers (pb : Z) :
  (forall (k : nat) (r : TrainingRound),
     generateCo2Table pb !! k = Some r -> (k <= 5)%nat ->
     prep r = hold r + 75 - Z.of_nat k * 15 /\ hold r <= prep r)
  /\ (forall r : TrainingRound,
        generateCo2Table pb !! 7%nat = Some r ->
        (prep r = 30 <-> pb <= 100)).
Proof.
  split.
  - intros k r Hr Hk. apply co2_hold_value in Hr as [Hh Hp]. lia.
  - intros r Hr. apply co2_hold_value in Hr as [Hh Hp]. rewrite Hp, Hh.
    Z.div_mod_to_equations. lia.
Qed.

(** The rest floor of the CO2 table, as the source computes it in binary64,
    for every personal best from 1 to 600 seconds (600 is the largest the
    form accepts).  In rounds 1 to 6 the prep time is the hold time plus 75
    seconds minus 15 seconds per earlier round, never floored and never
    shorter than the hold; the prep time of round 8 is the 30 second floor
    exactly when the personal best is at most 100 seconds. *)
Theorem co2_rest_floor (pb : Z) :
  0 < pb <= 600 ->
  exists table : list TrainingRound,
    readTable (Binary64.generateCo2Table (double_of_Z pb)) = Some table
    /\ (forall (k : nat) (r : TrainingRound),
          table !! k = Some r -> (k <= 5)%nat ->
          prep r = hold r + 75 - Z.of_nat k * 15 /\ hold r <= prep r)
    /\ (forall r : TrainingRound,
          table !! 7%nat = Some r -> (prep r = 30 <-> pb <= 100)).
Proof.
  intros Hpb. exists (generateCo2Table pb).
  split; [exact (proj1 (proj2 (generators_agree pb Hpb)))|].
  exact (co2_rest_floor_integers pb).
Qed.

Lemma co2_rest_floor_witness :
  0 < 90 <= 600
  /\ exists table : list TrainingRound,
       readTable (Binary64.generateCo2Table (double_of_Z 90)) = Some table
       /\ forall r : TrainingRound,
            table !! 7%nat = Some r -> (prep r = 30 <-> 90 <= 100).
Proof.
  split; [lia|].
  destruct (co2_rest_floor 90 ltac:(lia)) as (table & Hread & _ & H7).
  exists table. exact (conj Hread H7).
Defined.

(** ** Further properties of the two-phase engine *)

Lemma settle_step {State : Type} `{EqDecision State}
    (commit : Machine State -> Machine State)
    (callback : State -> Action State) (fuel : nat) (m : Machine State) :
  hooks m <> rendered m ->
  settle commit (S fuel) m = settle commit fuel (step commit callback m).
Proof.
  intros Hne. cbn [settle]. unfold step, settled.
  now rewrite bool_decide_eq_false_2.
Qed.

Lemma settle_done {State : Type} `{EqDecision State}
    (commit : Machine State -> Machine State) (fuel : nat) (s : State)
    (tm : bool) (snd : list Cue) (th : bool) :
  settle commit fuel (mkMachine s s tm snd th) = mkMachine s s tm snd th.
Proof.
  apply settle_settled. unfold settled. now apply bool_decide_eq_true_2.
Qed.

(** The timeout callback on a session state. *)
Lemma elapse_session (ui : TwoPhase.State) (table : list TrainingRound)
    (i : nat) (ph : TwoPhase.Phase) (t : Z) (snd : list Cue) (th : bool) :
  elapse TwoPhase.onTimeout
    (mkMachine (sessionAt ui table true i ph t)
       (sessionAt ui table true i ph t) true snd th)
  = mkMachine (sessionAt ui table true i ph t)
      (sessionAt ui table true i ph (t - 1)) false
      (snd ++ if (1 <? t) && (t <=? 4) then [TickSound] else []) th.
Proof.
  unfold elapse, TwoPhase.onTimeout. cbn [rendered].
  change (TwoPhase.timeRemaining (sessionAt ui table true i ph t)) with t.
  destruct ((1 <? t) && (t <=? 4)); machine_eq.
  now rewrite app_nil_r.
Qed.

Section PositiveSession.
Variable ui : TwoPhase.State.
Variable table : list TrainingRound.
Hypothesis positive : Forall (fun r => 0 < prep r /\ 0 < hold r) table.

Local Abbreviation st := (sessionAt ui table).
Local Abbreviation step2 := (step TwoPhase.commit TwoPhase.onTimeout).
Local Abbreviation settle2 := (settle TwoPhase.commit).

Lemma positive_lookup (i : nat) (r : TrainingRound) :
  table !! i = Some r -> 0 < prep r /\ 0 < hold r.
Proof.
  intros Hr. apply list_elem_of_lookup_2 in Hr.
  rewrite Forall_forall in positive. now apply positive.
Qed.

(** Entering the prep of a round at countdown 0 settles, within four
    renders, in the hold of that round with its hold time. *)
Lemma enter_round_settles (p : TwoPhase.State) (i : nat) (r : TrainingRound)
    (tm : bool) (snd : list Cue) (th : bool) (fuel : nat) :
  TwoPhase.phaseDeps p <> TwoPhase.phaseDeps (st true i TwoPhase.Prep 0) ->
  table !! i = Some r ->
  exists snd' : list Cue,
    settle2 (4 + fuel) (mkMachine p (st true i TwoPhase.Prep 0) tm snd th)
    = mkMachine (st true i TwoPhase.Hold (hold r))
        (st true i TwoPhase.Hold (hold r)) true snd' th.
Proof.
  intros Hdeps Hr. destruct (positive_lookup i r Hr) as [Hp Hh].
  change (4 + fuel)%nat with (S (S (S (S fuel)))).
  rewrite (settle_step _ TwoPhase.onTimeout)
    by (cbn [hooks rendered]; intros <-; now apply Hdeps).
  rewrite (step_fresh ui table p i TwoPhase.Prep 0 tm snd th r)
    by (auto; lia).
  cbn [Z.eqb advanced duration].
  rewrite (settle_step _ TwoPhase.onTimeout)
    by (cbn [hooks rendered]; discriminate).
  rewrite (step_fresh ui table _ i TwoPhase.Hold (prep r) false _ th r)
    by (auto; try lia; cbn; discriminate).
  rewrite (proj2 (Z.eqb_neq (prep r) 0)) by lia. cbn [duration].
  destruct (Z.eq_dec (hold r) (prep r)) as [Heq | Hne].
  - rewrite Heq. rewrite settle_done. eauto.
  - rewrite (settle_step _ TwoPhase.onTimeout)
      by (cbn [hooks rendered]; intros [= H]; now apply Hne).
    rewrite (step_countdown ui table i TwoPhase.Hold (prep r) (hold r))
      by (auto; try lia; eapply lookup_lt_Some; eauto).
    rewrite (proj2 (Z.eqb_neq (hold r) 0)) by lia.
    rewrite settle_done. eauto.
Qed.

(** One tick of a session that is settled in a hold. *)
Lemma tick_session (i : nat) (t : Z) (snd : list Cue) (th : bool) :
  (i < length table)%nat ->
  0 < t ->
  exists snd' : list Cue,
    TwoPhase.tick
      (mkMachine (st true i TwoPhase.Hold t) (st true i TwoPhase.Hold t)
         true snd th)
    = if 1 <? t
      then mkMachine (st true i TwoPhase.Hold (t - 1))
             (st true i TwoPhase.Hold (t - 1)) true snd' th
      else match table !! S i with
           | Some next =>
               mkMachine (st true (S i) TwoPhase.Hold (hold next))
                 (st true (S i) TwoPhase.Hold (hold next)) true snd' th
           | None =>
               mkMachine (st false i TwoPhase.Finished 0)
                 (st false i TwoPhase.Finished 0) false snd' th
           end.
Proof.
  intros Hi Ht. unfold TwoPhase.tick. cbn [timer]. cbv zeta.
  rewrite elapse_session.
  set (snd1 := snd ++ _).
  replace (TwoPhase.renderBudget _) with (S (4 + (4 * length table - 1)))
    by (unfold TwoPhase.renderBudget, TwoPhase.tableLength;
        cbn [hooks sessionAt TwoPhase.tableData]; lia).
  rewrite (settle_step _ TwoPhase.onTimeout)
    by (cbn [hooks rendered]; intros [= H]; lia).
  rewrite (step_countdown ui table i TwoPhase.Hold t (t - 1))
    by (auto; lia).
  destruct (Z.ltb_spec 1 t) as [Hgt | Hle].
  - rewrite (proj2 (Z.eqb_neq (t - 1) 0)) by lia.
    rewrite settle_done. eauto.
  - replace (t - 1) with 0 by lia. cbn [Z.eqb]. unfold advanced.
    destruct (table !! S i) as [next|] eqn:Hnext.
    + pose proof (lookup_lt_Some _ _ _ Hnext) as Hlen.
      rewrite bool_decide_eq_false_2 by lia.
      apply enter_round_settles; [cbn; discriminate | assumption].
    + apply lookup_ge_None_1 in Hnext.
      rewrite bool_decide_eq_true_2 by lia.
      change (4 + (4 * length table - 1))%nat
        with (S (3 + (4 * length table - 1))).
      rewrite (settle_step _ TwoPhase.onTimeout)
        by (cbn [hooks rendered]; discriminate).
      rewrite step_unsettled by (cbn [hooks rendered]; discriminate).
      rewrite two_phase_commit_inactive by reflexivity.
      unfold render. cbn [hooks rendered timer sounds threw].
      rewrite settle_done. eauto.
Qed.

(** Starting from the idle component with the table bound. *)
Lemma start_session (i0 : nat) (ph0 : TwoPhase.Phase) (first : TrainingRound)
    (snd : list Cue) (th : bool) :
  table !! 0%nat = Some first ->
  exists snd' : list Cue,
    TwoPhase.dispatch TwoPhase.startSession
      (mkMachine (st false i0 ph0 0) (st false i0 ph0 0) false snd th)
    = mkMachine (st true 0 TwoPhase.Hold (hold first))
        (st true 0 TwoPhase.Hold (hold first)) true snd' false.
Proof.
  intros Hfirst. unfold TwoPhase.dispatch. cbv zeta.
  change (handle TwoPhase.startSession _) with
    (mkMachine (st false i0 ph0 0) (st true 0 TwoPhase.Prep 0)
       false snd false).
  replace (TwoPhase.renderBudget _) with (4 + 4 * length table)%nat
    by (unfold TwoPhase.renderBudget, TwoPhase.tableLength;
        cbn [hooks sessionAt TwoPhase.tableData]; lia).
  apply enter_round_settles; [cbn; discriminate | assumption].
Qed.
End PositiveSession.

(** A machine with a bound table, written over [sessionAt]. *)
Lemma machine_shape (m : Machine TwoPhase.State)
    (table : list TrainingRound) :
  rendered m = hooks m ->
  TwoPhase.tableData (hooks m) = Some table ->
  m = mkMachine
        (sessionAt (hooks m) table (TwoPhase.isSessionActive (hooks m))
           (TwoPhase.currentRoundIndex (hooks m))
           (TwoPhase.currentPhase (hooks m))
           (TwoPhase.timeRemaining (hooks m)))
        (sessionAt (hooks m) table (TwoPhase.isSessionActive (hooks m))
           (TwoPhase.currentRoundIndex (hooks m))
           (TwoPhase.currentPhase (hooks m))
           (TwoPhase.timeRemaining (hooks m)))
        (timer m) (sounds m) (threw m).
Proof.
  destruct m as [p h tm snd th]. cbn [rendered hooks timer sounds threw].
  intros -> Htab. destruct h. cbn in Htab. subst. reflexivity.
Qed.

Lemma tick_counting (table : list TrainingRound) (i : nat) (t : Z)
    (m : Machine TwoPhase.State) :
  Forall (fun r => 0 < prep r /\ 0 < hold r) table ->
  Counting table i t m ->
  (i < length table)%nat ->
  0 < t ->
  if 1 <? t then Counting table i (t - 1) (TwoPhase.tick m)
  else match table !! S i with
       | Some next => Counting table (S i) (hold next) (TwoPhase.tick m)
       | None =>
           Resting TwoPhase.Finished (TwoPhase.tick m)
           /\ TwoPhase.tableData (hooks (TwoPhase.tick m)) = Some table
           /\ TwoPhase.currentRoundIndex (hooks (TwoPhase.tick m)) = i
       end.
Proof.
  intros Hpos (Hr & Htm & Htab & Hact & Hidx & Hph & Htr) Hi Ht.
  rewrite (machine_shape m table Hr Htab).
  rewrite Hact, Hidx, Hph, Htr, Htm.
  destruct (tick_session (hooks m) table Hpos i t (sounds m) (threw m) Hi Ht)
    as [snd' ->].
  destruct (1 <? t); [repeat split|].
  destruct (table !! S i); repeat split.
Qed.

Lemma start_counting (table : list TrainingRound) (ph : TwoPhase.Phase)
    (first : TrainingRound) (m : Machine TwoPhase.State) :
  Forall (fun r => 0 < prep r /\ 0 < hold r) table ->
  Resting ph m ->
  TwoPhase.tableData (hooks m) = Some table ->
  table !! 0%nat = Some first ->
  Counting table 0 (hold first) (TwoPhase.dispatch TwoPhase.startSession m).
Proof.
  intros Hpos (Hr & Htm & Hact & Hph & Htr) Htab Hfirst.
  rewrite (machine_shape m table Hr Htab).
  rewrite Hact, Hph, Htr, Htm.
  destruct (start_session (hooks m) table Hpos
              (TwoPhase.currentRoundIndex (hooks m)) ph first (sounds m)
              (threw m) Hfirst) as [snd' ->].
  repeat split.
Qed.

Lemma holdSum_cons (table : list TrainingRound) (i : nat) (r : TrainingRound) :
  table !! i = Some r -> holdSum table i = hold r + holdSum table (S i).
Proof.
  intros Hr. unfold holdSum. now rewrite (drop_S _ _ _ Hr).
Qed.

Lemma holdSum_end (table : list TrainingRound) (i : nat) :
  table !! i = None -> holdSum table i = 0.
Proof.
  intros Hr. unfold holdSum. apply lookup_ge_None_1 in Hr.
  now rewrite drop_ge.
Qed.

Lemma holdSum_nonneg (table : list TrainingRound) :
  Forall (fun r => 0 < prep r /\ 0 < hold r) table ->
  forall i : nat, 0 <= holdSum table i.
Proof.
  intros Hpos i. unfold holdSum.
  assert (Hdrop : Forall (fun r => 0 < prep r /\ 0 < hold r) (drop i table))
    by now apply Forall_drop.
  induction Hdrop as [|r l [_ Hr] _ IH]; cbn; lia.
Qed.

(** From a hold with [t] seconds left the session stays active, in a hold,
    for exactly [t] plus the later hold times ticks, and is then finished. *)
Lemma counting_runs_out (table : list TrainingRound) :
  Forall (fun r => 0 < prep r /\ 0 < hold r) table ->
  forall (n : nat) (i : nat) (t : Z) (m : Machine TwoPhase.State),
    Counting table i t m ->
    (i < length table)%nat ->
    0 < t ->
    Z.of_nat n = t + holdSum table (S i) ->
    (forall k : nat, (k < n)%nat ->
       TwoPhase.isSessionActive (hooks (TwoPhase.ticks k m)) = true
       /\ TwoPhase.currentPhase (hooks (TwoPhase.ticks k m)) = TwoPhase.Hold)
    /\ Resting TwoPhase.Finished (TwoPhase.ticks n m)
    /\ S (TwoPhase.currentRoundIndex (hooks (TwoPhase.ticks n m)))
       = length table.
Proof.
  intros Hpos. induction n as [|n IH]; intros i t m Hc Hi Ht Hn.
  { pose proof (holdSum_nonneg table Hpos (S i)). lia. }
  pose proof (tick_counting table i t m Hpos Hc Hi Ht) as Htick.
  assert (Hhere : TwoPhase.isSessionActive (hooks m) = true
                  /\ TwoPhase.currentPhase (hooks m) = TwoPhase.Hold)
    by (destruct Hc as (_ & _ & _ & Ha & _ & Hp & _); auto).
  destruct (Z.ltb_spec 1 t) as [Hgt | Hle].
  - destruct (IH i (t - 1) (TwoPhase.tick m) Htick Hi ltac:(lia) ltac:(lia))
      as (Hbefore & Hend).
    split; [|exact Hend].
    intros [|k] Hk; [exact Hhere | apply Hbefore; lia].
  - destruct (table !! S i) as [next|] eqn:Hnext.
    + pose proof (holdSum_cons table (S i) next Hnext) as Hsum.
      rewrite Forall_forall in Hpos.
      pose proof (Hpos next (list_elem_of_lookup_2 _ _ _ Hnext)) as [_ Hh].
      rewrite <- Forall_forall in Hpos.
      destruct (IH (S i) (hold next) (TwoPhase.tick m) Htick
                  (lookup_lt_Some _ _ _ Hnext) Hh ltac:(lia))
        as (Hbefore & Hend).
      split; [|exact Hend].
      intros [|k] Hk; [exact Hhere | apply Hbefore; lia].
    + pose proof (holdSum_end table (S i) Hnext) as Hsum.
      assert (n = 0%nat) by lia. subst n.
      destruct Htick as (Hrest & _ & Hidx).
      split; [|split].
      * intros [|k] Hk; [exact Hhere | lia].
      * exact Hrest.
      * cbn [TwoPhase.ticks]. rewrite Hidx.
        apply lookup_ge_None_1 in Hnext. lia.
Qed.

(** A two-phase session lasts as many ticks as its hold times add up to: on
    a table with positive durations, started from the idle component, the
    session is active and in a hold before each of these ticks, and
    finished, inactive and idle in the last round after the last of them.
    The prep times do not enter the count. *)
Theorem two_phase_session_length
    (table : list TrainingRound) (ph : TwoPhase.Phase)
    (m : Machine TwoPhase.State) :
  table <> [] ->
  Forall (fun r => 0 < prep r /\ 0 < hold r) table ->
  Resting ph m ->
  TwoPhase.tableData (hooks m) = Some table ->
  let started := TwoPhase.dispatch TwoPhase.startSession m in
  let total := Z.to_nat (holdSum table 0) in
  (forall k : nat, (k < total)%nat ->
     TwoPhase.isSessionActive (hooks (TwoPhase.ticks k started)) = true
     /\ TwoPhase.currentPhase (hooks (TwoPhase.ticks k started))
        = TwoPhase.Hold)
  /\ Resting TwoPhase.Finished (TwoPhase.ticks total started)
  /\ S (TwoPhase.currentRoundIndex (hooks (TwoPhase.ticks total started)))
     = length table.
Proof.
  intros Hne Hpos Hrest Htab started total.
  assert (Hfirst : exists first, table !! 0%nat = Some first)
    by (destruct table; [congruence | eauto]).
  destruct Hfirst as [first Hfirst].
  pose proof (start_counting table ph first m Hpos Hrest Htab Hfirst) as Hc.
  fold started in Hc.
  rewrite Forall_forall in Hpos.
  pose proof (Hpos first (list_elem_of_lookup_2 _ _ _ Hfirst)) as [_ Hh].
  rewrite <- Forall_forall in Hpos.
  pose proof (holdSum_nonneg table Hpos 1) as Hnn.
  pose proof (holdSum_cons table 0 first Hfirst) as Hsum.
  apply (counting_runs_out table Hpos total 0%nat (hold first) started);
    auto.
  - eapply lookup_lt_Some; eauto.
  - subst total. lia.
Qed.

Lemma two_phase_session_length_witness :
  holdSum (generateCo2Table 90) 0 = 432
  /\ Resting TwoPhase.Finished (TwoPhase.ticks 432 twoPhaseStarted).
Proof.
  split; [reflexivity|].
  assert (Hpos : Forall (fun r => 0 < prep r /\ 0 < hold r)
                   (generateCo2Table 90))
    by (repeat constructor; vm_compute; reflexivity).
  assert (Hne : generateCo2Table 90 <> []) by (vm_compute; discriminate).
  assert (Hrest : Resting TwoPhase.Ready twoPhaseBound) by (repeat split).
  pose proof (two_phase_session_length (generateCo2Table 90) TwoPhase.Ready
                twoPhaseBound Hne Hpos Hrest eq_refl) as (_ & H & _).
  exact H.
Defined.

(** *** The whole run of a two-phase session *)

(** The holds from a later round on add up to at most the holds from an
    earlier round on. *)
Lemma holdSum_later (table : list TrainingRound) :
  Forall (fun r => 0 < prep r /\ 0 < hold r) table ->
  forall (d i : nat) (r : TrainingRound),
    table !! (i + d)%nat = Some r ->
    hold r + holdSum table (S (i + d)) <= holdSum table i.
Proof.
  intros Hpos. induction d as [|d IH]; intros i r Hr.
  - rewrite Nat.add_0_r in *. rewrite (holdSum_cons table i r Hr). lia.
  - replace (i + S d)%nat with (S i + d)%nat in * by lia.
    pose proof (IH (S i) r Hr) as Hle.
    destruct (lookup_lt_is_Some_2 table i) as [x Hx].
    { apply lookup_lt_Some in Hr. lia. }
    rewrite (holdSum_cons table i x Hx).
    rewrite Forall_forall in Hpos.
    pose proof (Hpos x (list_elem_of_lookup_2 _ _ _ Hx)) as [_ Hh]. lia.
Qed.

(** From a hold with [t] seconds left, the hold of round [j] shows [t']
    seconds after exactly as many ticks as lie between the two. *)
Lemma counting_position (table : list TrainingRound) :
  Forall (fun r => 0 < prep r /\ 0 < hold r) table ->
  forall (n : nat) (i : nat) (t : Z) (m : Machine TwoPhase.State)
         (j : nat) (r : TrainingRound) (t' : Z),
    Counting table i t m ->
    (i < length table)%nat ->
    0 < t ->
    table !! j = Some r ->
    0 < t' <= hold r ->
    (i <= j)%nat ->
    Z.of_nat n = t + holdSum table (S i) - (t' + holdSum table (S j)) ->
    Counting table j t' (TwoPhase.ticks n m).
Proof.
  intros Hpos. induction n as [|n IH];
    intros i t m j r t' Hc Hi Ht Hr Ht' Hij Hn.
  - cbn [TwoPhase.ticks].
    destruct (decide (i = j)) as [<- | Hne].
    + replace t' with t by lia. exact Hc.
    + pose proof (holdSum_later table Hpos (j - S i) (S i) r) as Hle.
      replace (S i + (j - S i))%nat with j in Hle by lia.
      specialize (Hle Hr). lia.
  - cbn [TwoPhase.ticks].
    pose proof (tick_counting table i t m Hpos Hc Hi Ht) as Htick.
    destruct (Z.ltb_spec 1 t) as [Hgt | Hle].
    + apply (IH i (t - 1) (TwoPhase.tick m) j r t'); auto; lia.
    + assert (Hlt : (i < j)%nat).
      { destruct (decide (i = j)) as [<- | Hne]; [lia | lia]. }
      destruct (table !! S i) as [next|] eqn:Hnext.
      * pose proof (holdSum_cons table (S i) next Hnext) as Hsum.
        rewrite Forall_forall in Hpos.
        pose proof (Hpos next (list_elem_of_lookup_2 _ _ _ Hnext))
          as [_ Hh].
        rewrite <- Forall_forall in Hpos.
        apply (IH (S i) (hold next) (TwoPhase.tick m) j r t'); auto;
          try lia.
        eapply lookup_lt_Some; eauto.
      * apply lookup_ge_None_1 in Hnext.
        apply lookup_lt_Some in Hr. lia.
Qed.

(** A machine on which no timeout is pending ignores ticks. *)
Lemma ticks_idle (m : Machine TwoPhase.State) (k : nat) :
  timer m = false -> TwoPhase.ticks k m = m.
Proof.
  intros Htm. induction k as [|k IH]; cbn [TwoPhase.ticks]; [reflexivity|].
  unfold TwoPhase.tick. now rewrite Htm.
Qed.

Lemma ticks_add (a b : nat) (m : Machine TwoPhase.State) :
  TwoPhase.ticks (a + b) m = TwoPhase.ticks b (TwoPhase.ticks a m).
Proof.
  revert m. induction a as [|a IH]; intros m; cbn [Nat.add TwoPhase.ticks];
    [reflexivity | apply IH].
Qed.

(** C6.  On every eight-round table with durations that are not negative,
    the two-phase session started from the bound, idle component runs, by
    timeouts and renders, to the phase finished with the session inactive,
    in the last round, where no timeout is pending and no further step
    changes the machine.  When the durations are positive the run is, tick
    by tick: the hold of every round, from round 1 to round 8 in order, is
    counted down second by second from its hold time (the hold of round
    [i + 1] shows [t] seconds after as many ticks as the holds of the
    earlier rounds add up to, plus those already counted in this hold),
    with the timeout pending; the tick that brings the hold of round 8 to 0
    is the tick at which all hold times are used up, and it leaves the
    phase finished, the session inactive, the countdown at 0 and no timeout
    pending; every further tick leaves the machine as it is.  No tick is
    spent in a prep phase. *)
Theorem two_phase_session_finishes
    (table : list TrainingRound) (ph : TwoPhase.Phase)
    (m : Machine TwoPhase.State) :
  length table = 8%nat ->
  Forall (fun r => 0 <= prep r /\ 0 <= hold r) table ->
  Resting ph m ->
  TwoPhase.tableData (hooks m) = Some table ->
  (exists n : nat,
     let m' := run TwoPhase.commit TwoPhase.onTimeout n
                 (handle TwoPhase.startSession m) in
     TwoPhase.currentPhase (hooks m') = TwoPhase.Finished
     /\ TwoPhase.isSessionActive (hooks m') = false
     /\ TwoPhase.currentRoundIndex (hooks m') = 7%nat
     /\ timer m' = false
     /\ settled m' = true
     /\ forall k : nat, run TwoPhase.commit TwoPhase.onTimeout k m' = m')
  /\ (Forall (fun r => 0 < prep r /\ 0 < hold r) table ->
      let started := TwoPhase.dispatch TwoPhase.startSession m in
      let total := Z.to_nat (holdSum table 0) in
      (forall (i : nat) (r : TrainingRound) (t : Z),
         table !! i = Some r -> 0 < t <= hold r ->
         let k := Z.to_nat (holdSum table 0 - holdSum table (S i) - t) in
         view2 (TwoPhase.ticks k started) = (true, TwoPhase.Hold, i, t)
         /\ timer (TwoPhase.ticks k started) = true
         /\ settled (TwoPhase.ticks k started) = true
         /\ (k < total)%nat)
      /\ view2 (TwoPhase.ticks total started)
         = (false, TwoPhase.Finished, 7%nat, 0)
      /\ timer (TwoPhase.ticks total started) = false
      /\ settled (TwoPhase.ticks total started) = true
      /\ forall n : nat, (total <= n)%nat ->
           TwoPhase.ticks n started = TwoPhase.ticks total started).
Proof.
  intros Hlen Hdur Hrest Htab. split.
  - destruct Hrest as (Hr & Htm & Hact & Hph & Htr).
    apply (two_phase_session_reaches_finished table m); auto.
    unfold settled. now apply bool_decide_eq_true_2.
  - intros Hpos started total.
    destruct (lookup_lt_is_Some_2 table 0 ltac:(lia)) as [first Hfirst].
    pose proof (start_counting table ph first m Hpos Hrest Htab Hfirst) as Hc.
    fold started in Hc.
    rewrite Forall_forall in Hpos.
    pose proof (Hpos first (list_elem_of_lookup_2 _ _ _ Hfirst)) as [_ Hh].
    rewrite <- Forall_forall in Hpos.
    pose proof (holdSum_cons table 0 first Hfirst) as Hsum.
    pose proof (holdSum_nonneg table Hpos) as Hnn.
    assert (Hend : Resting TwoPhase.Finished (TwoPhase.ticks total started)
                   /\ S (TwoPhase.currentRoundIndex
                           (hooks (TwoPhase.ticks total started)))
                      = length table).
    { apply (counting_runs_out table Hpos total 0%nat (hold first) started);
        auto; [lia | subst total; pose proof (Hnn 1%nat); lia]. }
    destruct Hend as [(Hr' & Htm' & Hact' & Hph' & Htr') Hidx'].
    split; [|split; [|split; [|split]]].
    + intros i r t Hi Ht k.
      pose proof (holdSum_later table Hpos i 0%nat r Hi) as Hle.
      cbn [Nat.add] in Hle. pose proof (Hnn (S i)) as Hnni.
      assert (Hcount : Counting table i t (TwoPhase.ticks k started)).
      { apply (counting_position table Hpos k 0%nat (hold first) started
                 i r t); auto; try lia.
        all: subst k; lia. }
      destruct Hcount as (Hr1 & Htm1 & Htab1 & Hact1 & Hidx1 & Hph1 & Htr1).
      unfold view2, settled. rewrite Hact1, Hph1, Hidx1, Htr1.
      split; [reflexivity|]. split; [exact Htm1|].
      split; [now apply bool_decide_eq_true_2|]. subst k total. lia.
    + unfold view2. rewrite Hact', Hph', Htr'. repeat f_equal. lia.
    + exact Htm'.
    + unfold settled. now apply bool_decide_eq_true_2.
    + intros n Hn. replace n with (total + (n - total))%nat by lia.
      rewrite ticks_add. now apply ticks_idle.
Qed.

Lemma two_phase_session_finishes_witness :
  view2 (TwoPhase.ticks 54 twoPhaseStarted) = (true, TwoPhase.Hold, 1%nat, 54)
  /\ view2 (TwoPhase.ticks 432 twoPhaseStarted)
     = (false, TwoPhase.Finished, 7%nat, 0)
  /\ TwoPhase.ticks 1000 twoPhaseStarted = TwoPhase.ticks 432 twoPhaseStarted.
Proof.
  assert (Hdur : Forall (fun r => 0 <= prep r /\ 0 <= hold r)
                   (generateCo2Table 90))
    by (repeat constructor; vm_compute; discriminate).
  assert (Hpos : Forall (fun r => 0 < prep r /\ 0 < hold r)
                   (generateCo2Table 90))
    by (repeat constructor; vm_compute; reflexivity).
  assert (Hrest : Resting TwoPhase.Ready twoPhaseBound) by (repeat split).
  destruct (two_phase_session_finishes (generateCo2Table 90) TwoPhase.Ready
              twoPhaseBound eq_refl Hdur Hrest eq_refl) as [_ Hrun].
  destruct (Hrun Hpos) as (Hhold & Hend & _ & _ & Hidle).
  split; [|split].
  - exact (proj1 (Hhold 1%nat (mkRound 2 114 54 None) 54 eq_refl
                    ltac:(cbn; lia))).
  - exact Hend.
  - exact (Hidle 1000%nat ltac:(vm_compute; lia)).
Defined.

(** *** The reachable states of the two-phase component *)

Lemma generated_positive (table : list TrainingRound) :
  Generated table ->
  Forall (fun r => 0 < prep r /\ 0 < hold r) table /\ length table = 8%nat.
Proof.
  intros (variant & pb & ->). split.
  - apply Forall_lookup. intros k r Hr. destruct variant; cbn in Hr.
    + apply co2_hold_value in Hr as [Hh Hp]. lia.
    + apply o2_hold_value in Hr as [Hh Hp]. lia.
  - destruct variant; [apply length_generateCo2Table
                      | apply length_generateO2Table].
Qed.

Lemma two_phase_commit_ui_only (m : Machine TwoPhase.State) :
  core (rendered m) = core (hooks m) ->
  TwoPhase.commit m = render m.
Proof.
  intros Hcore. unfold core in Hcore.
  pose proof (f_equal fst Hcore) as Hdeps.
  pose proof (f_equal snd Hcore) as Htr. cbn [fst snd] in Hdeps, Htr.
  unfold TwoPhase.commit.
  rewrite (bool_decide_eq_true_2 _ Hdeps).
  rewrite bool_decide_eq_true_2; [reflexivity|].
  unfold TwoPhase.countdownDeps, TwoPhase.phaseDeps in *. congruence.
Qed.

(** A handler that leaves the session inactive and the timer cleared. *)
Lemma dispatch_inactive (handler : TwoPhase.State -> Action TwoPhase.State)
    (m : Machine TwoPhase.State) :
  TwoPhase.isSessionActive (hooks (handle handler m)) = false ->
  timer (handle handler m) = false ->
  let m' := TwoPhase.dispatch handler m in
  hooks m' = hooks (handle handler m)
  /\ rendered m' = hooks m'
  /\ timer m' = false.
Proof.
  intros Hact Htm. cbv zeta. unfold TwoPhase.dispatch. cbv zeta.
  unfold TwoPhase.renderBudget.
  replace (4 * TwoPhase.tableLength (handle handler m) + 4)%nat
    with (S (4 * TwoPhase.tableLength (handle handler m) + 3)) by lia.
  destruct (two_phase_settle_inactive
              (4 * TwoPhase.tableLength (handle handler m) + 3)
              (handle handler m) Hact Htm) as (Hh & Ht & _ & _ & Hs).
  apply bool_decide_eq_true in Hs.
  split; [exact Hh | split; [now symmetry | exact Ht]].
Qed.

(** A handler that changes nothing the effects depend on. *)
Lemma dispatch_ui_only (handler : TwoPhase.State -> Action TwoPhase.State)
    (m : Machine TwoPhase.State) :
  rendered m = hooks m ->
  rendered (handle handler m) = rendered m ->
  core (hooks (handle handler m)) = core (hooks m) ->
  timer (handle handler m) = timer m ->
  let m' := TwoPhase.dispatch handler m in
  hooks m' = hooks (handle handler m)
  /\ rendered m' = hooks m'
  /\ timer m' = timer m.
Proof.
  intros Hr Hr' Hcore Htm. cbv zeta. unfold TwoPhase.dispatch. cbv zeta.
  unfold TwoPhase.renderBudget.
  replace (4 * TwoPhase.tableLength (handle handler m) + 4)%nat
    with (S (4 * TwoPhase.tableLength (handle handler m) + 3)) by lia.
  cbn [settle]. destruct (settled (handle handler m)) eqn:Hs.
  - apply bool_decide_eq_true in Hs. auto.
  - rewrite two_phase_commit_ui_only by (rewrite Hr', Hr; now symmetry).
    rewrite settle_settled by apply settled_render.
    cbn [render hooks rendered timer]. auto.
Qed.

(** The invariant only reads what the effects depend on. *)
Lemma invariant_core (m m' : Machine TwoPhase.State) :
  rendered m' = hooks m' ->
  timer m' = timer m ->
  core (hooks m') = core (hooks m) ->
  SessionInvariant m -> SessionInvariant m'.
Proof.
  intros Hr Htm Hcore Hinv. unfold core, TwoPhase.phaseDeps in Hcore.
  injection Hcore as Hact Hph Hidx Htab Htr.
  unfold SessionInvariant, CountingIn, Resting, Done, Stuck in *.
  rewrite Hr, Htm, Hact, Hph, Hidx, Htab, Htr.
  destruct Hinv as [(ph & table & i & t & r & Hg & Hp & Hc & Hl & Ht)
                   | [(Hrest & Hi & Hg) | [Hdone | Hstuck]]].
  - left. exists ph, table, i, t, r. intuition.
  - right; left. intuition.
  - right; right; left. intuition.
  - right; right; right. intuition.
Qed.

(** *** Sessions that were started more than once *)

Section RestartedSession.
Variable ui : TwoPhase.State.
Variable table : list TrainingRound.
Hypothesis positive : Forall (fun r => 0 < prep r /\ 0 < hold r) table.

Local Abbreviation st := (sessionAt ui table).
Local Abbreviation settle2 := (settle TwoPhase.commit).

(** Entering the prep of a round with a countdown above 0 settles, within
    two renders, in that prep with its prep time and the timeout pending. *)
Lemma enter_prep_counting (p : TwoPhase.State) (i : nat) (r : TrainingRound)
    (t : Z) (tm : bool) (snd : list Cue) (th : bool) (fuel : nat) :
  TwoPhase.phaseDeps p <> TwoPhase.phaseDeps (st true i TwoPhase.Prep t) ->
  0 < t ->
  table !! i = Some r ->
  exists snd' : list Cue,
    settle2 (2 + fuel) (mkMachine p (st true i TwoPhase.Prep t) tm snd th)
    = mkMachine (st true i TwoPhase.Prep (prep r))
        (st true i TwoPhase.Prep (prep r)) true snd' th.
Proof.
  intros Hdeps Ht Hr. destruct (positive_lookup table positive i r Hr) as [Hp Hh].
  change (2 + fuel)%nat with (S (S fuel)).
  rewrite (settle_step _ TwoPhase.onTimeout)
    by (cbn [hooks rendered]; intros <-; now apply Hdeps).
  rewrite (step_fresh ui table p i TwoPhase.Prep t tm snd th r)
    by (auto; lia).
  rewrite (proj2 (Z.eqb_neq t 0)) by lia. cbn [duration].
  destruct (Z.eq_dec (prep r) t) as [Heq | Hne].
  - rewrite Heq. rewrite settle_done. eauto.
  - rewrite (settle_step _ TwoPhase.onTimeout)
      by (cbn [hooks rendered]; intros [= H]; now apply Hne).
    rewrite (step_countdown ui table i TwoPhase.Prep t (prep r))
      by (auto; try lia; eapply lookup_lt_Some; eauto).
    rewrite (proj2 (Z.eqb_neq (prep r) 0)) by lia.
    rewrite settle_done. eauto.
Qed.

(** One tick of a session that is settled in a prep. *)
Lemma tick_prep_session (i : nat) (r : TrainingRound) (t : Z)
    (snd : list Cue) (th : bool) :
  table !! i = Some r ->
  0 < t ->
  exists snd' : list Cue,
    TwoPhase.tick
      (mkMachine (st true i TwoPhase.Prep t) (st true i TwoPhase.Prep t)
         true snd th)
    = if 1 <? t
      then mkMachine (st true i TwoPhase.Prep (t - 1))
             (st true i TwoPhase.Prep (t - 1)) true snd' th
      else match table !! S i with
           | Some next =>
               mkMachine (st true (S i) TwoPhase.Prep (prep next))
                 (st true (S i) TwoPhase.Prep (prep next)) true snd' th
           | None =>
               mkMachine (st false i TwoPhase.Finished (hold r))
                 (st false i TwoPhase.Finished (hold r)) false snd' th
           end.
Proof.
  intros Hr Ht. pose proof (lookup_lt_Some _ _ _ Hr) as Hi.
  destruct (positive_lookup table positive i r Hr) as [Hp Hh].
  unfold TwoPhase.tick. cbn [timer]. cbv zeta.
  rewrite elapse_session.
  set (snd1 := snd ++ _).
  replace (TwoPhase.renderBudget _) with (S (S (2 + (4 * length table))))
    by (unfold TwoPhase.renderBudget, TwoPhase.tableLength;
        cbn [hooks sessionAt TwoPhase.tableData]; lia).
  rewrite (settle_step _ TwoPhase.onTimeout)
    by (cbn [hooks rendered]; intros [= H]; lia).
  rewrite (step_countdown ui table i TwoPhase.Prep t (t - 1))
    by (auto; lia).
  destruct (Z.ltb_spec 1 t) as [Hgt | Hle].
  - rewrite (proj2 (Z.eqb_neq (t - 1) 0)) by lia.
    rewrite settle_done. eauto.
  - replace (t - 1) with 0 by lia. cbn [Z.eqb]. unfold advanced.
    rewrite (settle_step _ TwoPhase.onTimeout)
      by (cbn [hooks rendered]; discriminate).
    rewrite (step_fresh ui table _ i TwoPhase.Hold 0 false _ th r)
      by (auto; try lia; cbn; discriminate).
    cbn [Z.eqb duration]. unfold advanced.
    destruct (table !! S i) as [next|] eqn:Hnext.
    + pose proof (lookup_lt_Some _ _ _ Hnext) as Hlen.
      rewrite bool_decide_eq_false_2 by lia.
      apply enter_prep_counting; [cbn; discriminate | lia | assumption].
    + apply lookup_ge_None_1 in Hnext.
      rewrite bool_decide_eq_true_2 by lia.
      change (2 + 4 * length table)%nat
        with (S (1 + 4 * length table)).
      rewrite (settle_step _ TwoPhase.onTimeout)
        by (cbn [hooks rendered]; discriminate).
      rewrite step_unsettled by (cbn [hooks rendered]; discriminate).
      rewrite two_phase_commit_inactive by reflexivity.
      unfold render. cbn [hooks rendered timer sounds threw].
      rewrite settle_done. eauto.
Qed.

(** The rest of [startSession] on a settled session state. *)
Lemma resumed_handle (a : bool) (i : nat) (ph : TwoPhase.Phase) (t : Z)
    (tm : bool) (snd : list Cue) (th : bool) :
  handle (fun _ => TwoPhase.startSessionResumed)
    (mkMachine (st a i ph t) (st a i ph t) tm snd th)
  = mkMachine (st a i ph t) (st true 0 TwoPhase.Prep t) tm snd false.
Proof. reflexivity. Qed.

(** A start that resumes while the component is idle on a bound table
    starts the session: in the hold of round 1 when the countdown shows 0,
    in the prep of round 1 when it still shows the rest of a hold. *)
Lemma resume_idle (i0 : nat) (ph0 : TwoPhase.Phase) (t : Z)
    (first : TrainingRound) (snd : list Cue) (th : bool) :
  table !! 0%nat = Some first ->
  0 <= t ->
  exists snd' : list Cue,
    TwoPhase.dispatch (fun _ => TwoPhase.startSessionResumed)
      (mkMachine (st false i0 ph0 t) (st false i0 ph0 t) false snd th)
    = if t =? 0
      then mkMachine (st true 0 TwoPhase.Hold (hold first))
             (st true 0 TwoPhase.Hold (hold first)) true snd' false
      else mkMachine (st true 0 TwoPhase.Prep (prep first))
             (st true 0 TwoPhase.Prep (prep first)) true snd' false.
Proof.
  intros Hfirst Ht. unfold TwoPhase.dispatch. cbv zeta.
  rewrite resumed_handle.
  replace (TwoPhase.renderBudget _) with (4 + 4 * length table)%nat
    by (unfold TwoPhase.renderBudget, TwoPhase.tableLength;
        cbn [hooks sessionAt TwoPhase.tableData]; lia).
  destruct (Z.eqb_spec t 0) as [-> | Hne].
  - apply enter_round_settles; [assumption | cbn; discriminate | assumption].
  - change (4 + 4 * length table)%nat with (2 + (2 + 4 * length table))%nat.
    apply enter_prep_counting; [cbn; discriminate | lia | assumption].
Qed.

(** A start that resumes while a session is counting restarts it in the
    prep of round 1, unless it is there already. *)
Lemma resume_counting (i : nat) (ph : TwoPhase.Phase) (t : Z)
    (first : TrainingRound) (snd : list Cue) (th : bool) :
  table !! 0%nat = Some first ->
  0 < t ->
  exists (snd' : list Cue) (t' : Z),
    TwoPhase.dispatch (fun _ => TwoPhase.startSessionResumed)
      (mkMachine (st true i ph t) (st true i ph t) true snd th)
    = mkMachine (st true 0 TwoPhase.Prep t') (st true 0 TwoPhase.Prep t')
        true snd' false
    /\ (t' = prep first \/ (t' = t /\ i = 0%nat /\ ph = TwoPhase.Prep)).
Proof.
  intros Hfirst Ht. unfold TwoPhase.dispatch. cbv zeta.
  rewrite resumed_handle.
  replace (TwoPhase.renderBudget _) with (2 + (2 + 4 * length table))%nat
    by (unfold TwoPhase.renderBudget, TwoPhase.tableLength;
        cbn [hooks sessionAt TwoPhase.tableData]; lia).
  destruct (decide (TwoPhase.phaseDeps (st true i ph t)
                    = TwoPhase.phaseDeps (st true 0 TwoPhase.Prep t)))
    as [Heq | Hne].
  - cbv [TwoPhase.phaseDeps sessionAt TwoPhase.isSessionActive
         TwoPhase.currentPhase TwoPhase.currentRoundIndex
         TwoPhase.tableData] in Heq.
    injection Heq as -> ->.
    rewrite settle_done. exists snd, t. split; [reflexivity | auto].
  - destruct (enter_prep_counting (st true i ph t) 0 first t true snd false
                (2 + 4 * length table) Hne Ht Hfirst) as [snd' Hs].
    exists snd', (prep first). split; [exact Hs | auto].
Qed.
End RestartedSession.

(** A commit of an active session without table: the phase effect returns
    early, the countdown effect plays the end cue and calls
    [advancePhase], which returns at once. *)
Lemma two_phase_commit_no_table (p : TwoPhase.State) (ty : TableType)
    (i : nat) (ph : TwoPhase.Phase) (ssm sa : bool) (am : string)
    (tm : bool) (snd : list Cue) (th : bool) :
  let h := TwoPhase.mkState ty None true i ph 0 ssm sa am in
  TwoPhase.phaseDeps p <> TwoPhase.phaseDeps h ->
  TwoPhase.commit (mkMachine p h tm snd th)
  = mkMachine h h false (snd ++ [EndSound]) th.
Proof.
  intros h Hdeps.
  rewrite two_phase_commit_phase_changed by exact Hdeps.
  reflexivity.
Qed.

(** A start that resumes with no table bound leaves the session active and
    idle; resuming once more changes nothing. *)
Lemma resume_no_table (ty : TableType) (ssm sa : bool) (am : string)
    (snd : list Cue) (th : bool) :
  let idle := TwoPhase.mkState ty None false 0 TwoPhase.Ready 0 ssm sa am in
  let stuck := TwoPhase.mkState ty None true 0 TwoPhase.Prep 0 ssm sa am in
  TwoPhase.dispatch (fun _ => TwoPhase.startSessionResumed)
    (mkMachine idle idle false snd th)
  = mkMachine stuck stuck false (snd ++ [EndSound]) false
  /\ TwoPhase.dispatch (fun _ => TwoPhase.startSessionResumed)
       (mkMachine stuck stuck false snd th)
     = mkMachine stuck stuck false snd false.
Proof.
  cbv zeta. unfold TwoPhase.dispatch. cbv zeta. split.
  - change (handle _ _) with
      (mkMachine (TwoPhase.mkState ty None false 0 TwoPhase.Ready 0 ssm sa am)
         (TwoPhase.mkState ty None true 0 TwoPhase.Prep 0 ssm sa am)
         false snd false).
    change (TwoPhase.renderBudget _) with 4%nat.
    rewrite (settle_step _ TwoPhase.onTimeout)
      by (cbn [hooks rendered]; discriminate).
    rewrite step_unsettled by (cbn [hooks rendered]; discriminate).
    rewrite two_phase_commit_no_table by (cbn; discriminate).
    apply settle_done.
  - change (handle _ _) with
      (mkMachine (TwoPhase.mkState ty None true 0 TwoPhase.Prep 0 ssm sa am)
         (TwoPhase.mkState ty None true 0 TwoPhase.Prep 0 ssm sa am)
         false snd false).
    apply settle_done.
Qed.

Lemma invariant_after_reset
    (handler : TwoPhase.State -> Action TwoPhase.State)
    (m : Machine TwoPhase.State) :
  TwoPhase.isSessionActive (hooks (handle handler m)) = false ->
  timer (handle handler m) = false ->
  TwoPhase.currentPhase (hooks (handle handler m)) = TwoPhase.Ready ->
  TwoPhase.timeRemaining (hooks (handle handler m)) = 0 ->
  TwoPhase.currentRoundIndex (hooks (handle handler m)) = 0%nat ->
  match TwoPhase.tableData (hooks (handle handler m)) with
  | Some table => Generated table
  | None => True
  end ->
  SessionInvariant (TwoPhase.dispatch handler m).
Proof.
  intros Hact Htm Hph Htr Hidx Htab.
  destruct (dispatch_inactive handler m Hact Htm) as (Hh & Hr & Ht).
  right; left. unfold Resting. rewrite Hr, Ht, Hh. auto 10.
Qed.

Lemma handleSubmit_eq (pb : Z) :
  TwoPhaseUI.handleSubmit pb
  = if TwoPhaseUI.FormSchema pb then TwoPhase.onSubmit pb
    else fun _ => skip.
Proof.
  unfold TwoPhaseUI.handleSubmit. now destruct (TwoPhaseUI.FormSchema pb).
Qed.

(** [onSubmit] either only opens the alert, or binds a generated table and
    resets the session. *)
Lemma onSubmit_cases (m : Machine TwoPhase.State) (pb : Z) :
  let m' := handle (TwoPhase.onSubmit pb) m in
  (rendered m' = rendered m /\ core (hooks m') = core (hooks m)
   /\ timer m' = timer m /\ TwoPhase.showAlert (hooks m') = true)
  \/ (TwoPhase.isSessionActive (hooks m') = false
      /\ timer m' = false
      /\ TwoPhase.currentPhase (hooks m') = TwoPhase.Ready
      /\ TwoPhase.timeRemaining (hooks m') = 0
      /\ TwoPhase.currentRoundIndex (hooks m') = 0%nat
      /\ TwoPhase.tableData (hooks m')
         = Some (generateTable (TwoPhase.tableType (rendered m)) pb)).
Proof.
  cbv zeta. unfold handle, TwoPhase.onSubmit.
  destruct (TwoPhase.tableType (rendered m)).
  - rewrite bool_decide_eq_true_2 by reflexivity.
    rewrite (bool_decide_eq_false_2 (co2 = o2)) by discriminate.
    cbn [andb]. destruct (pb <? 30); [left | right]; repeat split.
  - rewrite (bool_decide_eq_false_2 (o2 = co2)) by discriminate.
    rewrite bool_decide_eq_true_2 by reflexivity.
    cbn [andb]. destruct (pb <? 60); [left | right]; repeat split.
Qed.

Lemma invariant_settled (m : Machine TwoPhase.State) :
  SessionInvariant m -> rendered m = hooks m.
Proof.
  intros [(ph & table & i & t & r & _ & _ & Hc & _)
         | [(Hr & _) | [Hr | Hr]]]; apply Hc || apply Hr.
Qed.

(** A handler that updates nothing the effects depend on keeps the
    invariant. *)
Lemma invariant_ui_only (handler : TwoPhase.State -> Action TwoPhase.State)
    (m : Machine TwoPhase.State) :
  rendered (handle handler m) = rendered m ->
  core (hooks (handle handler m)) = core (hooks m) ->
  timer (handle handler m) = timer m ->
  SessionInvariant m ->
  SessionInvariant (TwoPhase.dispatch handler m).
Proof.
  intros Hr Hc Ht Hinv. pose proof (invariant_settled m Hinv) as Hset.
  destruct (dispatch_ui_only handler m Hset Hr Hc Ht) as (Hh & Hr' & Ht').
  apply (invariant_core m); auto. now rewrite Hh.
Qed.

(** The timeout keeps the invariant. *)
Lemma invariant_tick (m : Machine TwoPhase.State) :
  SessionInvariant m -> timer m = true -> SessionInvariant (TwoPhase.tick m).
Proof.
  intros Hinv Htimer.
  destruct Hinv as [(ph & table & i & t & r & Hg & Hp & Hc & Hl & Ht)
                   | [(Hrest & _) | [Hdone | Hstuck]]].
  2: { destruct Hrest as (_ & Htm & _). congruence. }
  2: { destruct Hdone as (_ & Htm & _). congruence. }
  2: { destruct Hstuck as (_ & Htm & _). congruence. }
  destruct (generated_positive table Hg) as [Hpos Hlen].
  pose proof (lookup_lt_Some _ _ _ Hl) as Hi.
  destruct (positive_lookup table Hpos i r Hl) as [Hpr Hhr].
  destruct Hc as (Hr & Htm & Htab & Hact & Hidx & Hph & Htr).
  rewrite (machine_shape m table Hr Htab).
  rewrite Hact, Hidx, Hph, Htr, Htm.
  destruct Hp as [-> | ->].
  - destruct (tick_prep_session (hooks m) table Hpos i r t (sounds m)
                (threw m) Hl ltac:(lia)) as [snd' ->].
    destruct (Z.ltb_spec 1 t) as [Hgt | Hle].
    + left. exists TwoPhase.Prep, table, i, (t - 1), r.
      cbn [duration] in *. repeat split; auto; lia.
    + destruct (table !! S i) as [next|] eqn:Hnext.
      * destruct (positive_lookup table Hpos (S i) next Hnext) as [Hpn Hhn].
        left. exists TwoPhase.Prep, table, (S i), (prep next), next.
        cbn [duration]. repeat split; auto; lia.
      * right; right; left. apply lookup_ge_None_1 in Hnext.
        repeat split; cbn; try lia.
        exists table. repeat split; auto. cbn. lia.
  - destruct (tick_session (hooks m) table Hpos i t (sounds m) (threw m)
                Hi ltac:(lia)) as [snd' ->].
    destruct (Z.ltb_spec 1 t) as [Hgt | Hle].
    + left. exists TwoPhase.Hold, table, i, (t - 1), r.
      cbn [duration] in *. repeat split; auto; lia.
    + destruct (table !! S i) as [next|] eqn:Hnext.
      * destruct (positive_lookup table Hpos (S i) next Hnext) as [Hpn Hhn].
        left. exists TwoPhase.Hold, table, (S i), (hold next), next.
        cbn [duration]. repeat split; auto; lia.
      * right; right; left. apply lookup_ge_None_1 in Hnext.
        repeat split; cbn; try lia.
        exists table. repeat split; auto. cbn. lia.
Qed.

(** The resumption of a suspended [startSession] keeps the invariant,
    whatever happened since the click. *)
Lemma invariant_resume (m : Machine TwoPhase.State) :
  SessionInvariant m ->
  SessionInvariant
    (TwoPhase.dispatch (fun _ => TwoPhase.startSessionResumed) m).
Proof.
  intros Hinv.
  destruct Hinv as [(ph & table & i & t & r & Hg & Hp & Hc & Hl & Ht)
                   | [(Hrest & Hidx & Hg) | [Hdone | Hstuck]]].
  - (* counting *)
    destruct (generated_positive table Hg) as [Hpos Hlen].
    destruct (lookup_lt_is_Some_2 table 0 ltac:(lia)) as [first Hfirst].
    destruct (positive_lookup table Hpos 0 first Hfirst) as [Hpf Hhf].
    destruct Hc as (Hr & Htm & Htab & Hact & Hi & Hph & Htr).
    rewrite (machine_shape m table Hr Htab).
    rewrite Hact, Hi, Hph, Htr, Htm.
    destruct (resume_counting (hooks m) table Hpos i ph t first (sounds m)
                (threw m) Hfirst ltac:(lia)) as (snd' & t' & -> & Ht').
    left. destruct Ht' as [-> | (-> & -> & ->)].
    + exists TwoPhase.Prep, table, 0%nat, (prep first), first.
      cbn [duration]. repeat split; auto; lia.
    + exists TwoPhase.Prep, table, 0%nat, t, r. repeat split; auto; lia.
  - (* idle before a session *)
    destruct Hrest as (Hr & Htm & Hact & Hph & Htr).
    destruct (TwoPhase.tableData (hooks m)) as [table|] eqn:Htab.
    + destruct (generated_positive table Hg) as [Hpos Hlen].
      destruct (lookup_lt_is_Some_2 table 0 ltac:(lia)) as [first Hfirst].
      destruct (positive_lookup table Hpos 0 first Hfirst) as [Hpf Hhf].
      rewrite (machine_shape m table Hr Htab).
      rewrite Hact, Hidx, Hph, Htr, Htm.
      destruct (resume_idle (hooks m) table Hpos 0 TwoPhase.Ready 0 first
                  (sounds m) (threw m) Hfirst ltac:(lia)) as [snd' ->].
      cbn [Z.eqb]. left.
      exists TwoPhase.Hold, table, 0%nat, (hold first), first.
      cbn [duration]. repeat split; auto; lia.
    + destruct m as [p h tm snd th]. cbn [hooks rendered timer] in *.
      destruct h as [ty td a i ph t ssm sa am].
      cbn [TwoPhase.tableData TwoPhase.isSessionActive
           TwoPhase.currentRoundIndex TwoPhase.currentPhase
           TwoPhase.timeRemaining] in *.
      subst.
      rewrite (proj1 (resume_no_table ty ssm sa am snd th)).
      right; right; right. repeat split.
  - (* idle after a session *)
    destruct Hdone as (Hr & Htm & Hact & Hph & Htr & table & Htab & Hg & Hi).
    destruct (generated_positive table Hg) as [Hpos Hlen].
    destruct (lookup_lt_is_Some_2 table 0 ltac:(lia)) as [first Hfirst].
    destruct (positive_lookup table Hpos 0 first Hfirst) as [Hpf Hhf].
    rewrite (machine_shape m table Hr Htab).
    rewrite Hact, Hph, Htm.
    destruct (resume_idle (hooks m) table Hpos
                (TwoPhase.currentRoundIndex (hooks m)) TwoPhase.Finished
                (TwoPhase.timeRemaining (hooks m)) first
                (sounds m) (threw m) Hfirst Htr) as [snd' ->].
    left. destruct (TwoPhase.timeRemaining (hooks m) =? 0).
    + exists TwoPhase.Hold, table, 0%nat, (hold first), first.
      cbn [duration]. repeat split; auto; lia.
    + exists TwoPhase.Prep, table, 0%nat, (prep first), first.
      cbn [duration]. repeat split; auto; lia.
  - (* active without table *)
    destruct Hstuck as (Hr & Htm & Htab & Hact & Hi & Hph & Htr).
    destruct m as [p h tm snd th]. cbn [hooks rendered timer] in *.
    destruct h as [ty td a i ph t ssm sa am].
    cbn [TwoPhase.tableData TwoPhase.isSessionActive
         TwoPhase.currentRoundIndex TwoPhase.currentPhase
         TwoPhase.timeRemaining] in *.
    subst.
    rewrite (proj2 (resume_no_table ty ssm sa am snd th)).
    right; right; right. repeat split.
Qed.

(** Every event keeps the invariant. *)
Lemma invariant_perform (c : TwoPhaseUI.Component) (e : TwoPhaseUI.Event) :
  SessionInvariant (TwoPhaseUI.machine c) ->
  TwoPhaseUI.enabled c e = true ->
  SessionInvariant (TwoPhaseUI.machine (TwoPhaseUI.perform e c)).
Proof.
  intros Hinv Hen. set (m := TwoPhaseUI.machine c) in *.
  destruct e;
    cbn [TwoPhaseUI.perform TwoPhaseUI.handler TwoPhaseUI.machine];
    fold m.
  - (* SelectTab *)
    apply invariant_after_reset; try reflexivity; try exact I.
  - (* Submit *)
    rewrite handleSubmit_eq. destruct (TwoPhaseUI.FormSchema pb).
    + destruct (onSubmit_cases m pb) as [(Hr & Hc & Ht & _) | Hacc].
      * now apply invariant_ui_only.
      * destruct Hacc as (Ha & Ht & Hp & Htr & Hi & Htab).
        apply invariant_after_reset; auto.
        rewrite Htab. eexists _, _. reflexivity.
    + now apply invariant_ui_only.
  - (* Start: up to the await *)
    now apply invariant_ui_only.
  - (* StartResumes *)
    now apply invariant_resume.
  - (* AskStop *)
    now apply invariant_ui_only.
  - (* ConfirmStop *)
    apply invariant_after_reset; try reflexivity; try exact I.
  - (* CancelStop *)
    now apply invariant_ui_only.
  - (* CloseAlert *)
    now apply invariant_ui_only.
  - (* StartNew *)
    apply invariant_after_reset; try reflexivity; try exact I.
  - (* Timeout *)
    now apply invariant_tick.
Qed.

Lemma reachable_invariant (c : TwoPhaseUI.Component) :
  TwoPhaseUI.reachable c -> SessionInvariant (TwoPhaseUI.machine c).
Proof.
  induction 1 as [|c e _ IH Hen].
  - right; left. repeat split.
  - now apply invariant_perform.
Qed.

(** In every state the two-phase component can reach through its controls,
    its timer and the resumptions of [startSession] (which may come after
    any number of other events): no update is left queued; the timeout is
    pending exactly while the session is active with the countdown above 0;
    an active session with a table bound is in the prep or the hold of an
    existing round of an eight-round table, with a countdown above 0 and at
    most the duration of that phase; an active session with no table bound
    is in the prep of round 1 with the countdown at 0 (and so without a
    timeout); an inactive session shows the phase ready in round 1 with the
    countdown at 0, or the phase finished in the last round of its
    table. *)
Theorem two_phase_reachable_invariant (c : TwoPhaseUI.Component) :
  TwoPhaseUI.reachable c ->
  let s := hooks (TwoPhaseUI.machine c) in
  settled (TwoPhaseUI.machine c) = true
  /\ timer (TwoPhaseUI.machine c)
     = TwoPhase.isSessionActive s && (0 <? TwoPhase.timeRemaining s)
  /\ (TwoPhase.isSessionActive s = true ->
      match TwoPhase.tableData s with
      | Some table =>
          length table = 8%nat
          /\ exists r : TrainingRound,
               table !! TwoPhase.currentRoundIndex s = Some r
               /\ (TwoPhase.currentPhase s = TwoPhase.Prep
                   \/ TwoPhase.currentPhase s = TwoPhase.Hold)
               /\ 0 < TwoPhase.timeRemaining s
                  <= duration (TwoPhase.currentPhase s) r
      | None =>
          TwoPhase.currentPhase s = TwoPhase.Prep
          /\ TwoPhase.currentRoundIndex s = 0%nat
          /\ TwoPhase.timeRemaining s = 0
      end)
  /\ (TwoPhase.isSessionActive s = false ->
      (TwoPhase.currentPhase s = TwoPhase.Ready
       /\ TwoPhase.currentRoundIndex s = 0%nat
       /\ TwoPhase.timeRemaining s = 0)
      \/ (TwoPhase.currentPhase s = TwoPhase.Finished
          /\ 0 <= TwoPhase.timeRemaining s
          /\ exists table : list TrainingRound,
               TwoPhase.tableData s = Some table
               /\ S (TwoPhase.currentRoundIndex s) = length table)).
Proof.
  intros Hreach. apply reachable_invariant in Hreach as Hinv.
  cbv zeta. unfold settled.
  destruct Hinv as [(ph & table & i & t & r & Hg & Hp & Hc & Hl & Ht)
                   | [(Hrest & Hidx & _) | [Hdone | Hstuck]]].
  - destruct Hc as (Hr & Htm & Htab & Hact & Hidx & Hph & Htr).
    destruct (generated_positive table Hg) as [_ Hlen].
    rewrite Htm, Hact, Htab, Hidx, Hph, Htr.
    split; [now apply bool_decide_eq_true_2|].
    split; [cbn [andb]; symmetry; apply Z.ltb_lt; lia|].
    split; [|discriminate]. intros _. split; [exact Hlen|].
    exists r. auto.
  - destruct Hrest as (Hr & Htm & Hact & Hph & Htr).
    rewrite Htm, Hact, Hph, Htr, Hidx.
    split; [now apply bool_decide_eq_true_2|]. split; [reflexivity|].
    split; [discriminate | auto].
  - destruct Hdone as (Hr & Htm & Hact & Hph & Htr & table & Htab & _ & Hi).
    rewrite Htm, Hact, Hph.
    split; [now apply bool_decide_eq_true_2|]. split; [reflexivity|].
    split; [discriminate|]. intros _. right. eauto.
  - destruct Hstuck as (Hr & Htm & Htab & Hact & Hi & Hph & Htr).
    rewrite Htm, Hact, Htab, Hi, Hph, Htr.
    split; [now apply bool_decide_eq_true_2|]. split; [reflexivity|].
    split; [auto | discriminate].
Qed.

(** A table is bound and the start button pressed; before [Tone.start()]
    resolves the other tab is selected; then the start resumes. *)
Lemma two_phase_reachable_invariant_witness :
  let c := TwoPhaseUI.perform TwoPhaseUI.StartResumes
             (TwoPhaseUI.perform (TwoPhaseUI.SelectTab o2)
                (TwoPhaseUI.perform TwoPhaseUI.Start
                   (TwoPhaseUI.perform (TwoPhaseUI.Submit 90)
                      TwoPhaseUI.mounted))) in
  TwoPhaseUI.reachable c
  /\ TwoPhase.isSessionActive (hooks (TwoPhaseUI.machine c)) = true
  /\ TwoPhase.tableData (hooks (TwoPhaseUI.machine c)) = None
  /\ settled (TwoPhaseUI.machine c) = true
  /\ timer (TwoPhaseUI.machine c) = false.
Proof.
  intros c.
  assert (Hreach : TwoPhaseUI.reachable c).
  { repeat (apply TwoPhaseUI.reachable_perform;
            [| vm_compute; reflexivity]).
    apply TwoPhaseUI.reachable_mounted. }
  destruct (two_phase_reachable_invariant c Hreach) as (Hs & Ht & _).
  split; [exact Hreach|]. split; [reflexivity|]. split; [reflexivity|].
  split; [exact Hs|]. rewrite Ht. reflexivity.
Defined.


Lemma dispatch_inactive_sounds
    (handler : TwoPhase.State -> Action TwoPhase.State)
    (m : Machine TwoPhase.State) :
  TwoPhase.isSessionActive (hooks (handle handler m)) = false ->
  timer (handle handler m) = false ->
  sounds (TwoPhase.dispatch handler m) = sounds (handle handler m).
Proof.
  intros Hact Htm. unfold TwoPhase.dispatch. cbv zeta.
  unfold TwoPhase.renderBudget.
  replace (4 * TwoPhase.tableLength (handle handler m) + 4)%nat
    with (S (4 * TwoPhase.tableLength (handle handler m) + 3)) by lia.
  destruct (two_phase_settle_inactive
              (4 * TwoPhase.tableLength (handle handler m) + 3)
              (handle handler m) Hact Htm) as (_ & _ & Hsnd & _ & _).
  exact Hsnd.
Qed.


(** *** Resets *)

(** Selecting a tab, and submitting a personal best that [onSubmit]
    accepts, reset the session wherever it was: afterwards the component is
    settled and idle in the phase ready, in round 0, with the countdown at
    0 and no timeout pending, and no cue was requested.  The tab change
    unbinds the table; the submission binds the table generated for the
    variant of the tab. *)
Theorem two_phase_resets (m : Machine TwoPhase.State) :
  (forall value : TableType,
     let m' := TwoPhase.dispatch (TwoPhase.handleTabChange value) m in
     Resting TwoPhase.Ready m'
     /\ TwoPhase.currentRoundIndex (hooks m') = 0%nat
     /\ TwoPhase.tableType (hooks m') = value
     /\ TwoPhase.tableData (hooks m') = None
     /\ sounds m' = sounds m)
  /\ (forall pb : Z,
        let variant := TwoPhase.tableType (rendered m) in
        (variant = co2 /\ 30 <= pb) \/ (variant = o2 /\ 60 <= pb) ->
        let m' := TwoPhase.dispatch (TwoPhase.onSubmit pb) m in
        Resting TwoPhase.Ready m'
        /\ TwoPhase.currentRoundIndex (hooks m') = 0%nat
        /\ TwoPhase.tableData (hooks m') = Some (generateTable variant pb)
        /\ sounds m' = sounds m).
Proof.
  split.
  - intros value m'.
    assert (Hact : TwoPhase.isSessionActive
                     (hooks (handle (TwoPhase.handleTabChange value) m))
                   = false) by reflexivity.
    assert (Htim : timer (handle (TwoPhase.handleTabChange value) m) = false)
      by reflexivity.
    destruct (dispatch_inactive (TwoPhase.handleTabChange value) m Hact Htim)
      as (Hh & Hr & Ht).
    pose proof (dispatch_inactive_sounds (TwoPhase.handleTabChange value) m
                  Hact Htim) as Hsnd.
    fold m' in Hh, Hr, Ht, Hsnd.
    unfold Resting. rewrite Hr, Ht, Hh, Hsnd.
    split; [|split; [|split; [|split]]]; try reflexivity.
    split; [reflexivity|]. split; [reflexivity|]. split; [reflexivity|].
    split; reflexivity.
  - intros pb variant Hok m'.
    assert (Heq : handle (TwoPhase.onSubmit pb) m
                  = handle (fun _ =>
                      block [ TwoPhase.setTableData
                                (Some (generateTable variant pb));
                              TwoPhase.resetSessionState ]) m).
    { unfold handle, TwoPhase.onSubmit. fold variant.
      destruct Hok as [[-> H] | [-> H]].
      - rewrite bool_decide_eq_true_2 by reflexivity.
        rewrite (proj2 (Z.ltb_ge pb 30)) by lia.
        rewrite (bool_decide_eq_false_2 (co2 = o2)) by discriminate.
        reflexivity.
      - rewrite (bool_decide_eq_false_2 (o2 = co2)) by discriminate.
        rewrite bool_decide_eq_true_2 by reflexivity.
        rewrite (proj2 (Z.ltb_ge pb 60)) by lia. reflexivity. }
    assert (Hact : TwoPhase.isSessionActive
                     (hooks (handle (TwoPhase.onSubmit pb) m)) = false)
      by (rewrite Heq; reflexivity).
    assert (Htim : timer (handle (TwoPhase.onSubmit pb) m) = false)
      by (rewrite Heq; reflexivity).
    destruct (dispatch_inactive (TwoPhase.onSubmit pb) m Hact Htim)
      as (Hh & Hr & Ht).
    pose proof (dispatch_inactive_sounds (TwoPhase.onSubmit pb) m Hact Htim)
      as Hsnd.
    fold m' in Hh, Hr, Ht, Hsnd.
    unfold Resting. rewrite Hr, Ht, Hh, Hsnd, Heq.
    generalize (generateTable variant pb). intros table.
    split; [|split; [|split]]; try reflexivity.
    split; [reflexivity|]. split; [reflexivity|]. split; [reflexivity|].
    split; reflexivity.
Qed.

Lemma two_phase_resets_witness :
  let m' := TwoPhase.dispatch (TwoPhase.onSubmit 75) twoPhaseStarted in
  Resting TwoPhase.Ready m'
  /\ TwoPhase.tableData (hooks m') = Some (generateCo2Table 75).
Proof.
  destruct (two_phase_resets twoPhaseStarted) as [_ H].
  destruct (H 75) as (Hr & _ & Ht & _).
  - left. split; [reflexivity | lia].
  - exact (conj Hr Ht).
Defined.

(** *** The form *)

(** Through the form of the two-phase component: a personal best outside 30
    to 600 seconds changes nothing in the component; within that range a
    CO2 submission always binds its table, an O2 submission binds its table
    from 60 seconds on and opens the alert, leaving session and table as
    they were, below 60 seconds.  The alert of [onSubmit] for CO2 tables
    can therefore never open. *)
Theorem form_submission (m : Machine TwoPhase.State) (pb : Z) :
  let variant := TwoPhase.tableType (rendered m) in
  let m' := handle (TwoPhaseUI.handleSubmit pb) m in
  (pb < 30 \/ 600 < pb -> hooks m' = hooks m)
  /\ (30 <= pb <= 600 -> variant = co2 \/ 60 <= pb ->
      TwoPhase.tableData (hooks m') = Some (generateTable variant pb)
      /\ TwoPhase.showAlert (hooks m') = TwoPhase.showAlert (hooks m))
  /\ (30 <= pb < 60 -> variant = o2 ->
      TwoPhase.showAlert (hooks m') = true
      /\ sessionState (hooks m') = sessionState (hooks m))
  /\ (TwoPhase.showAlert (hooks m') <> TwoPhase.showAlert (hooks m) ->
      variant = o2 /\ 30 <= pb < 60).
Proof.
  cbv zeta. unfold handle, TwoPhaseUI.handleSubmit, TwoPhaseUI.FormSchema,
    TwoPhase.onSubmit.
  destruct (Z.leb_spec 30 pb) as [H30 | H30];
    destruct (Z.leb_spec pb 600) as [H600 | H600]; cbn [andb].
  2-4: repeat split; try lia; intros; try lia;
    match goal with H : _ <> _ |- _ => exfalso; apply H; reflexivity end.
  destruct (TwoPhase.tableType (rendered m)) eqn:Hty.
  - rewrite bool_decide_eq_true_2 by reflexivity.
    rewrite (proj2 (Z.ltb_ge pb 30)) by lia. cbn [andb].
    rewrite (bool_decide_eq_false_2 (co2 = o2)) by discriminate.
    cbn [andb].
    repeat split; try lia; intros; try lia; try congruence.
    all: exfalso; auto.
  - rewrite (bool_decide_eq_false_2 (o2 = co2)) by discriminate.
    rewrite bool_decide_eq_true_2 by reflexivity. cbn [andb].
    destruct (Z.ltb_spec pb 60) as [H60 | H60].
    + repeat split; try lia; intros; try lia; try congruence.
      all: try (destruct H0; [discriminate | lia]).
    + repeat split; try lia; intros; try lia; try congruence.
      all: try (exfalso; auto).
Qed.

Lemma form_submission_witness :
  let m := TwoPhase.dispatch (TwoPhase.handleTabChange o2) TwoPhase.initial in
  TwoPhase.showAlert (hooks (handle (TwoPhaseUI.handleSubmit 45) m)) = true
  /\ TwoPhase.tableData (hooks (handle (TwoPhaseUI.handleSubmit 45) m)) = None
  /\ TwoPhase.tableData (hooks (handle (TwoPhaseUI.handleSubmit 60) m))
     = Some (generateO2Table 60).
Proof.
  intros m.
  destruct (form_submission m 45) as (_ & _ & Halert & _).
  destruct (form_submission m 60) as (_ & Hbind & _).
  destruct Halert as [Ha _]; [lia | reflexivity |].
  destruct Hbind as [Hb _]; [lia | right; lia |].
  split; [exact Ha|]. split; [reflexivity | exact Hb].
Defined.

(** *** The tick cue and the display *)

(** In both engines the timeout callback requests the tick cue exactly when
    the time it leaves on the countdown makes the timer display pulse
    (3, 2 or 1 seconds).  It requests nothing else, and the timeout is no
    longer pending afterwards. *)
Theorem tick_cue_matches_display :
  (forall m : Machine TwoPhase.State,
     rendered m = hooks m ->
     let m' := elapse TwoPhase.onTimeout m in
     TwoPhase.timeRemaining (hooks m')
     = TwoPhase.timeRemaining (hooks m) - 1
     /\ sounds m'
        = sounds m
          ++ (if isEnding (TwoPhase.timeRemaining (hooks m'))
              then [TickSound] else [])
     /\ timer m' = false)
  /\
  (forall m : Machine ThreePhase.State,
     rendered m = hooks m ->
     let m' := elapse ThreePhase.onTimeout m in
     ThreePhase.timeRemaining (hooks m')
     = js_sub (ThreePhase.timeRemaining (hooks m)) 1
     /\ sounds m'
        = sounds m
          ++ (if isEndingJs (ThreePhase.timeRemaining (hooks m'))
              then [TickSound] else [])
     /\ timer m' = false).
Proof.
  split; intros m Hr m'; subst m'.
  - unfold elapse, TwoPhase.onTimeout. rewrite Hr.
    set (t := TwoPhase.timeRemaining (hooks m)).
    assert (Hcond : (1 <? t) && (t <=? 4) = isEnding (t - 1)).
    { unfold isEnding.
      destruct (Z.ltb_spec 1 t), (Z.leb_spec t 4),
        (Z.leb_spec (t - 1) 3), (Z.ltb_spec 0 (t - 1)); cbn; lia. }
    rewrite Hcond. cbn [block foldl].
    destruct (isEnding (t - 1)) eqn:He; cbn; rewrite ?He;
      repeat split; fold t; rewrite ?He; auto using app_nil_r.
  - unfold elapse, ThreePhase.onTimeout. rewrite Hr.
    set (v := ThreePhase.timeRemaining (hooks m)).
    assert (Hcond : js_gt v 1 && js_le v 4 = isEndingJs (js_sub v 1)).
    { unfold isEndingJs. destruct v as [z| |]; cbn; [|reflexivity..].
      destruct (Z.ltb_spec 1 z), (Z.leb_spec z 4),
        (Z.leb_spec (z - 1) 3), (Z.ltb_spec 0 (z - 1)); cbn; lia. }
    rewrite Hcond. cbn [block foldl].
    destruct (isEndingJs (js_sub v 1)) eqn:He; cbn; rewrite ?He;
      repeat split; auto using app_nil_r.
Qed.

Lemma tick_cue_matches_display_witness :
  sounds (elapse TwoPhase.onTimeout (TwoPhase.ticks 50 twoPhaseStarted))
  = sounds (TwoPhase.ticks 50 twoPhaseStarted) ++ [TickSound].
Proof.
  destruct tick_cue_matches_display as [H _].
  destruct (H (TwoPhase.ticks 50 twoPhaseStarted) eq_refl) as (_ & Hs & _).
  exact Hs.
Defined.


(** ** Further properties of the three-phase engine *)

Ltac machine_eq3 :=
  cbv [ block foldl update skip clearTimeout setTimeout play raise render
        playStartSound playEndSound playTickSound handle elapse
        hooks rendered timer sounds threw sessionAt3
        ThreePhase.setTableType ThreePhase.setTableData
        ThreePhase.setIsSessionActive ThreePhase.setCurrentRoundIndex
        ThreePhase.setCurrentPhase ThreePhase.setTimeRemaining
        ThreePhase.setShowStopModal ThreePhase.countdownCleanup
        ThreePhase.tableType ThreePhase.tableData ThreePhase.isSessionActive
        ThreePhase.currentRoundIndex ThreePhase.currentPhase
        ThreePhase.timeRemaining ThreePhase.showStopModal ];
  rewrite <- ?app_assoc, ?Nat.add_1_r; try reflexivity.

Section ThreePhaseSession.
Variable ui : ThreePhase.State.
Variable table : list TrainingRound.

Local Abbreviation st3 := (sessionAt3 ui table).
Local Abbreviation step3 := (step ThreePhase.commit ThreePhase.onTimeout).
Local Abbreviation run3 := (run ThreePhase.commit ThreePhase.onTimeout).

(** The render in which the countdown of an active session shows 0. *)
Lemma step3_boundary (p : ThreePhase.State) (i : nat)
    (ph : ThreePhase.Phase) (tm : bool) (snd : list Cue) (th : bool) :
  p <> st3 true i ph (Int 0) ->
  ph <> ThreePhase.Finished ->
  step3 (mkMachine p (st3 true i ph (Int 0)) tm snd th)
  = afterBoundary ui table i ph snd th.
Proof.
  intros Hne Hph.
  rewrite step_unsettled by (cbv [hooks rendered]; congruence).
  rewrite three_phase_commit_at_zero by reflexivity.
  cbv [hooks]. unfold ThreePhase.advancePhase, afterBoundary, entered.
  cbv [sessionAt3 ThreePhase.tableData ThreePhase.currentPhase
       ThreePhase.currentRoundIndex].
  destruct ph; try congruence; rewrite ?Nat.add_1_r.
  - destruct (table !! i) as [r|]; cbn [mbind option_bind];
      rewrite ?andb_false_r; machine_eq3.
  - destruct (table !! i) as [r|]; cbn [mbind option_bind];
      [|machine_eq3].
    rewrite (bool_decide_eq_true_2 (ThreePhase.Hold = ThreePhase.Hold))
      by reflexivity.
    rewrite andb_true_r. case_bool_decide; machine_eq3.
  - destruct (table !! S i) as [r|]; cbn [mbind option_bind];
      rewrite ?andb_false_r; machine_eq3.
Qed.

(** The render of a countdown above 0 arms the timer and queues nothing. *)
Lemma step3_arm (p : ThreePhase.State) (i : nat) (ph : ThreePhase.Phase)
    (t : Z) (tm : bool) (snd : list Cue) (th : bool) :
  p <> st3 true i ph (Int t) ->
  0 < t ->
  step3 (mkMachine p (st3 true i ph (Int t)) tm snd th)
  = mkMachine (st3 true i ph (Int t)) (st3 true i ph (Int t)) true snd th.
Proof.
  intros Hne Ht.
  rewrite step_unsettled by (cbv [hooks rendered]; congruence).
  unfold ThreePhase.commit, ThreePhase.boundaryEffect,
    ThreePhase.countdownEffect.
  cbv [hooks sessionAt3 ThreePhase.isSessionActive ThreePhase.timeRemaining
       js_is_zero js_le].
  rewrite (proj2 (Z.eqb_neq t 0)) by lia.
  rewrite (proj2 (Z.leb_gt t 0)) by lia.
  machine_eq3.
Qed.

(** The timeout of a settled, counting machine. *)
Lemma step3_elapse (i : nat) (ph : ThreePhase.Phase) (t : Z)
    (snd : list Cue) (th : bool) :
  step3 (mkMachine (st3 true i ph (Int t)) (st3 true i ph (Int t)) true
           snd th)
  = mkMachine (st3 true i ph (Int t)) (st3 true i ph (Int (t - 1))) false
      (snd ++ if (1 <? t) && (t <=? 4) then [TickSound] else []) th.
Proof.
  unfold step, settled. cbv [hooks rendered timer].
  rewrite bool_decide_eq_true_2 by reflexivity.
  unfold elapse, ThreePhase.onTimeout.
  cbv [rendered sessionAt3 ThreePhase.timeRemaining js_gt js_le js_sub].
  destruct ((1 <? t) && (t <=? 4)); machine_eq3.
  now rewrite app_nil_r.
Qed.

Lemma tickCues_step (t : Z) :
  0 < t ->
  (if (1 <? t) && (t <=? 4) then [TickSound] else []) ++ tickCues (t - 1)
  = tickCues t.
Proof.
  intros Ht. unfold tickCues.
  destruct (Z.ltb_spec 1 t) as [H1 | H1];
    destruct (Z.leb_spec t 4) as [H4 | H4]; cbn [andb app].
  - replace (Z.to_nat (Z.min t 4 - 1))
      with (S (Z.to_nat (Z.min (t - 1) 4 - 1))) by lia.
    reflexivity.
  - f_equal. lia.
  - f_equal. lia.
  - lia.
Qed.

(** A phase entered with [t] seconds counts down in [t] timeouts, requests
    the tick cues of its last seconds and then ends. *)
Lemma countdown3 (n : nat) :
  forall (p : ThreePhase.State) (i : nat) (ph : ThreePhase.Phase)
         (tm : bool) (snd : list Cue) (th : bool),
    p <> st3 true i ph (Int (Z.of_nat n)) ->
    ph <> ThreePhase.Finished ->
    run3 (2 * n + 1)
      (mkMachine p (st3 true i ph (Int (Z.of_nat n))) tm snd th)
    = afterBoundary ui table i ph (snd ++ tickCues (Z.of_nat n)) th.
Proof.
  induction n as [|n IH]; intros p i ph tm snd th Hne Hph.
  - cbn [Nat.mul Nat.add run]. change (Z.of_nat 0) with 0 in *.
    rewrite step3_boundary by assumption.
    unfold tickCues. cbn. now rewrite app_nil_r.
  - replace (2 * S n + 1)%nat with (S (S (2 * n + 1))) by lia.
    cbn [run]. rewrite step3_arm by (auto; lia).
    rewrite step3_elapse.
    replace (Z.of_nat (S n) - 1) with (Z.of_nat n) by lia.
    rewrite IH; [| cbv [sessionAt3]; intros [= H]; lia | assumption].
    rewrite <- app_assoc. f_equal. f_equal.
    replace (Z.of_nat n) with (Z.of_nat (S n) - 1) by lia.
    apply tickCues_step. lia.
Qed.
End ThreePhaseSession.

Lemma three_phase_machine_shape (m : Machine ThreePhase.State)
    (table : list TrainingRound) :
  ThreePhase.tableData (hooks m) = Some table ->
  m = mkMachine (rendered m)
        (sessionAt3 (hooks m) table (ThreePhase.isSessionActive (hooks m))
           (ThreePhase.currentRoundIndex (hooks m))
           (ThreePhase.currentPhase (hooks m))
           (ThreePhase.timeRemaining (hooks m)))
        (timer m) (sounds m) (threw m).
Proof.
  destruct m as [p h tm snd th]. cbn [rendered hooks timer sounds threw].
  intros Htab. destruct h. cbn in Htab. subst. reflexivity.
Qed.

(** A phase of the three-phase session, from the render that enters it to
    the render that ends it.  Entered with [t] seconds, it takes [t]
    timeouts ([2 t + 1] steps of the component); the cues requested
    meanwhile are the tick cues for the values 4, 3 and 2 the countdown
    passes, then the end cue, then the start cue of the phase that follows,
    if one follows; and the phase that follows is the one [advancePhase]
    determines. *)
Theorem three_phase_phase_runs
    (m : Machine ThreePhase.State) (table : list TrainingRound) (t : Z) :
  hooks m <> rendered m ->
  ThreePhase.tableData (hooks m) = Some table ->
  ThreePhase.isSessionActive (hooks m) = true ->
  ThreePhase.currentPhase (hooks m) <> ThreePhase.Finished ->
  ThreePhase.timeRemaining (hooks m) = Int t ->
  0 <= t ->
  let i := ThreePhase.currentRoundIndex (hooks m) in
  let ph := ThreePhase.currentPhase (hooks m) in
  let m' := run ThreePhase.commit ThreePhase.onTimeout
              (2 * Z.to_nat t + 1) m in
  timer m' = false
  /\ sounds m'
     = sounds m ++ tickCues t ++ [EndSound]
       ++ (if ThreePhase.isSessionActive (hooks m') then [StartSound] else [])
  /\ view3 m'
     = match entered table i ph with
       | Some (k, ph', v) => (true, ph', k, v)
       | None => (false, ThreePhase.Finished, i, Int 0)
       end.
Proof.
  intros Hne Htab Hact Hph Htr Ht. cbv zeta.
  destruct m as [p h tm snd th]. destruct h as [ty td a i ph v sm].
  cbn [hooks rendered sounds ThreePhase.tableData ThreePhase.isSessionActive
       ThreePhase.currentPhase ThreePhase.timeRemaining
       ThreePhase.currentRoundIndex] in *.
  subst td a v.
  pose proof (countdown3
                (ThreePhase.mkState ty (Some table) true i ph (Int t) sm)
                table (Z.to_nat t) p i ph tm snd th) as Hrun.
  replace (Z.of_nat (Z.to_nat t)) with t in Hrun by lia.
  cbv [sessionAt3 ThreePhase.tableType ThreePhase.showStopModal] in Hrun.
  rewrite Hrun; [| congruence | assumption].
  unfold afterBoundary.
  destruct (entered table _ _) as [[[k ph'] v]|];
    cbn; rewrite <- ?app_assoc; auto.
Qed.

Lemma three_phase_phase_runs_witness :
  let m := handle ThreePhase.startSession
             (mkMachine
                (ThreePhase.mkState co2 (Some sampleTable) false 0%nat
                   ThreePhase.Prep (Int 0) false)
                (ThreePhase.mkState co2 (Some sampleTable) false 0%nat
                   ThreePhase.Prep (Int 0) false) false [] false) in
  let m' := run ThreePhase.commit ThreePhase.onTimeout 21 m in
  sounds m'
  = [StartSound; TickSound; TickSound; TickSound; EndSound; StartSound]
  /\ view3 m' = (true, ThreePhase.Hold, 0%nat, Int 20).
Proof.
  intros m m'.
  assert (Hne : hooks m <> rendered m)
    by (intros H; vm_compute in H; discriminate H).
  assert (Hph : ThreePhase.currentPhase (hooks m) <> ThreePhase.Finished)
    by (vm_compute; discriminate).
  destruct (three_phase_phase_runs m sampleTable 10 Hne eq_refl eq_refl Hph
              eq_refl ltac:(lia)) as (_ & Hs & Hv).
  change (2 * Z.to_nat 10 + 1)%nat with 21%nat in Hs, Hv.
  fold m' in Hs, Hv.
  change (view3 m' = (true, ThreePhase.Hold, 0%nat, Int 20)) in Hv.
  assert (Ha : ThreePhase.isSessionActive (hooks m') = true)
    by exact (f_equal (fun v => fst (fst (fst v))) Hv).
  rewrite Ha in Hs.
  exact (conj Hs Hv).
Defined.

(** *** A three-phase session on a table with recovery values *)

Lemma finishRound_found (table : list TrainingRound) (i : nat)
    (r : TrainingRound) :
  table !! i = Some r ->
  recovery r = Some 0 ->
  (forall (j : nat) (y : TrainingRound),
     table !! j = Some y -> (j < i)%nat -> recovery y <> Some 0) ->
  finishRound table = i.
Proof.
  intros Hr Hrec Hmin. unfold finishRound.
  assert (H : list_find (fun r => recovery r = Some 0) table = Some (i, r))
    by (apply list_find_Some; auto).
  now rewrite H.
Qed.

Lemma finishRound_last (table : list TrainingRound) :
  (forall (j : nat) (y : TrainingRound),
     table !! j = Some y -> recovery y <> Some 0) ->
  finishRound table = (length table - 1)%nat.
Proof.
  intros Hall. unfold finishRound.
  assert (H : list_find (fun r => recovery r = Some 0) table = None).
  { apply list_find_None. apply Forall_lookup. intros j y Hy.
    now apply (Hall j y). }
  now rewrite H.
Qed.

Section WellFormedSession.
Variable ui : ThreePhase.State.
Variable table : list TrainingRound.
Hypothesis wellFormed : WellFormed table.

Local Abbreviation st3 := (sessionAt3 ui table).
Local Abbreviation step3 := (step ThreePhase.commit ThreePhase.onTimeout).
Local Abbreviation run3 := (run ThreePhase.commit ThreePhase.onTimeout).

Lemma wellFormed_lookup (i : nat) (r : TrainingRound) :
  table !! i = Some r ->
  0 <= prep r /\ 0 <= hold r /\ exists z : Z, recovery r = Some z /\ 0 <= z.
Proof.
  intros Hr. apply list_elem_of_lookup_2 in Hr.
  unfold WellFormed in wellFormed. rewrite Forall_forall in wellFormed.
  now apply wellFormed.
Qed.

(** The finished machine settles in one more step. *)
Lemma finished3_over (c : ThreePhase.State) (i : nat) (v : JsNumber)
    (snd : list Cue) (th : bool) :
  ThreePhase.isSessionActive c = true ->
  let m := step3 (mkMachine c (st3 false i ThreePhase.Finished v)
                    false snd th) in
  Over3 m /\ ThreePhase.currentRoundIndex (hooks m) = i.
Proof.
  intros Hc. cbv zeta.
  rewrite step_unsettled
    by (cbv [hooks rendered]; intros <-; cbn in Hc; discriminate).
  rewrite three_phase_commit_inactive by reflexivity.
  unfold Over3. cbn. repeat split. apply (settled_render (mkMachine _ _ _ _ _)).
Qed.

(** From the render that enters a phase, the session runs to its end, in
    the round [finishRound] names. *)
Lemma pending3_finishes (fuel : nat) :
  forall (i : nat) (ph : ThreePhase.Phase) (t : Z) (p : ThreePhase.State)
         (tm : bool) (snd : list Cue) (th : bool),
    (remaining3 table i ph <= fuel)%nat ->
    (i < length table)%nat ->
    ph <> ThreePhase.Finished ->
    0 <= t ->
    p <> st3 true i ph (Int t) ->
    (forall (j : nat) (y : TrainingRound),
       table !! j = Some y -> (j < i)%nat -> recovery y <> Some 0) ->
    (ph = ThreePhase.Recovery ->
     forall y : TrainingRound, table !! i = Some y -> recovery y <> Some 0) ->
    exists k : nat,
      Over3 (run3 k (mkMachine p (st3 true i ph (Int t)) tm snd th))
      /\ ThreePhase.currentRoundIndex
           (hooks (run3 k (mkMachine p (st3 true i ph (Int t)) tm snd th)))
         = finishRound table.
Proof.
  induction fuel as [|fuel IH];
    intros i ph t p tm snd th Hrem Hi Hph Ht Hne Hbefore Hhere.
  { destruct ph; cbn in Hrem; try lia; congruence. }
  pose proof (countdown3 ui table (Z.to_nat t) p i ph tm snd th) as Hrun.
  replace (Z.of_nat (Z.to_nat t)) with t in Hrun by lia.
  specialize (Hrun Hne Hph).
  destruct (lookup_lt_is_Some_2 table i Hi) as [r Hr].
  destruct (wellFormed_lookup i r Hr) as (Hp & Hh & z & Hz & Hz0).
  unfold afterBoundary, entered in Hrun.
  destruct ph; try congruence.
  - (* prep is followed by hold *)
    rewrite Hr in Hrun. cbn [mbind option_bind] in Hrun.
    destruct (IH i ThreePhase.Hold (hold r)
                (st3 true i ThreePhase.Prep (Int 0)) false
                ((snd ++ tickCues t) ++ [EndSound; StartSound]) th)
      as (k & Hk); auto; try discriminate.
    { cbn in *. lia. }
    exists (2 * Z.to_nat t + 1 + k)%nat. rewrite run_add, Hrun. exact Hk.
  - (* hold is followed by recovery, or ends the session *)
    rewrite Hr in Hrun. cbn [mbind option_bind] in Hrun.
    destruct (decide (recovery r = Some 0)) as [Hzero | Hnz].
    + rewrite (bool_decide_eq_true_2 _ Hzero) in Hrun.
      exists (2 * Z.to_nat t + 1 + 1)%nat. rewrite run_add, Hrun.
      cbn [run].
      destruct (finished3_over (st3 true i ThreePhase.Hold (Int 0)) i (Int 0)
                  ((snd ++ tickCues t) ++ [EndSound]) th eq_refl)
        as [Hover Hidx].
      split; [exact Hover|]. rewrite Hidx. symmetry.
      now apply (finishRound_found table i r).
    + rewrite (bool_decide_eq_false_2 _ Hnz) in Hrun.
      unfold ThreePhase.property in Hrun. rewrite Hz in Hrun.
      destruct (IH i ThreePhase.Recovery z
                  (st3 true i ThreePhase.Hold (Int 0)) false
                  ((snd ++ tickCues t) ++ [EndSound; StartSound]) th)
        as (k & Hk); auto; try discriminate.
      { cbn in *. lia. }
      { intros _ y Hy. congruence. }
      exists (2 * Z.to_nat t + 1 + k)%nat. rewrite run_add, Hrun. exact Hk.
  - (* recovery is followed by the prep of the next round, or ends *)
    destruct (table !! S i) as [next|] eqn:Hnext;
      cbn [mbind option_bind] in Hrun.
    + destruct (wellFormed_lookup (S i) next Hnext) as (Hp' & _).
      destruct (IH (S i) ThreePhase.Prep (prep next)
                  (st3 true i ThreePhase.Recovery (Int 0)) false
                  ((snd ++ tickCues t) ++ [EndSound; StartSound]) th)
        as (k & Hk); auto; try discriminate.
      { cbn in *. lia. }
      { eapply lookup_lt_Some; eauto. }
      { intros j y Hy Hj. destruct (decide (j = i)) as [-> | Hji].
        - now apply Hhere.
        - apply (Hbefore j y Hy). lia. }
      exists (2 * Z.to_nat t + 1 + k)%nat. rewrite run_add, Hrun. exact Hk.
    + exists (2 * Z.to_nat t + 1 + 1)%nat. rewrite run_add, Hrun.
      cbn [run].
      destruct (finished3_over (st3 true i ThreePhase.Recovery (Int 0)) i
                  (Int 0) ((snd ++ tickCues t) ++ [EndSound]) th eq_refl)
        as [Hover Hidx].
      split; [exact Hover|]. rewrite Hidx.
      apply lookup_ge_None_1 in Hnext.
      rewrite finishRound_last; [lia|].
      intros j y Hy. pose proof (lookup_lt_Some _ _ _ Hy) as Hj.
      destruct (decide (j = i)) as [-> | Hji].
      * now apply Hhere.
      * apply (Hbefore j y Hy). lia.
Qed.
End WellFormedSession.

(** On every non-empty table whose rounds all have a recovery value and no
    negative duration, the three-phase session started from the settled,
    inactive component runs to the phase finished and deactivates; it ends
    in the first round whose recovery value is 0, or in the last round when
    there is none (later rounds are never entered); no timeout is pending
    then and no further step changes the machine. *)
Theorem three_phase_session_finishes
    (table : list TrainingRound) (m : Machine ThreePhase.State) :
  table <> [] ->
  WellFormed table ->
  rendered m = hooks m ->
  ThreePhase.tableData (hooks m) = Some table ->
  ThreePhase.isSessionActive (hooks m) = false ->
  exists n : nat,
    let m' := run ThreePhase.commit ThreePhase.onTimeout n
                (handle ThreePhase.startSession m) in
    Over3 m'
    /\ ThreePhase.currentRoundIndex (hooks m') = finishRound table
    /\ forall k : nat,
         run ThreePhase.commit ThreePhase.onTimeout k m' = m'.
Proof.
  intros Hne Hwf Hr Htab Hact.
  assert (Hfirst : exists first, table !! 0%nat = Some first)
    by (destruct table; [congruence | eauto]).
  destruct Hfirst as [first Hfirst].
  destruct (wellFormed_lookup table Hwf 0 first Hfirst) as (Hp & _).
  assert (Hstart :
    handle ThreePhase.startSession m
    = mkMachine (rendered m)
        (sessionAt3 (hooks m) table true 0 ThreePhase.Prep (Int (prep first)))
        (timer m) (sounds m ++ [StartSound]) false).
  { unfold handle, ThreePhase.startSession. rewrite Hr, Htab.
    cbn [block foldl]. rewrite Hfirst.
    unfold sessionAt3. rewrite <- Htab. machine_eq3. }
  rewrite Hstart.
  destruct (pending3_finishes (hooks m) table Hwf
              (remaining3 table 0 ThreePhase.Prep) 0%nat ThreePhase.Prep
              (prep first) (rendered m) (timer m)
              (sounds m ++ [StartSound]) false) as (k & Hover & Hidx);
    auto; try discriminate; try lia.
  - eapply lookup_lt_Some; eauto.
  - rewrite Hr. intros Heq.
    apply (f_equal ThreePhase.isSessionActive) in Heq.
    rewrite Hact in Heq. discriminate Heq.
  - exists k. cbv zeta. split; [exact Hover|]. split; [exact Hidx|].
    intros j. destruct Hover as (_ & _ & Htm & Hs). now apply idle_run.
Qed.

Lemma three_phase_session_finishes_witness :
  exists n : nat,
    ThreePhase.currentRoundIndex
      (hooks (run ThreePhase.commit ThreePhase.onTimeout n
                (handle ThreePhase.startSession
                   (mkMachine
                      (ThreePhase.mkState co2 (Some sampleTable) false 0%nat
                         ThreePhase.Prep (Int 0) false)
                      (ThreePhase.mkState co2 (Some sampleTable) false 0%nat
                         ThreePhase.Prep (Int 0) false) false [] false))))
    = 1%nat.
Proof.
  destruct (three_phase_session_finishes sampleTable
              (mkMachine
                 (ThreePhase.mkState co2 (Some sampleTable) false 0%nat
                    ThreePhase.Prep (Int 0) false)
                 (ThreePhase.mkState co2 (Some sampleTable) false 0%nat
                    ThreePhase.Prep (Int 0) false) false [] false))
    as (n & _ & Hidx & _); try reflexivity.
  - discriminate.
  - repeat constructor; try (vm_compute; discriminate); eexists;
      (split; [reflexivity | lia]).
  - exists n. exact Hidx.
Defined.

(** *** A three-phase session on a generated table *)



